(** * Attendance backend: the dual-backend record store and its routes

    A shallow embedding of [database.js] (the store helpers, each with a
    document-database branch and an in-memory fallback branch) and of the
    handlers of [routes.js] that read and write through them, followed by
    the properties of the attendance, session and member operations. *)

From Stdlib Require Import List String Ascii ZArith Bool Lia Permutation Sorted.
Import ListNotations.

Local Open Scope Z_scope.
Local Open Scope list_scope.

Notation "a +++ b" := (String.append a b) (at level 60, right associativity).

(** ** JavaScript strings

    Strings are sequences of 8-bit code units, read as U+0000..U+00FF. *)

Module JsString.

  (** WhiteSpace and LineTerminator code points below U+0100: the
      characters removed by [String.prototype.trim] and matched by [\s]. *)
Definition isWhiteSpace (c : ascii) : bool :=
    let n := nat_of_ascii c in
    (Nat.eqb n 9 || Nat.eqb n 10 || Nat.eqb n 11 || Nat.eqb n 12
     || Nat.eqb n 13 || Nat.eqb n 32 || Nat.eqb n 160)%bool.

  (** [toLowerCase] on one code unit: A-Z, and U+00C0..U+00DE but for the
      multiplication sign U+00D7, move up by 32. *)
Definition lowerChar (c : ascii) : ascii :=
    let n := nat_of_ascii c in
    if ((Nat.leb 65 n && Nat.leb n 90)
        || (Nat.leb 192 n && Nat.leb n 222 && negb (Nat.eqb n 215)))%bool
    then ascii_of_nat (n + 32) else c.

Fixpoint toLowerCase (s : string) : string :=
    match s with
    | EmptyString => EmptyString
    | String c r => String (lowerChar c) (toLowerCase r)
    end.

Fixpoint trimStart (s : string) : string :=
    match s with
    | EmptyString => EmptyString
    | String c r => if isWhiteSpace c then trimStart r else s
    end.

Fixpoint trimEnd (s : string) : string :=
    match s with
    | EmptyString => EmptyString
    | String c r =>
        match trimEnd r with
        | EmptyString => if isWhiteSpace c then EmptyString else String c EmptyString
        | r' => String c r'
        end
    end.

Definition trim (s : string) : string := trimEnd (trimStart s).

  (** A string is truthy unless it is empty; an absent field ([undefined])
      fails the same tests, so it is represented by the empty string. *)
Definition truthy (s : string) : bool :=
    match s with EmptyString => false | String _ _ => true end.

  (** [haystack.includes(needle)] *)
Definition includes (haystack needle : string) : bool :=
    match String.index 0 needle haystack with Some _ => true | None => false end.

  (** *** The e-mail pattern [/^[^\s@]+@[^\s@]+\.[^\s@]+$/]

      A backtracking matcher in continuation style: [plus cls k] matches one
      or more characters of the class and then [k], trying every split. *)
Definition notSpaceAt (c : ascii) : bool :=
    (negb (isWhiteSpace c) && negb (Ascii.eqb c "@"%char))%bool.

Fixpoint plus (cls : ascii -> bool) (k : string -> bool) (s : string) : bool :=
    match s with
    | EmptyString => false
    | String c r => (cls c && (k r || plus cls k r))%bool
    end.

Definition lit (ch : ascii) (k : string -> bool) (s : string) : bool :=
    match s with
    | EmptyString => false
    | String c r => (Ascii.eqb c ch && k r)%bool
    end.

Definition atEnd (s : string) : bool :=
    match s with EmptyString => true | String _ _ => false end.

Definition emailRegex_test (s : string) : bool :=
    plus notSpaceAt (lit "@"%char (plus notSpaceAt (lit "."%char (plus notSpaceAt atEnd)))) s.

Fixpoint noWhiteSpace (s : string) : bool :=
    match s with
    | EmptyString => true
    | String c r => (negb (isWhiteSpace c) && noWhiteSpace r)%bool
    end.

End JsString.

(** ** JavaScript [Map] with string keys

    Entries in insertion order. [set] on a present key replaces the value in
    place, on an absent key appends; [delete] removes the entry. *)

Module JsMap.

Definition t (V : Type) : Type := list (string * V).

Definition empty {V} : t V := [].

Fixpoint get {V} (k : string) (m : t V) : option V :=
    match m with
    | [] => None
    | (k', v) :: r => if String.eqb k' k then Some v else get k r
    end.

Fixpoint set {V} (k : string) (v : V) (m : t V) : t V :=
    match m with
    | [] => [(k, v)]
    | (k', v') :: r => if String.eqb k' k then (k, v) :: r else (k', v') :: set k v r
    end.

  (** [m.delete(k)]: the map without the entry, and whether there was one. *)
Fixpoint delete {V} (k : string) (m : t V) : t V * bool :=
    match m with
    | [] => ([], false)
    | (k', v') :: r =>
        if String.eqb k' k then (r, true)
        else let '(r', b) := delete k r in ((k', v') :: r', b)
    end.

Definition values {V} (m : t V) : list V := map snd m.

Definition keys {V} (m : t V) : list string := map fst m.

Definition size {V} (m : t V) : Z := Z.of_nat (List.length m).

  (** [for (let v of m.values()) v.field = ...]: every stored object is
      mutated in place. *)
Definition forEachValue {V} (f : V -> V) (m : t V) : t V :=
    map (fun kv => (fst kv, f (snd kv))) m.

  (** Mutation of the object stored under [k], when there is one. *)
Fixpoint mutate {V} (k : string) (f : V -> V) (m : t V) : t V :=
    match m with
    | [] => []
    | (k', v') :: r =>
        if String.eqb k' k then (k', f v') :: r else (k', v') :: mutate k f r
    end.

End JsMap.

(** ** The document-database driver calls the store makes

    A collection is the list of its documents in insertion order; a unique
    index is a key function whose values may not repeat. *)

Module Mongo.

Section Collection.
Context {A : Type}.

Definition findOne (q : A -> bool) (c : list A) : option A := find q c.

Definition countDocuments (q : A -> bool) (c : list A) : Z :=
      Z.of_nat (List.length (filter q c)).

    (** [insertOne]: [None] is the duplicate-key error (code 11000) raised
        when a unique index already holds the document's key. *)
Definition insertOne (dup : A -> A -> bool) (doc : A) (c : list A)
      : option (list A) :=
      if existsb (fun d => dup d doc) c then None else Some (c ++ [doc]).

Fixpoint deleteOne (q : A -> bool) (c : list A) : list A * Z :=
      match c with
      | [] => ([], 0)
      | d :: r =>
          if q d then (r, 1)
          else let '(r', n) := deleteOne q r in (d :: r', n)
      end.

Definition updateMany (q : A -> bool) (f : A -> A) (c : list A) : list A :=
      map (fun d => if q d then f d else d) c.

Fixpoint updateOne (q : A -> bool) (f : A -> A) (c : list A) : list A :=
      match c with
      | [] => []
      | d :: r => if q d then f d :: r else d :: updateOne q f r
      end.
End Collection.

End Mongo.

(** [Array.prototype.sort(cmp)]: a stable sort; [cmp a b > 0] puts [a]
    after [b]. *)
Fixpoint Array_insert {A} (cmp : A -> A -> Z) (x : A) (l : list A) : list A :=
  match l with
  | [] => [x]
  | y :: r => if cmp x y >? 0 then y :: Array_insert cmp x r else x :: y :: r
  end.

Fixpoint Array_sort {A} (cmp : A -> A -> Z) (l : list A) : list A :=
  match l with
  | [] => []
  | x :: r => Array_insert cmp x (Array_sort cmp r)
  end.

(** ** Entities *)

Module Member.
Record t := mk {
    id : string;
    name : string;
    email : string;
    phone : string;
    address : string;
    created_at : Z;
    first_scan_date : option Z
  }.

Definition with_email (e : string) (m : t) : t :=
    mk (id m) (name m) e (phone m) (address m) (created_at m) (first_scan_date m).

Definition with_first_scan_date (d : Z) (m : t) : t :=
    mk (id m) (name m) (email m) (phone m) (address m) (created_at m) (Some d).
End Member.

Module Session.
Record t := mk {
    id : string;
    session_name : string;
    session_date : string;
    qr_data : string;
    is_active : Z;
    created_at : Z
  }.

Definition with_is_active (a : Z) (s : t) : t :=
    mk (id s) (session_name s) (session_date s) (qr_data s) a (created_at s).
End Session.

(** An attendance record. [marked_manually] is absent on scanned records;
    every reader takes an absent flag as [false]. *)
Module Attendance.
Record t := mk {
    id : string;
    session_id : string;
    member_id : string;
    is_first_time : bool;
    scan_time : Z;
    is_present : bool;
    marked_manually : bool
  }.
End Attendance.

(** ** The store *)

Record Database := mkDatabase {
  members_coll : list Member.t;
  attendance_sessions : list Session.t;
  attendance_records : list Attendance.t
}.

Record FallbackStorage := mkFallback {
  members : JsMap.t Member.t;
  sessions : JsMap.t Session.t;
  attendance : JsMap.t Attendance.t;
  activeSessionId : option string;
  usingFallback : bool
}.

Record Store := mkStore {
  db : option Database;
  fallbackStorage : FallbackStorage
}.

(** A thrown value: its [message] and its [code]. *)
Record Thrown := mkThrown { message : string; code : option Z }.

Definition Result (A : Type) : Type := (A + Thrown)%type.


Definition with_db (d : Database) (st : Store) : Store :=
  mkStore (Some d) (fallbackStorage st).

Definition with_fallback (fb : FallbackStorage) (st : Store) : Store :=
  mkStore (db st) fb.

Definition with_members (m : JsMap.t Member.t) (fb : FallbackStorage) : FallbackStorage :=
  mkFallback m (sessions fb) (attendance fb) (activeSessionId fb) (usingFallback fb).

Definition with_attendance (a : JsMap.t Attendance.t) (fb : FallbackStorage) : FallbackStorage :=
  mkFallback (members fb) (sessions fb) a (activeSessionId fb) (usingFallback fb).

Definition with_sessions (s : JsMap.t Session.t) (active : option string)
  (fb : FallbackStorage) : FallbackStorage :=
  mkFallback (members fb) s (attendance fb) active (usingFallback fb).

Definition with_members_coll (c : list Member.t) (d : Database) : Database :=
  mkDatabase c (attendance_sessions d) (attendance_records d).

Definition with_attendance_sessions (c : list Session.t) (d : Database) : Database :=
  mkDatabase (members_coll d) c (attendance_records d).

Definition with_attendance_records (c : list Attendance.t) (d : Database) : Database :=
  mkDatabase (members_coll d) (attendance_sessions d) c.

(** ** database.js

    Every helper awaits [connectToDatabase] and runs its database branch
    when [database && !fallbackStorage.usingFallback], its fallback branch
    otherwise. The store is taken once start-up has run: the handle is the
    cached one, or [null] after the connection failed. *)

Definition connectToDatabase (st : Store) : option Database := db st.

(** The unique indexes declared by [initializeDatabase]. *)
Definition members_unique (d doc : Member.t) : bool :=
  (String.eqb (Member.id d) (Member.id doc)
   || String.eqb (Member.email d) (Member.email doc))%bool.

Definition sessions_unique (d doc : Session.t) : bool :=
  String.eqb (Session.id d) (Session.id doc).

Definition records_unique (d doc : Attendance.t) : bool :=
  (String.eqb (Attendance.session_id d) (Attendance.session_id doc)
   && String.eqb (Attendance.member_id d) (Attendance.member_id doc))%bool.

Definition getMembers (st : Store) : list Member.t :=
  match connectToDatabase st, usingFallback (fallbackStorage st) with
  | Some database, false => members_coll database
  | _, _ => JsMap.values (members (fallbackStorage st))
  end.

Definition checkEmailExists (st : Store) (email : string) : bool :=
  let normalizedEmail := JsString.toLowerCase (JsString.trim email) in
  match connectToDatabase st, usingFallback (fallbackStorage st) with
  | Some database, false =>
      match Mongo.findOne (fun m => String.eqb (Member.email m) normalizedEmail)
              (members_coll database) with
      | Some _ => true
      | None => false
      end
  | _, _ =>
      existsb (fun member =>
                 String.eqb (JsString.toLowerCase (Member.email member)) normalizedEmail)
        (JsMap.values (members (fallbackStorage st)))
  end.

Definition already_exists_message : string :=
  "A member with this email address already exists"%string.

Definition addMember (st : Store) (memberData : Member.t) : Store * Result Member.t :=
  let normalizedEmail := JsString.toLowerCase (JsString.trim (Member.email memberData)) in
  if checkEmailExists st normalizedEmail then
    (st, inr (mkThrown already_exists_message (Some 11000)))
  else
    let normalizedMemberData := Member.with_email normalizedEmail memberData in
    match connectToDatabase st, usingFallback (fallbackStorage st) with
    | Some database, false =>
        match Mongo.insertOne members_unique normalizedMemberData (members_coll database) with
        | Some c => (with_db (with_members_coll c database) st, inl normalizedMemberData)
        | None => (st, inr (mkThrown already_exists_message None))
        end
    | _, _ =>
        let fb := fallbackStorage st in
        (with_fallback
           (with_members (JsMap.set (Member.id normalizedMemberData) normalizedMemberData
                            (members fb)) fb) st,
         inl normalizedMemberData)
    end.

Definition deleteMember (st : Store) (memberId : string) : Store * Z :=
  match connectToDatabase st, usingFallback (fallbackStorage st) with
  | Some database, false =>
      let '(c, deletedCount) :=
        Mongo.deleteOne (fun m => String.eqb (Member.id m) memberId) (members_coll database) in
      (with_db (with_members_coll c database) st, deletedCount)
  | _, _ =>
      let fb := fallbackStorage st in
      let '(m, deleted) := JsMap.delete memberId (members fb) in
      (with_fallback (with_members m fb) st, if deleted then 1 else 0)
  end.

Definition createSession (st : Store) (sessionData : Session.t) : Store * Result Session.t :=
  match connectToDatabase st, usingFallback (fallbackStorage st) with
  | Some database, false =>
      let deactivated :=
        Mongo.updateMany (fun _ => true) (Session.with_is_active 0)
          (attendance_sessions database) in
      match Mongo.insertOne sessions_unique sessionData deactivated with
      | Some c => (with_db (with_attendance_sessions c database) st, inl sessionData)
      | None =>
          (with_db (with_attendance_sessions deactivated database) st,
           inr (mkThrown "E11000 duplicate key error"%string (Some 11000)))
      end
  | _, _ =>
      let fb := fallbackStorage st in
      let deactivated := JsMap.forEachValue (Session.with_is_active 0) (sessions fb) in
      (with_fallback
         (with_sessions (JsMap.set (Session.id sessionData) sessionData deactivated)
            (Some (Session.id sessionData)) fb) st,
       inl sessionData)
  end.

Definition getActiveSession (st : Store) : option Session.t :=
  match connectToDatabase st, usingFallback (fallbackStorage st) with
  | Some database, false =>
      Mongo.findOne (fun s => Session.is_active s =? 1) (attendance_sessions database)
  | _, _ =>
      match activeSessionId (fallbackStorage st) with
      | Some sid =>
          if JsString.truthy sid then
            match JsMap.get sid (sessions (fallbackStorage st)) with
            | Some session => if Session.is_active session =? 1 then Some session else None
            | None => None
            end
          else None
      | None => None
      end
  end.

Definition getSession (st : Store) (sessionId : string) : option Session.t :=
  match connectToDatabase st, usingFallback (fallbackStorage st) with
  | Some database, false =>
      Mongo.findOne
        (fun s => (String.eqb (Session.id s) sessionId && (Session.is_active s =? 1))%bool)
        (attendance_sessions database)
  | _, _ =>
      match JsMap.get sessionId (sessions (fallbackStorage st)) with
      | Some session => if Session.is_active session =? 1 then Some session else None
      | None => None
      end
  end.

Definition getMember (st : Store) (memberId : string) : option Member.t :=
  match connectToDatabase st, usingFallback (fallbackStorage st) with
  | Some database, false =>
      Mongo.findOne (fun m => String.eqb (Member.id m) memberId) (members_coll database)
  | _, _ => JsMap.get memberId (members (fallbackStorage st))
  end.

(** The fallback key of an attendance record. *)
Definition attendanceKey (sessionId memberId : string) : string :=
  sessionId +++ "-"%string +++ memberId.

Definition getAttendanceRecord (st : Store) (sessionId memberId : string)
  : option Attendance.t :=
  match connectToDatabase st, usingFallback (fallbackStorage st) with
  | Some database, false =>
      Mongo.findOne
        (fun r => (String.eqb (Attendance.session_id r) sessionId
                   && String.eqb (Attendance.member_id r) memberId)%bool)
        (attendance_records database)
  | _, _ =>
      let key := attendanceKey sessionId memberId in
      JsMap.get key (attendance (fallbackStorage st))
  end.

Definition countMemberAttendance (st : Store) (memberId : string) : Z :=
  match connectToDatabase st, usingFallback (fallbackStorage st) with
  | Some database, false =>
      Mongo.countDocuments (fun r => String.eqb (Attendance.member_id r) memberId)
        (attendance_records database)
  | _, _ =>
      fold_left
        (fun count record =>
           if String.eqb (Attendance.member_id record) memberId then count + 1 else count)
        (JsMap.values (attendance (fallbackStorage st))) 0
  end.

(** [now] is the value of [new Date()] at the update. *)
Definition updateMemberFirstScan (st : Store) (memberId : string) (now : Z) : Store :=
  match connectToDatabase st, usingFallback (fallbackStorage st) with
  | Some database, false =>
      with_db
        (with_members_coll
           (Mongo.updateOne (fun m => String.eqb (Member.id m) memberId)
              (Member.with_first_scan_date now) (members_coll database))
           database) st
  | _, _ =>
      let fb := fallbackStorage st in
      with_fallback
        (with_members
           (JsMap.mutate memberId
              (fun member =>
                 match Member.first_scan_date member with
                 | None => Member.with_first_scan_date now member
                 | Some _ => member
                 end)
              (members fb)) fb) st
  end.

Definition addAttendanceRecord (st : Store) (recordData : Attendance.t)
  : Store * Result Attendance.t :=
  match connectToDatabase st, usingFallback (fallbackStorage st) with
  | Some database, false =>
      match Mongo.insertOne records_unique recordData (attendance_records database) with
      | Some c => (with_db (with_attendance_records c database) st, inl recordData)
      | None => (st, inr (mkThrown "E11000 duplicate key error"%string (Some 11000)))
      end
  | _, _ =>
      let fb := fallbackStorage st in
      let key := attendanceKey (Attendance.session_id recordData)
                   (Attendance.member_id recordData) in
      (with_fallback (with_attendance (JsMap.set key recordData (attendance fb)) fb) st,
       inl recordData)
  end.

(** ** routes.js *)

(** One element of the current-attendance report. *)
Module Row.
Record t := mk {
  id : string;
  name : string;
  email : string;
  phone : string;
  is_present : bool;
  scan_time : Z;
  is_first_time : bool;
  marked_manually : bool
}.
End Row.

(** What a handler sends: the status and the JSON body. The [timestamp]
    field of the attendance confirmations, a further clock reading, is left
    out of the body. *)
Inductive Response :=
| json_error (status : Z) (error : string) (code : option string)
| json_member (status : Z) (member : Member.t) (message : string)
| json_message (status : Z) (message : string)
| json_session (sessionId sessionName sessionDate qrData qrCodeImage message : string)
| json_marked (message : string) (isFirstTime : bool) (recordId : string)
| json_attendance (rows : list Row.t)
| json_stats (total_present first_time_count total_members : Z).

Definition dquote : string := String (ascii_of_nat 34) EmptyString.

(** The error names of the specification, as the responses that carry them. *)
Definition SessionNotActive : Response :=
  json_error 400 "Session is not active"%string None.

Definition MemberNotFound : Response :=
  json_error 404 "Member not found"%string None.

Definition AlreadyMarked : Response :=
  json_error 400 "Attendance already marked for this session"%string None.

Definition isEmailExists (r : Response) : Prop :=
  exists error, r = json_error 409 error (Some "EMAIL_EXISTS"%string).

(** [POST /api/members]. [uuid] is the value of [uuidv4()], [now] of
    [new Date()]. *)
Definition post_api_members (st : Store) (uuid : string) (now : Z)
  (name email phone address : string) : Store * Response :=
  if (negb (JsString.truthy name) || negb (JsString.truthy email))%bool then
    (st, json_error 400 "Name and email are required"%string None)
  else
    let cleanName := JsString.trim name in
    let cleanEmail := JsString.toLowerCase (JsString.trim email) in
    let cleanPhone := if JsString.truthy phone then JsString.trim phone else EmptyString in
    let cleanAddress := if JsString.truthy address then JsString.trim address else EmptyString in
    if negb (JsString.emailRegex_test cleanEmail) then
      (st, json_error 400 "Please enter a valid email address"%string None)
    else if checkEmailExists st cleanEmail then
      (st, json_error 409
             ("A member with email "%string +++ dquote +++ cleanEmail +++ dquote
              +++ " already exists. Please use a different email address."%string)
             (Some "EMAIL_EXISTS"%string))
    else
      let newMember := Member.mk uuid cleanName cleanEmail cleanPhone cleanAddress now None in
      match addMember st newMember with
      | (st', inl result) => (st', json_member 201 result "Member added successfully"%string)
      | (st', inr error) =>
          if (JsString.includes (message error) "already exists"%string
              || match code error with Some c => c =? 11000 | None => false end)%bool
          then
            (st', json_error 409
               "A member with this email address already exists. Please use a different email address."%string
               (Some "EMAIL_EXISTS"%string))
          else
            (st', json_error 500 "Failed to add member. Please try again."%string None)
      end.

(** [DELETE /api/members/:id] *)
Definition delete_api_members (st : Store) (id : string) : Store * Response :=
  let '(st', deletedCount) := deleteMember st id in
  if deletedCount =? 0 then (st', json_error 404 "Member not found"%string None)
  else (st', json_message 200 "Member deleted successfully"%string).

(** [POST /api/sessions]. [uuid] is [uuidv4()], [sessionDate] the day part
    of the clock, [baseUrl] the external address, [qrCodeDataURL] what the
    imaging library returns for the scan address ([None]: it throws). *)
Definition post_api_sessions (st : Store) (uuid sessionDate baseUrl : string)
  (qrCodeDataURL : string -> option string) (now : Z) (sessionName : string)
  : Store * Response :=
  if negb (JsString.truthy sessionName) then
    (st, json_error 400 "Session name is required"%string None)
  else
    let sessionId := uuid in
    let qrData := baseUrl +++ "/scan/"%string +++ sessionId in
    match qrCodeDataURL qrData with
    | None => (st, json_error 500 "Failed to create session"%string None)
    | Some image =>
        let newSession := Session.mk sessionId sessionName sessionDate qrData 1 now in
        match createSession st newSession with
        | (st', inl _) =>
            (st', json_session sessionId sessionName sessionDate qrData image
                    "Session created successfully"%string)
        | (st', inr _) => (st', json_error 500 "Failed to create session"%string None)
        end
    end.

(** The confirmation message of a scan. *)
Definition welcome (isFirstTime : bool) (name : string) : string :=
  if isFirstTime then
    "Welcome "%string +++ name +++ "! First time attendance recorded."%string
  else "Attendance marked for "%string +++ name +++ "!"%string.

(** [POST /api/attendance]. [uuid] is [uuidv4()]; [now1] is the clock when
    the first-scan date is written, [now2] when the record is built. *)
Definition post_api_attendance (st : Store) (uuid : string) (now1 now2 : Z)
  (sessionId memberId : string) : Store * Response :=
  if (negb (JsString.truthy sessionId) || negb (JsString.truthy memberId))%bool then
    (st, json_error 400 "Session ID and Member ID are required"%string None)
  else
    match getSession st sessionId with
    | None => (st, SessionNotActive)
    | Some activeSession =>
        match getMember st memberId with
        | None => (st, MemberNotFound)
        | Some member =>
            match getAttendanceRecord st sessionId memberId with
            | Some existingRecord => (st, AlreadyMarked)
            | None =>
                let attendanceCount := countMemberAttendance st memberId in
                let isFirstTime := attendanceCount =? 0 in
                let st1 := if isFirstTime then updateMemberFirstScan st memberId now1 else st in
                let attendanceRecord :=
                  Attendance.mk uuid sessionId memberId isFirstTime now2 true false in
                match addAttendanceRecord st1 attendanceRecord with
                | (st2, inl _) =>
                    (st2, json_marked (welcome isFirstTime (Member.name member))
                            isFirstTime (Attendance.id attendanceRecord))
                | (st2, inr _) =>
                    (st2, json_error 500 "Failed to mark attendance"%string None)
                end
            end
        end
    end.

(** [POST /api/attendance/manual] *)
Definition post_api_attendance_manual (st : Store) (uuid : string) (now1 now2 : Z)
  (memberId : string) : Store * Response :=
  if negb (JsString.truthy memberId) then
    (st, json_error 400 "Member ID is required"%string None)
  else
    match getActiveSession st with
    | None => (st, json_error 400 "No active session found"%string None)
    | Some activeSession =>
        match getMember st memberId with
        | None => (st, MemberNotFound)
        | Some member =>
            match getAttendanceRecord st (Session.id activeSession) memberId with
            | Some existingRecord => (st, AlreadyMarked)
            | None =>
                let attendanceCount := countMemberAttendance st memberId in
                let isFirstTime := attendanceCount =? 0 in
                let st1 := if isFirstTime then updateMemberFirstScan st memberId now1 else st in
                let attendanceRecord :=
                  Attendance.mk uuid (Session.id activeSession) memberId isFirstTime now2
                    true true in
                match addAttendanceRecord st1 attendanceRecord with
                | (st2, inl _) =>
                    (st2, json_marked (Member.name member +++ " marked present manually!"%string)
                            isFirstTime (Attendance.id attendanceRecord))
                | (st2, inr _) =>
                    (st2, json_error 500 "Failed to mark attendance manually"%string None)
                end
            end
        end
    end.

Definition project (member : Member.t) (record : Attendance.t) : Row.t :=
  Row.mk (Member.id member) (Member.name member) (Member.email member)
    (Member.phone member) (Attendance.is_present record) (Attendance.scan_time record)
    (Attendance.is_first_time record) (Attendance.marked_manually record).

(** The comparator [(a, b) => new Date(b.scan_time) - new Date(a.scan_time)]. *)
Definition byScanTimeDesc (a b : Row.t) : Z := Row.scan_time b - Row.scan_time a.

(** [GET /api/attendance/current]. The database branch is the pipeline
    [$match], [$lookup], [$unwind], [$project], [$sort]: one row for every
    member document the lookup finds. The fallback branch is the loop that
    pushes a row for every record of the active session whose member the
    map holds, followed by the sort. *)
Definition get_api_attendance_current (st : Store) : Response :=
  match connectToDatabase st, usingFallback (fallbackStorage st) with
  | Some database, false =>
      match Mongo.findOne (fun s => Session.is_active s =? 1)
              (attendance_sessions database) with
      | None => json_attendance []
      | Some activeSession =>
          let matched :=
            filter (fun r => String.eqb (Attendance.session_id r) (Session.id activeSession))
              (attendance_records database) in
          let unwound :=
            flat_map
              (fun r =>
                 map (fun member => project member r)
                   (filter (fun m => String.eqb (Member.id m) (Attendance.member_id r))
                      (members_coll database)))
              matched in
          json_attendance (Array_sort byScanTimeDesc unwound)
      end
  | _, _ =>
      match getActiveSession st with
      | None => json_attendance []
      | Some activeSession =>
          let attendance :=
            fold_left
              (fun attendance record =>
                 if String.eqb (Attendance.session_id record) (Session.id activeSession) then
                   match JsMap.get (Attendance.member_id record)
                           (members (fallbackStorage st)) with
                   | Some member => attendance ++ [project member record]
                   | None => attendance
                   end
                 else attendance)
              (JsMap.values (attendance (fallbackStorage st))) [] in
          json_attendance (Array_sort byScanTimeDesc attendance)
      end
  end.

(** [GET /api/sessions/:sessionId/stats] *)
Definition get_api_sessions_stats (st : Store) (sessionId : string) : Response :=
  match connectToDatabase st, usingFallback (fallbackStorage st) with
  | Some database, false =>
      let matched :=
        filter (fun r => String.eqb (Attendance.session_id r) sessionId)
          (attendance_records database) in
      let totalMembers := Mongo.countDocuments (fun _ => true) (members_coll database) in
      match matched with
      | [] => json_stats 0 0 totalMembers
      | _ :: _ =>
          json_stats
            (fold_left (fun sum _ => sum + 1) matched 0)
            (fold_left (fun sum r => sum + (if Attendance.is_first_time r then 1 else 0))
               matched 0)
            totalMembers
      end
  | _, _ =>
      let '(totalPresent, firstTimeCount) :=
        fold_left
          (fun '(totalPresent, firstTimeCount) record =>
             if String.eqb (Attendance.session_id record) sessionId then
               (totalPresent + 1,
                if Attendance.is_first_time record then firstTimeCount + 1 else firstTimeCount)
             else (totalPresent, firstTimeCount))
          (JsMap.values (attendance (fallbackStorage st))) (0, 0) in
      json_stats totalPresent firstTimeCount (JsMap.size (members (fallbackStorage st)))
  end.

(** ** Requests that write, and runs of them *)

Inductive Request :=
| RegisterMember (uuid : string) (now : Z) (name email phone address : string)
| DeleteMember (id : string)
| CreateSession (uuid sessionDate baseUrl : string) (qrCodeDataURL : string -> option string)
    (now : Z) (sessionName : string)
| MarkAttendance (uuid : string) (now1 now2 : Z) (sessionId memberId : string)
| MarkManual (uuid : string) (now1 now2 : Z) (memberId : string).

Definition handle (st : Store) (req : Request) : Store * Response :=
  match req with
  | RegisterMember uuid now name email phone address =>
      post_api_members st uuid now name email phone address
  | DeleteMember id => delete_api_members st id
  | CreateSession uuid sessionDate baseUrl qr now sessionName =>
      post_api_sessions st uuid sessionDate baseUrl qr now sessionName
  | MarkAttendance uuid now1 now2 sessionId memberId =>
      post_api_attendance st uuid now1 now2 sessionId memberId
  | MarkManual uuid now1 now2 memberId =>
      post_api_attendance_manual st uuid now1 now2 memberId
  end.

(** Requests served one after the other. *)
Definition run (st : Store) (reqs : list Request) : Store :=
  fold_left (fun st req => fst (handle st req)) reqs st.

(** The member a request marks present, when it is an attendance request. *)
Definition marked_member (req : Request) : option string :=
  match req with
  | MarkAttendance _ _ _ _ memberId => Some memberId
  | MarkManual _ _ _ memberId => Some memberId
  | _ => None
  end.

(** ** Views of the store used in the statements *)

(** Whether the helpers take their database branch. *)
Definition persistent (st : Store) : bool :=
  match connectToDatabase st, usingFallback (fallbackStorage st) with
  | Some _, false => true
  | _, _ => false
  end.

(** Every attendance record the active backend holds. *)
Definition records (st : Store) : list Attendance.t :=
  match connectToDatabase st, usingFallback (fallbackStorage st) with
  | Some database, false => attendance_records database
  | _, _ => JsMap.values (attendance (fallbackStorage st))
  end.

(** Every session the active backend holds. *)
Definition stored_sessions (st : Store) : list Session.t :=
  match connectToDatabase st, usingFallback (fallbackStorage st) with
  | Some database, false => attendance_sessions database
  | _, _ => JsMap.values (sessions (fallbackStorage st))
  end.

Definition for_pair (sessionId memberId : string) (r : Attendance.t) : bool :=
  (String.eqb (Attendance.session_id r) sessionId
   && String.eqb (Attendance.member_id r) memberId)%bool.

Definition for_member (memberId : string) (r : Attendance.t) : bool :=
  String.eqb (Attendance.member_id r) memberId.

Definition for_session (sessionId : string) (r : Attendance.t) : bool :=
  String.eqb (Attendance.session_id r) sessionId.

Definition count_records (p : Attendance.t -> bool) (st : Store) : nat :=
  List.length (filter p (records st)).

Definition active (s : Session.t) : bool := Session.is_active s =? 1.

(** The fallback maps are filled by [sessions.set(sessionData.id, sessionData)]
    and [attendance.set(key, recordData)] only: an entry's key is computed
    from its value. *)
Definition sessions_keyed (st : Store) : Prop :=
  Forall (fun kv => fst kv = Session.id (snd kv)) (sessions (fallbackStorage st)).

Definition attendance_keyed (st : Store) : Prop :=
  Forall (fun kv => fst kv = attendanceKey (Attendance.session_id (snd kv))
                              (Attendance.member_id (snd kv)))
    (attendance (fallbackStorage st)).

Definition empty_fallback (flag : bool) : FallbackStorage :=
  mkFallback JsMap.empty JsMap.empty JsMap.empty None flag.

(** The store of a process whose connection failed at start-up. *)
Definition fallback_store : Store := mkStore None (empty_fallback true).

(** The store of a process connected to an empty database. *)
Definition database_store : Store :=
  mkStore (Some (mkDatabase [] [] [])) (empty_fallback false).

(** ** Auxiliary definitions and sample stores *)

Ltac split_store st :=
  let database := fresh "database" in
  let ms := fresh "ms" in
  let ss := fresh "ss" in
  let att := fresh "att" in
  let aid := fresh "aid" in
  destruct st as [[database|] [ms ss att aid [|]]].

(** The part of the two attendance handlers that writes: the first-scan
    update when the member has no record yet, then the insertion. *)
Definition record_attendance (st : Store) (uuid : string) (now1 now2 : Z)
  (sessionId memberId : string) (manual : bool) : Store * Result Attendance.t :=
  let isFirstTime := countMemberAttendance st memberId =? 0 in
  addAttendanceRecord
    (if isFirstTime then updateMemberFirstScan st memberId now1 else st)
    (Attendance.mk uuid sessionId memberId isFirstTime now2 true manual).

Definition sample_member : Member.t :=
  Member.mk "m1" "Ada Lovelace" "ada@x.com" EmptyString EmptyString 1 None.

Definition sample_session : Session.t :=
  Session.mk "s1" "Sunday Service" "2024-01-07" "https://host/scan/s1" 1 2.

(** A fallback store with one member and one active session. *)
Definition sample_fallback : Store :=
  mkStore None
    (mkFallback [("m1"%string, sample_member)] [("s1"%string, sample_session)] []
       (Some "s1"%string) true).

Definition RequiredIds : Response :=
  json_error 400 "Session ID and Member ID are required"%string None.

(** The part of the store the attendance helpers read. *)
Definition same_attendance (st st' : Store) : Prop :=
  persistent st' = persistent st
  /\ records st' = records st
  /\ attendance (fallbackStorage st') = attendance (fallbackStorage st).

(** The part of the store the session helpers read. *)
Definition same_sessions (st st' : Store) : Prop :=
  persistent st' = persistent st
  /\ stored_sessions st' = stored_sessions st
  /\ sessions (fallbackStorage st') = sessions (fallbackStorage st)
  /\ activeSessionId (fallbackStorage st') = activeSessionId (fallbackStorage st).

(** A member whose first-scan date is set while no attendance record
    names it: what a first mark leaves when its insertion does not follow
    the update. *)
Definition scanned_member : Member.t :=
  Member.mk "m1" "Ada Lovelace" "ada@x.com" EmptyString EmptyString 1 (Some 3).

Definition scanned_database : Store :=
  mkStore (Some (mkDatabase [scanned_member] [sample_session] [])) (empty_fallback false).

Definition scanned_fallback : Store :=
  mkStore None
    (mkFallback [("m1"%string, scanned_member)] [("s1"%string, sample_session)] []
       (Some "s1"%string) true).

(** The number of sessions whose active flag is set. *)
Definition active_count (st : Store) : nat :=
  List.length (filter active (stored_sessions st)).

Definition sample_qr (qrData : string) : option string :=
  Some ("data:image/png;base64,"%string +++ qrData).

Definition first_time_in (sessionId : string) (r : Attendance.t) : bool :=
  (for_session sessionId r && Attendance.is_first_time r)%bool.

(** The member documents an attendance record joins with. *)
Definition resolve (st : Store) (memberId : string) : list Member.t :=
  match connectToDatabase st, usingFallback (fallbackStorage st) with
  | Some database, false =>
      filter (fun m => String.eqb (Member.id m) memberId) (members_coll database)
  | _, _ =>
      match JsMap.get memberId (members (fallbackStorage st)) with
      | Some member => [member]
      | None => []
      end
  end.

(** The records of a session joined with the member collection, in
    storage order. *)
Definition joined (st : Store) (sessionId : string) : list Row.t :=
  flat_map
    (fun r => map (fun member => project member r) (resolve st (Attendance.member_id r)))
    (filter (for_session sessionId) (records st)).

(** Newest scan first. *)
Definition newer_first (a b : Row.t) : Prop := Row.scan_time a >= Row.scan_time b.

(** Whether the member id of a record is found in the member collection. *)
Definition resolves (st : Store) (r : Attendance.t) : bool :=
  match getMember st (Attendance.member_id r) with
  | Some _ => true
  | None => false
  end.

(** The store without the attendance records whose member is not found. *)
Definition drop_unresolved (st : Store) : Store :=
  match connectToDatabase st, usingFallback (fallbackStorage st) with
  | Some database, false =>
      with_db
        (with_attendance_records (filter (resolves st) (attendance_records database))
           database) st
  | _, _ =>
      let fb := fallbackStorage st in
      with_fallback
        (with_attendance (filter (fun kv => resolves st (snd kv)) (attendance fb)) fb) st
  end.

Definition registered_store : Store :=
  fst (post_api_members fallback_store "m1" 1 "Ada Lovelace" "ADA@X.COM"
         EmptyString EmptyString).

Definition two_sessions : list Request :=
  [CreateSession "s1" "2024-01-07" "https://host" sample_qr 2 "Sunday Service";
   CreateSession "s2" "2024-01-07" "https://host" sample_qr 3 "Evening Service"].

Definition three_marks : list Request :=
  [RegisterMember "m1" 1 "Ada" "ada@x.com" EmptyString EmptyString;
   RegisterMember "m2" 1 "Bob" "bob@x.com" EmptyString EmptyString;
   RegisterMember "m3" 1 "Cy" "cy@x.com" EmptyString EmptyString;
   RegisterMember "m4" 1 "Di" "di@x.com" EmptyString EmptyString;
   CreateSession "s1" "2024-01-07" "https://host" sample_qr 2 "Sunday Service";
   MarkAttendance "r1" 3 3 "s1" "m1";
   MarkAttendance "r2" 4 4 "s1" "m2";
   CreateSession "s2" "2024-01-14" "https://host" sample_qr 5 "Second Sunday";
   MarkAttendance "r3" 6 6 "s2" "m1";
   MarkManual "r4" 7 7 "m2";
   MarkAttendance "r5" 8 8 "s2" "m3"].

(** ** The remaining handlers of routes.js and of the server file *)

(** One address of a network device, as [os.networkInterfaces()] lists it. *)
Module Alias.
Record t := mk {
  family : string;
  address : string;
  internal : bool
}.
End Alias.

(** The inner loop of [getLocalIPAddress] over the addresses of one device;
    [Some] is the [return] of the function. *)
Fixpoint scanAliases (iface : list Alias.t) : option string :=
  match iface with
  | [] => None
  | alias :: rest =>
      if (String.eqb (Alias.family alias) "IPv4"
          && negb (String.eqb (Alias.address alias) "127.0.0.1")
          && negb (Alias.internal alias))%bool
      then Some (Alias.address alias)
      else scanAliases rest
  end.

(** The outer loop, over the devices in the order [for ... in] visits them. *)
Fixpoint scanInterfaces (interfaces : list (string * list Alias.t)) : option string :=
  match interfaces with
  | [] => None
  | (devName, iface) :: rest =>
      match scanAliases iface with
      | Some found => Some found
      | None => scanInterfaces rest
      end
  end.

Definition getLocalIPAddress (interfaces : list (string * list Alias.t)) : string :=
  match scanInterfaces interfaces with
  | Some found => found
  | None => "localhost"%string
  end.

(** What a template literal prints for a value that may be [undefined]. *)
Definition interpolate (v : option string) : string :=
  match v with
  | Some s => s
  | None => "undefined"%string
  end.

(** [process.env.RENDER_EXTERNAL_URL || `https://${req.get('host')}` ||
    `http://${LOCAL_IP}:${PORT}`], each [||] passing to its right operand
    when the left one is falsy. *)
Definition baseUrl (RENDER_EXTERNAL_URL host : option string) (LOCAL_IP PORT : string)
  : string :=
  let local := "http://"%string +++ LOCAL_IP +++ ":"%string +++ PORT in
  let https := "https://"%string +++ interpolate host in
  let right := if JsString.truthy https then https else local in
  match RENDER_EXTERNAL_URL with
  | Some url => if JsString.truthy url then url else right
  | None => right
  end.

(** The page a scan is answered with; the markup is the templates' matter. *)
Inductive Page :=
| SessionNotFoundPage
| ScanPage (session : Session.t).

(** What the reading handlers send. *)
Inductive Reply :=
| reply_error (status : Z) (error : string)
| reply_members (list_of_members : list Member.t)
| reply_check (exists_ : bool) (email : string)
| reply_active (id session_name session_date qrCodeImage qr_data : string)
| reply_sessions (list_of_sessions : list Session.t)
| reply_page (status : Z) (page : Page).

(** [GET /api/members] *)
Definition get_api_members (st : Store) : Reply := reply_members (getMembers st).

(** [POST /api/check-email] *)
Definition post_api_check_email (st : Store) (email : string) : Reply :=
  if negb (JsString.truthy email) then reply_error 400 "Email is required"%string
  else
    let exists_ := checkEmailExists st email in
    reply_check exists_ (JsString.toLowerCase (JsString.trim email)).

(** [GET /api/sessions/active]. [qrCodeDataURL] is what the imaging library
    returns for the scan address ([None]: it throws). *)
Definition get_api_sessions_active (st : Store) (RENDER_EXTERNAL_URL host : option string)
  (LOCAL_IP PORT : string) (qrCodeDataURL : string -> option string) : Reply :=
  match getActiveSession st with
  | None => reply_error 404 "No active session found"%string
  | Some session =>
      let qrData :=
        baseUrl RENDER_EXTERNAL_URL host LOCAL_IP PORT +++ "/scan/"%string
        +++ Session.id session in
      match qrCodeDataURL qrData with
      | None => reply_error 500 "Failed to fetch active session"%string
      | Some qrCodeImage =>
          reply_active (Session.id session) (Session.session_name session)
            (Session.session_date session) qrCodeImage qrData
      end
  end.

(** The comparator [(a, b) => new Date(b.created_at) - new Date(a.created_at)]
    and the cursor order [{ created_at: -1 }]. *)
Definition byCreatedDesc (a b : Session.t) : Z := Session.created_at b - Session.created_at a.

(** [GET /api/sessions] *)
Definition get_api_sessions (st : Store) : Reply :=
  match connectToDatabase st, usingFallback (fallbackStorage st) with
  | Some database, false =>
      reply_sessions (Array_sort byCreatedDesc (attendance_sessions database))
  | _, _ =>
      reply_sessions
        (Array_sort byCreatedDesc (JsMap.values (sessions (fallbackStorage st))))
  end.

(** [GET /scan/:sessionId] of the server file. *)
Definition get_scan (st : Store) (sessionId : string) : Reply :=
  match getSession st sessionId with
  | None => reply_page 404 SessionNotFoundPage
  | Some session => reply_page 200 (ScanPage session)
  end.

(** ** Further views and invariants used in the statements *)

(** Stored addresses are in lower case. *)
Definition emails_normal (st : Store) : Prop :=
  Forall (fun m => JsString.toLowerCase (Member.email m) = Member.email m) (getMembers st).

(** No two stored members have the same address. *)
Definition emails_unique (st : Store) : Prop :=
  NoDup (map Member.email (getMembers st)).

Definition pair_of (r : Attendance.t) : string * string :=
  (Attendance.session_id r, Attendance.member_id r).

(** No two stored records have the same (session, member) pair. *)
Definition pairs_unique (st : Store) : Prop := NoDup (map pair_of (records st)).

(** The fallback member map is filled by [members.set(member.id, member)]. *)
Definition members_keyed (st : Store) : Prop :=
  Forall (fun kv => fst kv = Member.id (snd kv)) (members (fallbackStorage st)).

(** No two stored members have the same id. *)
Definition member_ids_unique (st : Store) : Prop :=
  NoDup (map Member.id (getMembers st)).


(** Newest session first. *)
Definition newer_session_first (a b : Session.t) : Prop :=
  Session.created_at a >= Session.created_at b.

(** An address is of the registered shape: a local part, [@], a domain,
    a dot and an ending, the three parts non-empty and free of white space
    and of [@]. *)
Fixpoint allNotSpaceAt (s : string) : bool :=
  match s with
  | EmptyString => true
  | String c r => (JsString.notSpaceAt c && allNotSpaceAt r)%bool
  end.

Definition email_shape (s : string) : Prop :=
  exists a b c : string,
    s = a +++ "@"%string +++ b +++ "."%string +++ c
    /\ a <> EmptyString /\ b <> EmptyString /\ c <> EmptyString
    /\ allNotSpaceAt a = true /\ allNotSpaceAt b = true /\ allNotSpaceAt c = true.

(** The address qualifies for [getLocalIPAddress]. *)
Definition external_IPv4 (alias : Alias.t) : bool :=
  (String.eqb (Alias.family alias) "IPv4"
   && negb (String.eqb (Alias.address alias) "127.0.0.1")
   && negb (Alias.internal alias))%bool.

(** Sample runs. *)
Definition two_registrations : list Request :=
  [RegisterMember "m1" 1 "Ada Lovelace" " ADA@X.COM " EmptyString EmptyString;
   RegisterMember "m2" 2 "Ada Again" "ada@x.com" EmptyString EmptyString;
   RegisterMember "m3" 3 "Bob" "Bob@X.com" EmptyString EmptyString].


(** Every attendance record names a stored session. *)
Definition records_name_sessions (st : Store) : Prop :=
  Forall (fun r => In (Attendance.session_id r) (map Session.id (stored_sessions st)))
    (records st).

Definition marks_in_two_sessions : list Request :=
  [RegisterMember "m1" 1 "Ada" "ada@x.com" EmptyString EmptyString;
   CreateSession "s1" "2024-01-07" "https://host" sample_qr 2 "Sunday Service";
   MarkAttendance "r1" 3 3 "s1" "m1";
   MarkManual "r2" 4 4 "m1";
   CreateSession "s2" "2024-01-14" "https://host" sample_qr 5 "Second Sunday";
   MarkAttendance "r3" 6 6 "s1" "m1";
   MarkManual "r4" 7 7 "m1";
   MarkAttendance "r5" 8 8 "s2" "m1"].

(** What every store reached from an empty one satisfies. *)
Definition store_ok (st : Store) : Prop :=
  sessions_keyed st /\ attendance_keyed st /\ members_keyed st
  /\ member_ids_unique st /\ emails_normal st /\ emails_unique st
  /\ pairs_unique st /\ records_name_sessions st /\ (active_count st <= 1)%nat.

(** * Properties *)

(** ** Strings *)

Section StringFacts.
Import JsString.

Lemma lowerChar_idempotent (c : ascii) : lowerChar (lowerChar c) = lowerChar c.
Proof. destruct c as [[] [] [] [] [] [] [] []]; reflexivity. Qed.

Lemma isWhiteSpace_lowerChar (c : ascii) : isWhiteSpace (lowerChar c) = isWhiteSpace c.
Proof. destruct c as [[] [] [] [] [] [] [] []]; reflexivity. Qed.

Lemma toLowerCase_idempotent (s : string) : toLowerCase (toLowerCase s) = toLowerCase s.
Proof.
  induction s as [|c r IH]; simpl; [reflexivity|].
  now rewrite lowerChar_idempotent, IH.
Qed.

Lemma trimStart_toLowerCase (s : string) :
  trimStart (toLowerCase s) = toLowerCase (trimStart s).
Proof.
  induction s as [|c r IH]; simpl; [reflexivity|].
  rewrite isWhiteSpace_lowerChar.
  destruct (isWhiteSpace c); [exact IH | reflexivity].
Qed.

Lemma trimEnd_toLowerCase (s : string) :
  trimEnd (toLowerCase s) = toLowerCase (trimEnd s).
Proof.
  induction s as [|c r IH]; simpl; [reflexivity|].
  rewrite IH, isWhiteSpace_lowerChar.
  destruct (trimEnd r); simpl; [destruct (isWhiteSpace c)|]; reflexivity.
Qed.

Lemma trim_toLowerCase (s : string) : trim (toLowerCase s) = toLowerCase (trim s).
Proof. unfold trim. now rewrite trimStart_toLowerCase, trimEnd_toLowerCase. Qed.

Lemma noWhiteSpace_trim (s : string) : noWhiteSpace s = true -> trim s = s.
Proof.
  intros H.
  assert (Hs : trimStart s = s).
  { destruct s as [|c r]; simpl in *; [reflexivity|].
    apply andb_prop in H as [Hc _]. apply negb_true_iff in Hc. now rewrite Hc. }
  unfold trim. rewrite Hs. clear Hs.
  induction s as [|c r IH]; simpl in *; [reflexivity|].
  apply andb_prop in H as [Hc Hr]. apply negb_true_iff in Hc.
  rewrite (IH Hr), Hc. now destruct r.
Qed.

Lemma plus_noWhiteSpace (k : string -> bool) :
  (forall r, k r = true -> noWhiteSpace r = true) ->
  forall s, plus notSpaceAt k s = true -> noWhiteSpace s = true.
Proof.
  intros Hk s. induction s as [|c r IH]; simpl; [discriminate|].
  intros H. apply andb_prop in H as [Hc H].
  unfold notSpaceAt in Hc. apply andb_prop in Hc as [Hc _]. rewrite Hc. simpl.
  apply orb_prop in H as [H|H]; auto.
Qed.

Lemma lit_noWhiteSpace (ch : ascii) (k : string -> bool) :
  isWhiteSpace ch = false ->
  (forall r, k r = true -> noWhiteSpace r = true) ->
  forall s, lit ch k s = true -> noWhiteSpace s = true.
Proof.
  intros Hch Hk [|c r]; simpl; [discriminate|].
  intros H. apply andb_prop in H as [Hc H].
  apply Ascii.eqb_eq in Hc. subst c. rewrite Hch. simpl. auto.
Qed.

Lemma emailRegex_noWhiteSpace (s : string) :
  emailRegex_test s = true -> noWhiteSpace s = true.
Proof.
  unfold emailRegex_test.
  apply plus_noWhiteSpace. apply lit_noWhiteSpace; [reflexivity|].
  apply plus_noWhiteSpace. apply lit_noWhiteSpace; [reflexivity|].
  apply plus_noWhiteSpace. now intros [|c r].
Qed.

(** A normalized address that passed the pattern is normalized again to
    itself. *)
Lemma normalize_clean (e : string) :
  emailRegex_test (toLowerCase (trim e)) = true ->
  toLowerCase (trim (toLowerCase (trim e))) = toLowerCase (trim e).
Proof.
  intros H. apply emailRegex_noWhiteSpace, noWhiteSpace_trim in H.
  now rewrite H, toLowerCase_idempotent.
Qed.

Lemma truthy_toLowerCase (s : string) : truthy (toLowerCase s) = truthy s.
Proof. now destruct s. Qed.

End StringFacts.

(** ** Maps and collections *)

Section MapFacts.
Context {V : Type}.

Lemma get_set_same (k : string) (v : V) (m : JsMap.t V) :
  JsMap.get k (JsMap.set k v m) = Some v.
Proof.
  induction m as [|[k' v'] r IH]; simpl.
  - now rewrite String.eqb_refl.
  - destruct (String.eqb k' k) eqn:E; simpl.
    + now rewrite String.eqb_refl.
    + now rewrite E.
Qed.

Lemma get_set_other (k k0 : string) (v : V) (m : JsMap.t V) :
  k <> k0 -> JsMap.get k0 (JsMap.set k v m) = JsMap.get k0 m.
Proof.
  intros Hne. induction m as [|[k' v'] r IH]; simpl.
  - apply String.eqb_neq in Hne. now rewrite Hne.
  - destruct (String.eqb k' k) eqn:E; simpl.
    + apply String.eqb_eq in E. subst k'.
      apply String.eqb_neq in Hne. now rewrite Hne.
    + now rewrite IH.
Qed.

Lemma set_fresh (k : string) (v : V) (m : JsMap.t V) :
  JsMap.get k m = None -> JsMap.set k v m = m ++ [(k, v)].
Proof.
  induction m as [|[k' v'] r IH]; simpl; [reflexivity|].
  destruct (String.eqb k' k); [discriminate|].
  intros H. now rewrite IH.
Qed.

Lemma set_present (k : string) (v v0 : V) (m : JsMap.t V) :
  JsMap.get k m = Some v0 -> List.length (JsMap.set k v m) = List.length m.
Proof.
  induction m as [|[k' v'] r IH]; simpl; [discriminate|].
  destruct (String.eqb k' k); simpl; [reflexivity|].
  intros H. now rewrite IH.
Qed.

Lemma get_In (k : string) (v : V) (m : JsMap.t V) :
  JsMap.get k m = Some v -> In (k, v) m.
Proof.
  induction m as [|[k' v'] r IH]; simpl; [discriminate|].
  destruct (String.eqb k' k) eqn:E.
  - apply String.eqb_eq in E. intros [= ->]. left. now subst.
  - intros H. right. auto.
Qed.

Lemma get_mutate_same (k : string) (f : V -> V) (m : JsMap.t V) :
  JsMap.get k (JsMap.mutate k f m) = option_map f (JsMap.get k m).
Proof.
  induction m as [|[k' v'] r IH]; simpl; [reflexivity|].
  destruct (String.eqb k' k) eqn:E; simpl; now rewrite E.
Qed.

Lemma get_mutate_other (k k0 : string) (f : V -> V) (m : JsMap.t V) :
  k <> k0 -> JsMap.get k0 (JsMap.mutate k f m) = JsMap.get k0 m.
Proof.
  intros Hne. induction m as [|[k' v'] r IH]; simpl; [reflexivity|].
  destruct (String.eqb k' k) eqn:E; simpl.
  - apply String.eqb_eq in E. subst k'.
    apply String.eqb_neq in Hne. now rewrite Hne.
  - now rewrite IH.
Qed.

Lemma get_forEachValue (k : string) (f : V -> V) (m : JsMap.t V) :
  JsMap.get k (JsMap.forEachValue f m) = option_map f (JsMap.get k m).
Proof.
  induction m as [|[k' v'] r IH]; simpl; [reflexivity|].
  now destruct (String.eqb k' k).
Qed.

Lemma values_app (m1 m2 : JsMap.t V) :
  JsMap.values (m1 ++ m2) = JsMap.values m1 ++ JsMap.values m2.
Proof. apply map_app. Qed.

Lemma In_values_set (k : string) (v : V) (m : JsMap.t V) :
  In v (JsMap.values (JsMap.set k v m)).
Proof.
  induction m as [|[k' v'] r IH]; simpl; [now left|].
  destruct (String.eqb k' k); simpl; auto.
Qed.

Lemma Forall_set (P : string * V -> Prop) (k : string) (v : V) (m : JsMap.t V) :
  P (k, v) -> Forall P m -> Forall P (JsMap.set k v m).
Proof.
  intros Hkv H. induction H as [|[k' v'] r Hx Hr IH]; simpl.
  - now constructor.
  - destruct (String.eqb k' k); constructor; auto.
Qed.

End MapFacts.

Section CollectionFacts.
Context {A : Type}.

Lemma find_app_None (q : A -> bool) (c : list A) (d : A) :
  find q c = None -> find q (c ++ [d]) = if q d then Some d else None.
Proof.
  induction c as [|x r IH]; simpl; [reflexivity|].
  destruct (q x); [discriminate | exact IH].
Qed.

Lemma find_None_filter (q : A -> bool) (c : list A) :
  find q c = None -> filter q c = [].
Proof.
  induction c as [|x r IH]; simpl; [reflexivity|].
  destruct (q x); [discriminate | exact IH].
Qed.

Lemma existsb_false_find (q : A -> bool) (c : list A) :
  existsb q c = false -> find q c = None.
Proof.
  induction c as [|x r IH]; simpl; [reflexivity|].
  destruct (q x); [discriminate | exact IH].
Qed.

Lemma insertOne_Some (dup : A -> A -> bool) (doc : A) (c c' : list A) :
  Mongo.insertOne dup doc c = Some c' ->
  c' = c ++ [doc] /\ existsb (fun d => dup d doc) c = false.
Proof.
  unfold Mongo.insertOne. destruct (existsb _ c); [discriminate|].
  intros [= <-]. split; reflexivity.
Qed.

End CollectionFacts.

(** ** Backend selection *)

(** In fallback mode the attendance helpers are the map operations. *)
Lemma getAttendanceRecord_fallback (st : Store) (s m : string) :
  persistent st = false ->
  getAttendanceRecord st s m = JsMap.get (attendanceKey s m) (attendance (fallbackStorage st)).
Proof.
  unfold persistent, getAttendanceRecord.
  destruct (connectToDatabase st); [|reflexivity].
  destruct (usingFallback (fallbackStorage st)); [reflexivity | discriminate].
Qed.

Lemma addAttendanceRecord_fallback (st : Store) (r : Attendance.t) :
  persistent st = false ->
  addAttendanceRecord st r =
  (with_fallback
     (with_attendance
        (JsMap.set (attendanceKey (Attendance.session_id r) (Attendance.member_id r)) r
           (attendance (fallbackStorage st))) (fallbackStorage st)) st,
   inl r).
Proof.
  unfold persistent, addAttendanceRecord.
  destruct (connectToDatabase st); [|reflexivity].
  destruct (usingFallback (fallbackStorage st)); [reflexivity | discriminate].
Qed.

Lemma records_fallback (st : Store) :
  persistent st = false -> records st = JsMap.values (attendance (fallbackStorage st)).
Proof.
  unfold persistent, records.
  destruct (connectToDatabase st); [|reflexivity].
  destruct (usingFallback (fallbackStorage st)); [reflexivity | discriminate].
Qed.

(** ** The fallback attendance key *)

(** C10. In the fallback backend a record is stored under the key
    [session_id-member_id]. When two different (session, member) pairs have
    the same key, adding a record for the second pair after one for the
    first succeeds without error, leaves the number of stored records
    unchanged and puts the second record where the first was; and in every
    fallback store [getAttendanceRecord] answers the two pairs alike. *)
Theorem fallback_key_collision_overwrites
  (st : Store) (r1 r2 : Attendance.t) :
  persistent st = false ->
  (Attendance.session_id r1, Attendance.member_id r1)
    <> (Attendance.session_id r2, Attendance.member_id r2) ->
  attendanceKey (Attendance.session_id r1) (Attendance.member_id r1)
    = attendanceKey (Attendance.session_id r2) (Attendance.member_id r2) ->
  let st1 := fst (addAttendanceRecord st r1) in
  let st2 := fst (addAttendanceRecord st1 r2) in
  getAttendanceRecord st1 (Attendance.session_id r1) (Attendance.member_id r1) = Some r1
  /\ snd (addAttendanceRecord st1 r2) = inl r2
  /\ getAttendanceRecord st2 (Attendance.session_id r1) (Attendance.member_id r1) = Some r2
  /\ getAttendanceRecord st2 (Attendance.session_id r2) (Attendance.member_id r2) = Some r2
  /\ List.length (records st2) = List.length (records st1)
  /\ (forall st' : Store, persistent st' = false ->
        getAttendanceRecord st' (Attendance.session_id r1) (Attendance.member_id r1)
        = getAttendanceRecord st' (Attendance.session_id r2) (Attendance.member_id r2)).
Proof.
  intros Hfb _ Hkey st1 st2.
  assert (Hfb1 : persistent st1 = false).
  { subst st1. now rewrite (addAttendanceRecord_fallback st r1 Hfb). }
  assert (Hfb2 : persistent st2 = false).
  { subst st2. now rewrite (addAttendanceRecord_fallback st1 r2 Hfb1). }
  assert (Hget1 : getAttendanceRecord st1 (Attendance.session_id r1) (Attendance.member_id r1)
                  = Some r1).
  { rewrite (getAttendanceRecord_fallback _ _ _ Hfb1). subst st1.
    rewrite (addAttendanceRecord_fallback st r1 Hfb). cbn.
    apply get_set_same. }
  repeat split.
  - exact Hget1.
  - now rewrite (addAttendanceRecord_fallback st1 r2 Hfb1).
  - rewrite (getAttendanceRecord_fallback _ _ _ Hfb2), Hkey. subst st2.
    rewrite (addAttendanceRecord_fallback st1 r2 Hfb1). cbn.
    apply get_set_same.
  - rewrite (getAttendanceRecord_fallback _ _ _ Hfb2). subst st2.
    rewrite (addAttendanceRecord_fallback st1 r2 Hfb1). cbn.
    apply get_set_same.
  - rewrite (records_fallback _ Hfb2), (records_fallback _ Hfb1). subst st2.
    rewrite (addAttendanceRecord_fallback st1 r2 Hfb1). cbn.
    unfold JsMap.values. rewrite !length_map.
    rewrite (getAttendanceRecord_fallback _ _ _ Hfb1), Hkey in Hget1.
    now apply set_present with (v0 := r1).
  - intros st' Hfb'.
    now rewrite !(getAttendanceRecord_fallback _ _ _ Hfb'), Hkey.
Qed.

Lemma fallback_key_collision_overwrites_witness :
  let r1 := Attendance.mk "r1" "a-b" "c" true 1 true false in
  let r2 := Attendance.mk "r2" "a" "b-c" false 2 true false in
  getAttendanceRecord
    (fst (addAttendanceRecord (fst (addAttendanceRecord fallback_store r1)) r2))
    "a-b" "c" = Some r2.
Proof.
  intros r1 r2.
  refine (proj1 (proj2 (proj2
    (fallback_key_collision_overwrites fallback_store r1 r2 _ _ _)))).
  - reflexivity.
  - discriminate.
  - reflexivity.
Defined.

Lemma find_None_existsb {A} (q : A -> bool) (c : list A) :
  find q c = None -> existsb q c = false.
Proof.
  induction c as [|x r IH]; simpl; [reflexivity|].
  destruct (q x); [discriminate | exact IH].
Qed.

Lemma find_updateOne_Some {A} (q q' : A -> bool) (f : A -> A) (c : list A) (x : A) :
  (forall y, q' (f y) = q' y) ->
  find q' c = Some x ->
  exists y, find q' (Mongo.updateOne q f c) = Some y /\ (y = x \/ y = f x).
Proof.
  intros Hf. induction c as [|d r IH]; simpl; [discriminate|].
  destruct (q d) eqn:Hq; simpl.
  - rewrite Hf. destruct (q' d).
    + intros [= <-]. eauto.
    + intros H. exists x. split; [exact H | now left].
  - destruct (q' d).
    + intros [= <-]. eauto.
    + exact IH.
Qed.

(** ** Frames of the store helpers *)

Lemma updateMemberFirstScan_frame (st : Store) (m : string) (n : Z) :
  let st' := updateMemberFirstScan st m n in
  persistent st' = persistent st
  /\ records st' = records st
  /\ stored_sessions st' = stored_sessions st
  /\ (forall s, getSession st' s = getSession st s)
  /\ getActiveSession st' = getActiveSession st
  /\ (forall s m', getAttendanceRecord st' s m' = getAttendanceRecord st s m')
  /\ (forall m', countMemberAttendance st' m' = countMemberAttendance st m')
  /\ sessions (fallbackStorage st') = sessions (fallbackStorage st)
  /\ attendance (fallbackStorage st') = attendance (fallbackStorage st).
Proof.
  split_store st; repeat split; reflexivity.
Qed.

Lemma updateMemberFirstScan_getMember (st : Store) (m m' : string) (n : Z) (x : Member.t) :
  getMember st m' = Some x ->
  exists y, getMember (updateMemberFirstScan st m n) m' = Some y
            /\ Member.name y = Member.name x.
Proof.
  assert (Hmut : forall ms : JsMap.t Member.t,
             JsMap.get m' ms = Some x ->
             exists y,
               JsMap.get m'
                 (JsMap.mutate m
                    (fun member =>
                       match Member.first_scan_date member with
                       | None => Member.with_first_scan_date n member
                       | Some _ => member
                       end) ms) = Some y
               /\ Member.name y = Member.name x).
  { intros ms H. destruct (String.eqb_spec m m') as [->|Hne].
    - rewrite get_mutate_same, H. simpl.
      destruct (Member.first_scan_date x); eauto.
    - rewrite get_mutate_other by assumption. eauto. }
  split_store st; cbn; auto.
  intros H.
  destruct (find_updateOne_Some (fun m0 => String.eqb (Member.id m0) m)
              (fun m0 => String.eqb (Member.id m0) m')
              (Member.with_first_scan_date n) (members_coll database) x
              (fun _ => eq_refl) H) as (y & Hy & [->| ->]); eauto.
Qed.

Lemma addAttendanceRecord_effect (st : Store) (r : Attendance.t) :
  getAttendanceRecord st (Attendance.session_id r) (Attendance.member_id r) = None ->
  exists st',
    addAttendanceRecord st r = (st', inl r)
    /\ persistent st' = persistent st
    /\ records st' = records st ++ [r]
    /\ getAttendanceRecord st' (Attendance.session_id r) (Attendance.member_id r) = Some r
    /\ stored_sessions st' = stored_sessions st
    /\ (forall s, getSession st' s = getSession st s)
    /\ getActiveSession st' = getActiveSession st
    /\ (forall m, getMember st' m = getMember st m)
    /\ getMembers st' = getMembers st
    /\ sessions (fallbackStorage st') = sessions (fallbackStorage st)
    /\ (attendance_keyed st -> attendance_keyed st').
Proof.
  assert (Hfb : forall att : JsMap.t Attendance.t,
             JsMap.get (attendanceKey (Attendance.session_id r) (Attendance.member_id r)) att
             = None ->
             JsMap.values
               (JsMap.set (attendanceKey (Attendance.session_id r) (Attendance.member_id r))
                  r att) = JsMap.values att ++ [r]).
  { intros att H. rewrite (set_fresh _ _ _ H), values_app. reflexivity. }
  split_store st; cbn; intros Hnone.
  2: {
    unfold Mongo.insertOne, records_unique.
    unfold Mongo.findOne in Hnone.
    rewrite (find_None_existsb _ _ Hnone).
    eexists; repeat split; try reflexivity.
    - cbn. unfold Mongo.findOne. rewrite (find_app_None _ _ _ Hnone).
      now rewrite !String.eqb_refl.
    - exact (fun H => H). }
  all: eexists; repeat split; try reflexivity; cbn;
    [ now apply Hfb | apply get_set_same
    | unfold attendance_keyed; cbn; intros Hk; now apply Forall_set ].
Qed.

Lemma record_attendance_effect (st : Store) (uuid : string) (n1 n2 : Z)
  (s m : string) (manual : bool) :
  getAttendanceRecord st s m = None ->
  let r := Attendance.mk uuid s m (countMemberAttendance st m =? 0) n2 true manual in
  exists st',
    record_attendance st uuid n1 n2 s m manual = (st', inl r)
    /\ persistent st' = persistent st
    /\ records st' = records st ++ [r]
    /\ getAttendanceRecord st' s m = Some r
    /\ stored_sessions st' = stored_sessions st
    /\ (forall s0, getSession st' s0 = getSession st s0)
    /\ getActiveSession st' = getActiveSession st
    /\ (forall m0 x, getMember st m0 = Some x ->
          exists y, getMember st' m0 = Some y /\ Member.name y = Member.name x)
    /\ sessions (fallbackStorage st') = sessions (fallbackStorage st)
    /\ (attendance_keyed st -> attendance_keyed st').
Proof.
  intros Hnone r. unfold record_attendance. fold r.
  destruct (countMemberAttendance st m =? 0) eqn:Hft.
  - destruct (updateMemberFirstScan_frame st m n1)
      as (Hp & Hr & Hs & Hgs & Hga & Hgr & _ & Hfs & Hfa).
    cbv zeta in *.
    destruct (addAttendanceRecord_effect (updateMemberFirstScan st m n1) r)
      as (st' & Hadd & Hp' & Hr' & Hget' & Hs' & Hgs' & Hga' & Hgm' & _ & Hfs' & Hk').
    { subst r. cbn. now rewrite Hgr. }
    exists st'. repeat split.
    + exact Hadd.
    + congruence.
    + congruence.
    + exact Hget'.
    + congruence.
    + intros s0. now rewrite Hgs', Hgs.
    + congruence.
    + intros m0 x Hx. rewrite Hgm'. now apply updateMemberFirstScan_getMember.
    + congruence.
    + intros Hk. apply Hk'. unfold attendance_keyed in *. now rewrite Hfa.
  - destruct (addAttendanceRecord_effect st r)
      as (st' & Hadd & Hp' & Hr' & Hget' & Hs' & Hgs' & Hga' & Hgm' & _ & Hfs' & Hk').
    { exact Hnone. }
    exists st'. repeat split; auto.
    intros m0 x Hx. rewrite Hgm'. eauto.
Qed.

(** What a confirmation of [POST /api/attendance] tells about the call. *)
Lemma post_api_attendance_marked (st st' : Store) (uuid : string) (n1 n2 : Z)
  (s m msg : string) (ft : bool) (rid : string) :
  post_api_attendance st uuid n1 n2 s m = (st', json_marked msg ft rid) ->
  JsString.truthy s = true /\ JsString.truthy m = true
  /\ (exists session, getSession st s = Some session)
  /\ (exists member, getMember st m = Some member)
  /\ getAttendanceRecord st s m = None
  /\ ft = (countMemberAttendance st m =? 0)
  /\ rid = uuid
  /\ record_attendance st uuid n1 n2 s m false
     = (st', inl (Attendance.mk uuid s m ft n2 true false)).
Proof.
  unfold post_api_attendance.
  destruct (JsString.truthy s); [|discriminate].
  destruct (JsString.truthy m); [|discriminate]. cbn [negb orb].
  destruct (getSession st s) as [session|]; [|discriminate].
  destruct (getMember st m) as [member|]; [|discriminate].
  destruct (getAttendanceRecord st s m) eqn:Hnone; [discriminate|].
  destruct (record_attendance_effect st uuid n1 n2 s m false Hnone) as (st2 & Hrec & _).
  unfold record_attendance in Hrec. cbv zeta in Hrec. rewrite Hrec.
  intros [= <- <- <- <-]. repeat split; eauto.
Qed.

Lemma post_api_attendance_manual_marked (st st' : Store) (uuid : string) (n1 n2 : Z)
  (m msg : string) (ft : bool) (rid : string) :
  post_api_attendance_manual st uuid n1 n2 m = (st', json_marked msg ft rid) ->
  exists session,
    JsString.truthy m = true
    /\ getActiveSession st = Some session
    /\ (exists member, getMember st m = Some member)
    /\ getAttendanceRecord st (Session.id session) m = None
    /\ ft = (countMemberAttendance st m =? 0)
    /\ rid = uuid
    /\ record_attendance st uuid n1 n2 (Session.id session) m true
       = (st', inl (Attendance.mk uuid (Session.id session) m ft n2 true true)).
Proof.
  unfold post_api_attendance_manual.
  destruct (JsString.truthy m); [|discriminate]. cbn [negb].
  destruct (getActiveSession st) as [session|]; [|discriminate].
  destruct (getMember st m) as [member|]; [|discriminate].
  destruct (getAttendanceRecord st (Session.id session) m) eqn:Hnone; [discriminate|].
  destruct (record_attendance_effect st uuid n1 n2 (Session.id session) m true Hnone)
    as (st2 & Hrec & _).
  unfold record_attendance in Hrec. cbv zeta in Hrec. rewrite Hrec.
  intros [= <- <- <- <-]. exists session. repeat split; eauto.
Qed.

(** ** One record per (session, member) pair *)

Lemma no_record_for_pair (st : Store) (s m : string) :
  attendance_keyed st ->
  getAttendanceRecord st s m = None ->
  filter (for_pair s m) (records st) = [].
Proof.
  assert (Hfb : forall att : JsMap.t Attendance.t,
             Forall (fun kv => fst kv = attendanceKey (Attendance.session_id (snd kv))
                                         (Attendance.member_id (snd kv))) att ->
             JsMap.get (attendanceKey s m) att = None ->
             filter (for_pair s m) (JsMap.values att) = []).
  { intros att Hk Hnone. unfold JsMap.values.
    induction Hk as [|[k r] rest Hkr Hrest IH];
      cbn [map snd fst filter JsMap.get] in *; [reflexivity|].
    destruct (String.eqb k (attendanceKey s m)) eqn:E; [discriminate|].
    rewrite (IH Hnone).
    destruct (for_pair s m r) eqn:Hp; [|reflexivity].
    unfold for_pair in Hp. apply andb_prop in Hp as [Hs Hm].
    apply String.eqb_eq in Hs, Hm. subst k. rewrite Hs, Hm in E.
    now rewrite String.eqb_refl in E. }
  unfold attendance_keyed.
  split_store st; cbn; intros Hk Hnone;
    first [ now apply Hfb | now apply find_None_filter ].
Qed.

(** C1. When a call of [POST /api/attendance] has been confirmed, the same
    call made next (whatever identifier and clock it draws) is refused with
    the already-marked error, changes nothing, and the store holds exactly
    one record for the pair. *)
Theorem mark_twice_already_marked
  (st st1 : Store) (uuid uuid' : string) (n1 n2 n1' n2' : Z)
  (sessionId memberId msg : string) (ft : bool) (rid : string) :
  attendance_keyed st ->
  post_api_attendance st uuid n1 n2 sessionId memberId = (st1, json_marked msg ft rid) ->
  post_api_attendance st1 uuid' n1' n2' sessionId memberId = (st1, AlreadyMarked)
  /\ count_records (for_pair sessionId memberId) st1 = 1%nat.
Proof.
  intros Hkeyed Hmark.
  apply post_api_attendance_marked in Hmark
    as (Hs & Hm & [session Hsess] & [member Hmem] & Hnone & Hft & Hrid & Hrec).
  destruct (record_attendance_effect st uuid n1 n2 sessionId memberId false Hnone)
    as (st' & Hrec' & _ & Hrecords & Hget & _ & Hgs & _ & Hgm & _).
  cbv zeta in *. rewrite <- Hft in *.
  rewrite Hrec in Hrec'. injection Hrec' as <-.
  destruct (Hgm memberId member Hmem) as (member' & Hmem' & _).
  split.
  - unfold post_api_attendance.
    now rewrite Hs, Hm, Hgs, Hsess, Hmem', Hget.
  - unfold count_records. rewrite Hrecords, filter_app.
    rewrite (no_record_for_pair st sessionId memberId Hkeyed Hnone).
    cbn. unfold for_pair. cbn. now rewrite !String.eqb_refl.
Qed.

Lemma mark_twice_already_marked_witness :
  let st1 := fst (post_api_attendance sample_fallback "r1" 5 6 "s1" "m1") in
  post_api_attendance st1 "r2" 7 8 "s1" "m1" = (st1, AlreadyMarked)
  /\ count_records (for_pair "s1" "m1") st1 = 1%nat.
Proof.
  intros st1.
  refine (mark_twice_already_marked sample_fallback st1 "r1" "r2" 5 6 7 8 "s1" "m1"
            _ _ _ _ _).
  - unfold attendance_keyed. cbn. constructor.
  - vm_compute. reflexivity.
Defined.

(** ** Marking without an active session *)

Lemma getSession_inactive (st : Store) (s : string) :
  sessions_keyed st ->
  (forall session, In session (stored_sessions st) ->
     Session.id session = s -> Session.is_active session <> 1) ->
  getSession st s = None.
Proof.
  assert (Hfb : forall ss : JsMap.t Session.t,
             Forall (fun kv => fst kv = Session.id (snd kv)) ss ->
             (forall session, In session (JsMap.values ss) ->
                Session.id session = s -> Session.is_active session <> 1) ->
             match JsMap.get s ss with
             | Some session => if Session.is_active session =? 1 then Some session else None
             | None => None
             end = None).
  { intros ss Hk Hin.
    destruct (JsMap.get s ss) as [session|] eqn:Hget; [|reflexivity].
    apply get_In in Hget.
    rewrite Forall_forall in Hk. pose proof (Hk _ Hget) as Hid. cbn in Hid.
    assert (Hv : In session (JsMap.values ss)).
    { unfold JsMap.values. change session with (snd (s, session)). now apply in_map. }
    destruct (Z.eqb_spec (Session.is_active session) 1) as [Ha|Ha]; [|reflexivity].
    exfalso. exact (Hin session Hv (eq_sym Hid) Ha). }
  unfold sessions_keyed.
  split_store st; cbn; intros Hk Hin; try (now apply Hfb).
  unfold Mongo.findOne.
  destruct (find _ (attendance_sessions database)) as [session|] eqn:Hfind; [|reflexivity].
  apply find_some in Hfind as [Hmem Hq].
  apply andb_prop in Hq as [Hid Ha].
  apply String.eqb_eq in Hid. apply Z.eqb_eq in Ha.
  exfalso. exact (Hin session Hmem Hid Ha).
Qed.

(** C6, as the code has it. When no stored session with the given id is
    active, [POST /api/attendance] changes nothing in the store, and it
    answers with the session-not-active error when both ids are non-empty,
    with the required-fields error when one of them is empty or absent. *)
Theorem mark_without_active_session
  (st : Store) (uuid : string) (n1 n2 : Z) (sessionId memberId : string) :
  sessions_keyed st ->
  (forall session, In session (stored_sessions st) ->
     Session.id session = sessionId -> Session.is_active session <> 1) ->
  post_api_attendance st uuid n1 n2 sessionId memberId
  = (st, if (JsString.truthy sessionId && JsString.truthy memberId)%bool
         then SessionNotActive else RequiredIds).
Proof.
  intros Hk Hin. unfold post_api_attendance.
  rewrite (getSession_inactive st sessionId Hk Hin).
  destruct (JsString.truthy sessionId), (JsString.truthy memberId); reflexivity.
Qed.

Lemma mark_without_active_session_witness :
  post_api_attendance sample_fallback "r1" 5 6 "s2" "m1" = (sample_fallback, SessionNotActive).
Proof.
  refine (mark_without_active_session sample_fallback "r1" 5 6 "s2" "m1" _ _).
  - unfold sessions_keyed. cbn. repeat constructor.
  - cbn. intros session [<-|[]]. cbn. discriminate.
Defined.

(** C6, as stated, fails: no session [s2] exists, the member id is empty,
    and the call is refused with the required-fields error, not with the
    session-not-active one. *)
Lemma mark_without_active_session_counterexample :
  (forall session, In session (stored_sessions sample_fallback) ->
     Session.id session <> "s2"%string)
  /\ post_api_attendance sample_fallback "r1" 5 6 "s2" EmptyString
     = (sample_fallback, RequiredIds)
  /\ RequiredIds <> SessionNotActive.
Proof.
  split; [|split].
  - cbn. intros session [<-|[]]. cbn. discriminate.
  - reflexivity.
  - discriminate.
Qed.

(** ** Frames of the member and session handlers *)

Lemma same_attendance_refl (st : Store) : same_attendance st st.
Proof. repeat split. Qed.

Lemma same_sessions_refl (st : Store) : same_sessions st st.
Proof. repeat split. Qed.

Lemma addMember_frame (st : Store) (memberData : Member.t) :
  same_attendance st (fst (addMember st memberData))
  /\ same_sessions st (fst (addMember st memberData)).
Proof.
  unfold addMember.
  destruct (checkEmailExists st _);
    [split; [apply same_attendance_refl | apply same_sessions_refl]|].
  split_store st; cbn;
    try (split; [apply same_attendance_refl | apply same_sessions_refl]);
    try (repeat split; reflexivity).
  destruct (Mongo.insertOne _ _ _); repeat split; reflexivity.
Qed.

Lemma post_api_members_frame (st : Store) (uuid : string) (now : Z)
  (name email phone address : string) :
  same_attendance st (fst (post_api_members st uuid now name email phone address))
  /\ same_sessions st (fst (post_api_members st uuid now name email phone address)).
Proof.
  unfold post_api_members.
  destruct (_ || _)%bool; [split; [apply same_attendance_refl | apply same_sessions_refl]|].
  destruct (negb _); [split; [apply same_attendance_refl | apply same_sessions_refl]|].
  destruct (checkEmailExists st _);
    [split; [apply same_attendance_refl | apply same_sessions_refl]|].
  match goal with |- context [addMember st ?md] =>
    pose proof (addMember_frame st md) as H; destruct (addMember st md) as [st' [r|e]]
  end; cbn [fst] in *; [exact H|].
  destruct (_ || _)%bool; exact H.
Qed.

Lemma delete_api_members_frame (st : Store) (id : string) :
  same_attendance st (fst (delete_api_members st id))
  /\ same_sessions st (fst (delete_api_members st id)).
Proof.
  unfold delete_api_members, deleteMember.
  split_store st; cbn.
  2: destruct (Mongo.deleteOne _ _) as [c n].
  1, 3, 4: destruct (JsMap.delete _ _) as [c [|]].
  all: cbn; try destruct (n =? 0); repeat split; reflexivity.
Qed.

Lemma createSession_frame (st : Store) (sessionData : Session.t) :
  same_attendance st (fst (createSession st sessionData)).
Proof.
  unfold createSession.
  split_store st; cbn; try (repeat split; reflexivity).
  destruct (Mongo.insertOne _ _ _); repeat split; reflexivity.
Qed.

Lemma post_api_sessions_frame (st : Store) (uuid sessionDate baseUrl : string)
  (qr : string -> option string) (now : Z) (sessionName : string) :
  same_attendance st (fst (post_api_sessions st uuid sessionDate baseUrl qr now sessionName)).
Proof.
  unfold post_api_sessions.
  destruct (negb _); [apply same_attendance_refl|].
  destruct (qr _); [|apply same_attendance_refl].
  match goal with |- context [createSession st ?sd] =>
    pose proof (createSession_frame st sd) as H; destruct (createSession st sd) as [st' [r|e]]
  end; exact H.
Qed.

(** ** Attendance records are only ever appended *)

Lemma attendance_handlers_append (st : Store) (req : Request) (m : string) :
  marked_member req = Some m ->
  (fst (handle st req) = st /\ forall msg ft rid, snd (handle st req) <> json_marked msg ft rid)
  \/ (exists uuid n1 n2 s manual msg,
        getAttendanceRecord st s m = None
        /\ handle st req
           = (fst (record_attendance st uuid n1 n2 s m manual),
              json_marked msg (countMemberAttendance st m =? 0) uuid)).
Proof.
  destruct req as [| | |uuid n1 n2 s m0|uuid n1 n2 m0]; try discriminate; intros [= ->]; cbn [handle].
  - unfold post_api_attendance.
    destruct (_ || _)%bool; [left; split; [reflexivity | discriminate]|].
    destruct (getSession st s); [|left; split; [reflexivity | discriminate]].
    destruct (getMember st m) as [member|]; [|left; split; [reflexivity | discriminate]].
    destruct (getAttendanceRecord st s m) eqn:Hnone; [left; split; [reflexivity | discriminate]|].
    right.
    exists uuid, n1, n2, s, false,
      (welcome (countMemberAttendance st m =? 0) (Member.name member)).
    split; [exact Hnone|].
    destruct (record_attendance_effect st uuid n1 n2 s m false Hnone) as (st' & Hrec & _).
    rewrite Hrec. unfold record_attendance in Hrec. cbv zeta in Hrec. now rewrite Hrec.
  - unfold post_api_attendance_manual.
    destruct (negb _); [left; split; [reflexivity | discriminate]|].
    destruct (getActiveSession st) as [session|]; [|left; split; [reflexivity | discriminate]].
    destruct (getMember st m) as [member|]; [|left; split; [reflexivity | discriminate]].
    destruct (getAttendanceRecord st (Session.id session) m) eqn:Hnone;
      [left; split; [reflexivity | discriminate]|].
    right.
    exists uuid, n1, n2, (Session.id session), true,
      (Member.name member +++ " marked present manually!"%string).
    split; [exact Hnone|].
    destruct (record_attendance_effect st uuid n1 n2 (Session.id session) m true Hnone)
      as (st' & Hrec & _).
    rewrite Hrec. unfold record_attendance in Hrec. cbv zeta in Hrec. now rewrite Hrec.
Qed.

Lemma handle_records_append (st : Store) (req : Request) :
  exists extra, records (fst (handle st req)) = records st ++ extra.
Proof.
  destruct (marked_member req) as [m|] eqn:Hm.
  - destruct (attendance_handlers_append st req m Hm)
      as [[Hsame _]|(uuid & n1 & n2 & s & manual & msg & Hnone & Hh)].
    + exists []. now rewrite Hsame, app_nil_r.
    + rewrite Hh. cbn [fst].
      destruct (record_attendance_effect st uuid n1 n2 s m manual Hnone)
        as (st' & Hrec & _ & Hrecords & _).
      rewrite Hrec. cbn [fst]. eauto.
  - exists []. rewrite app_nil_r.
    destruct req; try discriminate; cbn [handle].
    + apply post_api_members_frame.
    + apply delete_api_members_frame.
    + apply post_api_sessions_frame.
Qed.

Lemma run_records_append (reqs : list Request) (st : Store) :
  exists extra, records (run st reqs) = records st ++ extra.
Proof.
  revert st. induction reqs as [|req reqs IH]; intros st; cbn.
  - exists []. now rewrite app_nil_r.
  - destruct (handle_records_append st req) as [e1 H1].
    destruct (IH (fst (handle st req))) as [e2 H2].
    exists (e1 ++ e2). unfold run in H2. rewrite H2, H1. now rewrite app_assoc.
Qed.

Lemma countMemberAttendance_count (st : Store) (m : string) :
  countMemberAttendance st m = Z.of_nat (count_records (for_member m) st).
Proof.
  assert (Hfold : forall (l : list Attendance.t) (acc : Z),
             fold_left
               (fun count record =>
                  if String.eqb (Attendance.member_id record) m then count + 1 else count)
               l acc = acc + Z.of_nat (List.length (filter (for_member m) l))).
  { induction l as [|r l IH]; intros acc; cbn [fold_left filter].
    - cbn. lia.
    - rewrite IH. unfold for_member at 2.
      destruct (String.eqb (Attendance.member_id r) m); cbn [List.length]; lia. }
  unfold countMemberAttendance, count_records, records.
  destruct (connectToDatabase st); [destruct (usingFallback (fallbackStorage st))|];
    try apply Hfold; reflexivity.
Qed.

(** ** The first-time flag *)

Lemma marked_inversion (st st1 : Store) (req : Request) (m msg : string)
  (ft : bool) (rid : string) :
  marked_member req = Some m ->
  handle st req = (st1, json_marked msg ft rid) ->
  ft = Nat.eqb (count_records (for_member m) st) 0
  /\ exists r,
       records st1 = records st ++ [r]
       /\ Attendance.member_id r = m
       /\ Attendance.is_first_time r = ft
       /\ Attendance.id r = rid.
Proof.
  intros Hm Hh.
  destruct (attendance_handlers_append st req m Hm)
    as [[_ Hno]|(uuid & n1 & n2 & s & manual & msg0 & Hnone & Hh')].
  - exfalso. apply (Hno msg ft rid). now rewrite Hh.
  - rewrite Hh in Hh'. injection Hh' as Hst _ Hft Hrid.
    destruct (record_attendance_effect st uuid n1 n2 s m manual Hnone)
      as (st' & Hrec & _ & Hrecords & _).
    rewrite Hrec in Hst. cbn [fst] in Hst. subst st' rid.
    assert (Hcount : (countMemberAttendance st m =? 0)
                     = Nat.eqb (count_records (for_member m) st) 0).
    { rewrite countMemberAttendance_count.
      destruct (count_records (for_member m) st); reflexivity. }
    split; [congruence|].
    eexists. split; [exact Hrecords|]. cbn. repeat split. congruence.
Qed.



(** ** The first-scan date *)

(** The fallback branch of [updateMemberFirstScan] leaves a date that is
    already set alone. *)
Lemma updateMemberFirstScan_fallback_keeps (st : Store) (m m' : string) (n t : Z)
  (x : Member.t) :
  persistent st = false ->
  getMember st m' = Some x ->
  Member.first_scan_date x = Some t ->
  exists y, getMember (updateMemberFirstScan st m n) m' = Some y
            /\ Member.first_scan_date y = Some t.
Proof.
  assert (Hmut : forall ms : JsMap.t Member.t,
             JsMap.get m' ms = Some x ->
             Member.first_scan_date x = Some t ->
             exists y,
               JsMap.get m'
                 (JsMap.mutate m
                    (fun member =>
                       match Member.first_scan_date member with
                       | None => Member.with_first_scan_date n member
                       | Some _ => member
                       end) ms) = Some y
               /\ Member.first_scan_date y = Some t).
  { intros ms H Ht. destruct (String.eqb_spec m m') as [->|Hne].
    - rewrite get_mutate_same, H. cbn. rewrite Ht. eauto.
    - rewrite get_mutate_other by assumption. eauto. }
  split_store st; cbn; intros Hp; try discriminate; apply Hmut.
Qed.

(** The database branch writes the date whatever the document holds. *)
Lemma updateMemberFirstScan_database_sets (st : Store) (m : string) (n : Z) (x : Member.t) :
  persistent st = true ->
  getMember st m = Some x ->
  getMember (updateMemberFirstScan st m n) m = Some (Member.with_first_scan_date n x).
Proof.
  assert (Hup : forall c : list Member.t,
             find (fun m0 => String.eqb (Member.id m0) m) c = Some x ->
             find (fun m0 => String.eqb (Member.id m0) m)
               (Mongo.updateOne (fun m0 => String.eqb (Member.id m0) m)
                  (Member.with_first_scan_date n) c)
             = Some (Member.with_first_scan_date n x)).
  { induction c as [|d r IH]; cbn; [discriminate|].
    destruct (String.eqb (Member.id d) m) eqn:E; cbn.
    - rewrite E. now intros [= ->].
    - rewrite E. exact IH. }
  split_store st; cbn; intros Hp; try discriminate. apply Hup.
Qed.

(** C5. On the database backend a confirmed mark of a member whose
    first-scan date is already set, and who has no attendance record,
    replaces the date (3 becomes 9); the same call on the fallback backend
    keeps it. *)
Theorem first_scan_date_overwritten_in_database :
  getMember scanned_database "m1" = Some scanned_member
  /\ countMemberAttendance scanned_database "m1" = 0
  /\ (exists st' msg,
        post_api_attendance scanned_database "r1" 9 10 "s1" "m1"
        = (st', json_marked msg true "r1")
        /\ getMember st' "m1" = Some (Member.with_first_scan_date 9 scanned_member))
  /\ (exists st' msg,
        post_api_attendance scanned_fallback "r1" 9 10 "s1" "m1"
        = (st', json_marked msg true "r1")
        /\ getMember st' "m1" = Some scanned_member).
Proof.
  split; [reflexivity|]. split; [reflexivity|]. split.
  - eexists. eexists. split; vm_compute; reflexivity.
  - eexists. eexists. split; vm_compute; reflexivity.
Qed.

(** ** Session activation *)

Lemma filter_active_deactivated (l : list Session.t) :
  filter active (map (Session.with_is_active 0) l) = [].
Proof. induction l as [|s l IH]; cbn; [reflexivity | exact IH]. Qed.

Lemma filter_active_set (k : string) (v : Session.t) (m : JsMap.t Session.t) :
  filter active (JsMap.values (JsMap.forEachValue (Session.with_is_active 0) m)) = [] /\
  filter active
    (JsMap.values (JsMap.set k v (JsMap.forEachValue (Session.with_is_active 0) m)))
  = if active v then [v] else [].
Proof.
  unfold JsMap.values, JsMap.forEachValue.
  induction m as [|[k' s] r [IH0 IH]]; cbn [map fst snd JsMap.set filter].
  - split; reflexivity.
  - split; [exact IH0|].
    destruct (String.eqb k' k); cbn [map fst snd filter].
    + destruct (active v); [f_equal|]; exact IH0.
    + change (active (Session.with_is_active 0 s)) with false. cbn iota. exact IH.
Qed.

Lemma createSession_sessions (st : Store) (sessionData : Session.t) :
  match createSession st sessionData with
  | (st', inl _) =>
      filter active (stored_sessions st') = (if active sessionData then [sessionData] else [])
      /\ (JsString.truthy (Session.id sessionData) = true ->
          active sessionData = true -> getActiveSession st' = Some sessionData)
  | (st', inr _) => filter active (stored_sessions st') = []
  end.
Proof.
  assert (Hfb : forall ss : JsMap.t Session.t,
             JsString.truthy (Session.id sessionData) = true ->
             active sessionData = true ->
             (if JsString.truthy (Session.id sessionData) then
                match JsMap.get (Session.id sessionData)
                        (JsMap.set (Session.id sessionData) sessionData
                           (JsMap.forEachValue (Session.with_is_active 0) ss)) with
                | Some session => if Session.is_active session =? 1 then Some session else None
                | None => None
                end
              else None) = Some sessionData).
  { intros ss Ht Ha. rewrite Ht, get_set_same. unfold active in Ha. now rewrite Ha. }
  unfold createSession.
  split_store st; cbn [connectToDatabase db fallbackStorage usingFallback].
  2: {
    destruct (Mongo.insertOne _ _ _) as [c|] eqn:Hins; cbn.
    - apply insertOne_Some in Hins as [-> Hfresh]. unfold Mongo.updateMany.
      rewrite filter_app, filter_active_deactivated. cbn [filter app].
      split; [now destruct (active sessionData)|].
      intros _ Ha. unfold Mongo.findOne.
      rewrite find_app_None.
      + fold (active sessionData). now rewrite Ha.
      + apply existsb_false_find.
        clear. induction (attendance_sessions database) as [|s l IH]; cbn; auto.
    - apply filter_active_deactivated. }
  all: cbn; split; [apply filter_active_set | apply Hfb].
Qed.

Lemma post_api_sessions_created (st st' : Store) (uuid sessionDate baseUrl : string)
  (qr : string -> option string) (now : Z)
  (sessionName sid sname sdate qd img msg : string) :
  post_api_sessions st uuid sessionDate baseUrl qr now sessionName
  = (st', json_session sid sname sdate qd img msg) ->
  exists result,
    createSession st
      (Session.mk uuid sessionName sessionDate (baseUrl +++ "/scan/"%string +++ uuid) 1 now)
    = (st', inl result).
Proof.
  unfold post_api_sessions.
  destruct (negb _); [discriminate|].
  destruct (qr _); [|discriminate].
  destruct (createSession st _) as [st2 [result|e]]; [|discriminate].
  intros [= <- _ _ _ _ _ _]. eauto.
Qed.

Lemma handle_active_count (st : Store) (req : Request) :
  (active_count st <= 1)%nat -> (active_count (fst (handle st req)) <= 1)%nat.
Proof.
  intros Hle. unfold active_count in *.
  destruct req as [uuid now name email phone address | id
                  | uuid sessionDate baseUrl qr now sessionName
                  | uuid n1 n2 s m | uuid n1 n2 m]; cbn [handle].
  - destruct (post_api_members_frame st uuid now name email phone address)
      as [_ (_ & Hs & _)]. now rewrite Hs.
  - destruct (delete_api_members_frame st id) as [_ (_ & Hs & _)]. now rewrite Hs.
  - unfold post_api_sessions.
    destruct (negb _); [exact Hle|].
    destruct (qr _); [|exact Hle].
    match goal with |- context [createSession st ?sd] =>
      pose proof (createSession_sessions st sd) as H;
      destruct (createSession st sd) as [st' [r|e]]
    end; cbn [fst].
    + destruct H as [H _]. rewrite H. cbn. lia.
    + rewrite H. cbn. lia.
  - destruct (attendance_handlers_append st (MarkAttendance uuid n1 n2 s m) m eq_refl)
      as [[Hsame _]|(uuid0 & n10 & n20 & s0 & manual & msg & Hnone & Hh)];
      cbn [handle] in *.
    + now rewrite Hsame.
    + rewrite Hh. cbn [fst].
      destruct (record_attendance_effect st uuid0 n10 n20 s0 m manual Hnone)
        as (st' & Hrec & _ & _ & _ & Hs & _).
      rewrite Hrec. cbn [fst]. now rewrite Hs.
  - destruct (attendance_handlers_append st (MarkManual uuid n1 n2 m) m eq_refl)
      as [[Hsame _]|(uuid0 & n10 & n20 & s0 & manual & msg & Hnone & Hh)];
      cbn [handle] in *.
    + now rewrite Hsame.
    + rewrite Hh. cbn [fst].
      destruct (record_attendance_effect st uuid0 n10 n20 s0 m manual Hnone)
        as (st' & Hrec & _ & _ & _ & Hs & _).
      rewrite Hrec. cbn [fst]. now rewrite Hs.
Qed.

Lemma run_active_count (reqs : list Request) (st : Store) :
  (active_count st <= 1)%nat -> (active_count (run st reqs) <= 1)%nat.
Proof.
  revert st. induction reqs as [|req reqs IH]; intros st Hle; cbn; [exact Hle|].
  apply IH. now apply handle_active_count.
Qed.

(** C2. Start from a store with at most one active session (an empty one,
    say) and serve any requests one after the other: at most one session is
    active afterwards. When a session creation is then confirmed, its
    session is the only stored session whose active flag is set, and
    [getActiveSession] returns it. The identifier drawn for the session is
    not the empty string. *)
Theorem createSession_unique_active
  (st0 st' : Store) (reqs : list Request) (uuid sessionDate baseUrl : string)
  (qr : string -> option string) (now : Z)
  (sessionName sid sname sdate qd img msg : string) :
  (active_count st0 <= 1)%nat ->
  JsString.truthy uuid = true ->
  post_api_sessions (run st0 reqs) uuid sessionDate baseUrl qr now sessionName
  = (st', json_session sid sname sdate qd img msg) ->
  let newSession :=
    Session.mk uuid sessionName sessionDate (baseUrl +++ "/scan/"%string +++ uuid) 1 now in
  (active_count (run st0 reqs) <= 1)%nat
  /\ getActiveSession st' = Some newSession
  /\ filter active (stored_sessions st') = [newSession]
  /\ (forall s, In s (stored_sessions st') -> Session.is_active s = 1 -> s = newSession)
  /\ active_count st' = 1%nat.
Proof.
  intros Hle Huuid Hpost newSession.
  split; [now apply run_active_count|].
  apply post_api_sessions_created in Hpost as [result Hcreate].
  pose proof (createSession_sessions (run st0 reqs) newSession) as H.
  fold newSession in Hcreate. rewrite Hcreate in H. destruct H as [Hfilter Hget].
  change (active newSession) with true in Hfilter. cbn iota in Hfilter.
  split; [now apply Hget|]. split; [exact Hfilter|]. split.
  - intros s Hin Ha.
    assert (Hs : In s (filter active (stored_sessions st'))).
    { apply filter_In. split; [exact Hin|]. unfold active. now apply Z.eqb_eq. }
    rewrite Hfilter in Hs. destruct Hs as [<-|[]]. reflexivity.
  - unfold active_count. now rewrite Hfilter.
Qed.

Lemma createSession_unique_active_witness :
  let reqs := [CreateSession "s1" "2024-01-07" "https://host" sample_qr 2 "Sunday Service"] in
  let st' :=
    fst (post_api_sessions (run fallback_store reqs) "s2" "2024-01-07" "https://host"
           sample_qr 3 "Evening Service") in
  getActiveSession st'
  = Some (Session.mk "s2" "Evening Service" "2024-01-07" "https://host/scan/s2" 1 3).
Proof.
  intros reqs st'.
  refine (proj1 (proj2
    (createSession_unique_active fallback_store st' reqs "s2" "2024-01-07" "https://host"
       sample_qr 3 "Evening Service" _ _ _ _ _ _ _ _ _))).
  - cbn. lia.
  - reflexivity.
  - vm_compute. reflexivity.
Defined.

(** ** Session statistics *)

Lemma fold_count_all {A} (l : list A) (acc : Z) :
  fold_left (fun sum _ => sum + 1) l acc = acc + Z.of_nat (List.length l).
Proof.
  revert acc. induction l as [|x l IH]; intros acc; cbn [fold_left List.length].
  - cbn. lia.
  - rewrite IH. lia.
Qed.

Lemma fold_count_first_time (l : list Attendance.t) (acc : Z) :
  fold_left (fun sum r => sum + (if Attendance.is_first_time r then 1 else 0)) l acc
  = acc + Z.of_nat (List.length (filter Attendance.is_first_time l)).
Proof.
  revert acc. induction l as [|x l IH]; intros acc; cbn [fold_left filter].
  - cbn. lia.
  - rewrite IH. destruct (Attendance.is_first_time x); cbn [List.length]; lia.
Qed.

Lemma filter_first_time_in (sessionId : string) (l : list Attendance.t) :
  filter Attendance.is_first_time (filter (for_session sessionId) l)
  = filter (first_time_in sessionId) l.
Proof.
  induction l as [|x l IH]; cbn [filter]; [reflexivity|].
  unfold first_time_in at 1.
  destruct (for_session sessionId x); cbn [filter andb]; rewrite IH; reflexivity.
Qed.

Lemma fold_stats_fallback (sessionId : string) (l : list Attendance.t) (a b : Z) :
  fold_left
    (fun '(totalPresent, firstTimeCount) record =>
       if String.eqb (Attendance.session_id record) sessionId then
         (totalPresent + 1,
          if Attendance.is_first_time record then firstTimeCount + 1 else firstTimeCount)
       else (totalPresent, firstTimeCount))
    l (a, b)
  = (a + Z.of_nat (List.length (filter (for_session sessionId) l)),
     b + Z.of_nat (List.length (filter (first_time_in sessionId) l))).
Proof.
  revert a b. induction l as [|x l IH]; intros a b; cbn [fold_left filter].
  - cbn. f_equal; lia.
  - assert (Hf : first_time_in sessionId x
                 = (String.eqb (Attendance.session_id x) sessionId
                    && Attendance.is_first_time x)%bool) by reflexivity.
    assert (Hs : for_session sessionId x = String.eqb (Attendance.session_id x) sessionId)
      by reflexivity.
    rewrite Hf, Hs.
    destruct (String.eqb (Attendance.session_id x) sessionId); cbn [andb].
    + destruct (Attendance.is_first_time x); rewrite IH; cbn [List.length]; f_equal; lia.
    + apply IH.
Qed.

(** C9. The statistics of a session are the number of attendance records
    with that session id, the number of those whose first-time flag is set,
    and the size of the whole member collection; the last one is the same
    for every session id. *)
Theorem sessionStatistics_counts (st : Store) (sessionId : string) :
  get_api_sessions_stats st sessionId
  = json_stats
      (Z.of_nat (count_records (for_session sessionId) st))
      (Z.of_nat (count_records (first_time_in sessionId) st))
      (Z.of_nat (List.length (getMembers st)))
  /\ forall other : string,
       exists total_present first_time_count,
         get_api_sessions_stats st other
         = json_stats total_present first_time_count
             (Z.of_nat (List.length (getMembers st))).
Proof.
  assert (Hmain : forall sid,
             get_api_sessions_stats st sid
             = json_stats
                 (Z.of_nat (count_records (for_session sid) st))
                 (Z.of_nat (count_records (first_time_in sid) st))
                 (Z.of_nat (List.length (getMembers st)))).
  { intros sid.
    unfold get_api_sessions_stats, count_records, records, getMembers.
    destruct (connectToDatabase st) as [database|];
      [destruct (usingFallback (fallbackStorage st))|].
    2: {
      fold (for_session sid).
      rewrite <- filter_first_time_in.
      unfold Mongo.countDocuments.
      assert (Hall : filter (fun _ : Member.t => true) (members_coll database)
                     = members_coll database).
      { induction (members_coll database) as [|x l IH]; cbn; [reflexivity | now rewrite IH]. }
      rewrite Hall.
      destruct (filter (for_session sid) (attendance_records database)) as [|r l] eqn:E;
        [reflexivity|].
      rewrite fold_count_all, fold_count_first_time. reflexivity. }
    all: rewrite fold_stats_fallback; unfold JsMap.size, JsMap.values;
      rewrite length_map; reflexivity. }
  split; [apply Hmain|].
  intros other. rewrite Hmain. eauto.
Qed.

(** ** The current-attendance report *)

Lemma Array_insert_perm {A} (cmp : A -> A -> Z) (x : A) (l : list A) :
  Permutation (Array_insert cmp x l) (x :: l).
Proof.
  induction l as [|y r IH]; cbn; [reflexivity|].
  destruct (cmp x y >? 0); [|reflexivity].
  rewrite IH. apply perm_swap.
Qed.

Lemma Array_sort_perm {A} (cmp : A -> A -> Z) (l : list A) :
  Permutation (Array_sort cmp l) l.
Proof.
  induction l as [|x r IH]; cbn; [reflexivity|].
  rewrite Array_insert_perm. now apply perm_skip.
Qed.

Lemma Array_insert_sorted (x : Row.t) (l : list Row.t) :
  StronglySorted newer_first l ->
  StronglySorted newer_first (Array_insert byScanTimeDesc x l).
Proof.
  induction 1 as [|y r Hr IH Hy]; cbn.
  - constructor; constructor.
  - destruct (Z.gtb_spec (byScanTimeDesc x y) 0) as [Hgt|Hle].
    + constructor; [exact IH|].
      apply (Permutation_Forall (Permutation_sym (Array_insert_perm byScanTimeDesc x r))).
      constructor; [|exact Hy].
      unfold newer_first, byScanTimeDesc in *. lia.
    + constructor; [now constructor|].
      constructor.
      * unfold newer_first, byScanTimeDesc in *. lia.
      * eapply Forall_impl; [|exact Hy].
        intros z Hz. unfold newer_first, byScanTimeDesc in *. lia.
Qed.

Lemma Array_sort_sorted (l : list Row.t) :
  StronglySorted newer_first (Array_sort byScanTimeDesc l).
Proof.
  induction l as [|x r IH]; cbn; [constructor|].
  now apply Array_insert_sorted.
Qed.

Lemma getActiveSession_persistent (st : Store) (database : Database) :
  connectToDatabase st = Some database ->
  usingFallback (fallbackStorage st) = false ->
  getActiveSession st
  = Mongo.findOne (fun s => Session.is_active s =? 1) (attendance_sessions database).
Proof. unfold getActiveSession. now intros -> ->. Qed.

(** The report is the sorted join of the active session's records. *)
Lemma get_api_attendance_current_joined (st : Store) :
  get_api_attendance_current st
  = json_attendance
      match getActiveSession st with
      | None => []
      | Some activeSession =>
          Array_sort byScanTimeDesc (joined st (Session.id activeSession))
      end.
Proof.
  assert (Hacc : forall (ms : JsMap.t Member.t) (sid : string) (l : list Attendance.t)
                        (acc : list Row.t),
             fold_left
               (fun attendance record =>
                  if String.eqb (Attendance.session_id record) sid then
                    match JsMap.get (Attendance.member_id record) ms with
                    | Some member => attendance ++ [project member record]
                    | None => attendance
                    end
                  else attendance) l acc
             = acc ++
               flat_map
                 (fun r =>
                    map (fun member => project member r)
                      match JsMap.get (Attendance.member_id r) ms with
                      | Some member => [member]
                      | None => []
                      end)
                 (filter (for_session sid) l)).
  { intros ms sid l. induction l as [|r l IH]; intros acc; cbn [fold_left filter].
    - cbn. now rewrite app_nil_r.
    - rewrite IH. unfold for_session at 2.
      destruct (String.eqb (Attendance.session_id r) sid); [|reflexivity].
      cbn [flat_map].
      destruct (JsMap.get (Attendance.member_id r) ms); cbn [map app]; [|reflexivity].
      now rewrite <- app_assoc. }
  assert (Hfb := fun ms sid l => Hacc ms sid l []). cbn [app] in Hfb. clear Hacc.
  unfold get_api_attendance_current, joined, resolve, records.
  destruct (connectToDatabase st) as [database|] eqn:Hdb;
    [destruct (usingFallback (fallbackStorage st)) eqn:Hflag|].
  2: {
    rewrite (getActiveSession_persistent st database Hdb Hflag).
    destruct (Mongo.findOne _ _); reflexivity. }
  all: destruct (getActiveSession st); [|reflexivity]; now rewrite Hfb.
Qed.

(** C8. The report is empty when no session is active. Otherwise its rows
    are, up to order, one row for every attendance record of the active
    session and every member document the record's member id resolves to:
    the row carries the id, name, email and phone of that member and the
    presence flag, scan time, first-time flag and manual flag of that
    record. The rows are ordered by scan time, the newest first. *)
Theorem currentAttendanceReport_sorted_join (st : Store) :
  exists rows,
    get_api_attendance_current st = json_attendance rows
    /\ match getActiveSession st with
       | None => rows = []
       | Some activeSession =>
           Permutation rows
             (flat_map
                (fun record =>
                   map (fun member =>
                          {| Row.id := Member.id member;
                             Row.name := Member.name member;
                             Row.email := Member.email member;
                             Row.phone := Member.phone member;
                             Row.is_present := Attendance.is_present record;
                             Row.scan_time := Attendance.scan_time record;
                             Row.is_first_time := Attendance.is_first_time record;
                             Row.marked_manually := Attendance.marked_manually record |})
                     (resolve st (Attendance.member_id record)))
                (filter (for_session (Session.id activeSession)) (records st)))
           /\ StronglySorted newer_first rows
       end.
Proof.
  rewrite get_api_attendance_current_joined.
  eexists. split; [reflexivity|].
  destruct (getActiveSession st) as [activeSession|]; [|reflexivity].
  split; [|apply Array_sort_sorted].
  exact (Array_sort_perm byScanTimeDesc (joined st (Session.id activeSession))).
Qed.

Lemma currentAttendanceReport_sorted_join_witness :
  exists rows,
    get_api_attendance_current (run fallback_store three_marks) = json_attendance rows
    /\ Permutation rows
         [Row.mk "m1" "Ada" "ada@x.com" EmptyString true 6 false false;
          Row.mk "m2" "Bob" "bob@x.com" EmptyString true 7 false true;
          Row.mk "m3" "Cy" "cy@x.com" EmptyString true 8 true false]
    /\ StronglySorted newer_first rows.
Proof.
  destruct (currentAttendanceReport_sorted_join (run fallback_store three_marks))
    as (rows & Hrows & Hjoin).
  exists rows. split; [exact Hrows | exact Hjoin].
Defined.

Lemma resolve_unresolved (st : Store) (r : Attendance.t) :
  resolves st r = false -> resolve st (Attendance.member_id r) = [].
Proof.
  unfold resolves, resolve, getMember.
  destruct (connectToDatabase st) as [database|];
    [destruct (usingFallback (fallbackStorage st))|].
  2: {
    unfold Mongo.findOne.
    destruct (find _ (members_coll database)) eqn:Hfind; [discriminate|].
    intros _. now apply find_None_filter. }
  all: destruct (JsMap.get _ _); [discriminate | reflexivity].
Qed.

Lemma resolve_resolves (st : Store) (r : Attendance.t) (member : Member.t) :
  In member (resolve st (Attendance.member_id r)) -> resolves st r = true.
Proof.
  intros Hin. destruct (resolves st r) eqn:E; [reflexivity|].
  rewrite (resolve_unresolved st r E) in Hin. destruct Hin.
Qed.

Lemma flat_map_filter_empty {A B} (p q : A -> bool) (f : A -> list B) (l : list A) :
  (forall x, q x = false -> f x = []) ->
  flat_map f (filter p (filter q l)) = flat_map f (filter p l).
Proof.
  intros Hq. induction l as [|x l IH]; cbn [filter]; [reflexivity|].
  destruct (q x) eqn:Eq; cbn [filter].
  - destruct (p x); cbn [flat_map]; now rewrite IH.
  - destruct (p x); cbn [flat_map]; rewrite IH; [|reflexivity].
    now rewrite (Hq x Eq).
Qed.

Lemma values_filter {V} (p : V -> bool) (m : JsMap.t V) :
  JsMap.values (filter (fun kv => p (snd kv)) m) = filter p (JsMap.values m).
Proof.
  unfold JsMap.values. induction m as [|[k v] r IH]; cbn; [reflexivity|].
  destruct (p v); cbn; now rewrite IH.
Qed.

Lemma drop_unresolved_frame (st : Store) :
  records (drop_unresolved st) = filter (resolves st) (records st)
  /\ getActiveSession (drop_unresolved st) = getActiveSession st
  /\ (forall memberId, resolve (drop_unresolved st) memberId = resolve st memberId).
Proof.
  unfold drop_unresolved, records, getActiveSession, resolve.
  destruct (connectToDatabase st) as [database|] eqn:Hdb;
    [destruct (usingFallback (fallbackStorage st)) eqn:Hflag|];
    unfold connectToDatabase in *; cbn; rewrite ?Hdb, ?Hflag; cbn;
    repeat split; try reflexivity; apply values_filter.
Qed.

(** C7. The report is always a list of rows, never an error; every row is
    the projection of a record of the active session whose member id is
    found in the member collection; and the records whose member id is not
    found (a member deleted after the scan, say) are left out: without them
    the report is the same. *)
Theorem currentAttendanceReport_drops_unresolved (st : Store) :
  get_api_attendance_current (drop_unresolved st) = get_api_attendance_current st
  /\ exists rows,
       get_api_attendance_current st = json_attendance rows
       /\ forall row, In row rows ->
            exists activeSession r member,
              getActiveSession st = Some activeSession
              /\ In r (records st)
              /\ Attendance.session_id r = Session.id activeSession
              /\ resolves st r = true
              /\ In member (resolve st (Attendance.member_id r))
              /\ row = project member r.
Proof.
  split.
  - rewrite !get_api_attendance_current_joined.
    destruct (drop_unresolved_frame st) as (Hrec & Hact & Hres).
    rewrite Hact. destruct (getActiveSession st) as [activeSession|]; [|reflexivity].
    do 2 f_equal. unfold joined. rewrite Hrec.
    rewrite flat_map_filter_empty.
    + apply flat_map_ext. intros r. now rewrite Hres.
    + intros r Hr. rewrite Hres. now rewrite (resolve_unresolved st r Hr).
  - rewrite get_api_attendance_current_joined.
    eexists. split; [reflexivity|].
    intros row Hin.
    destruct (getActiveSession st) as [activeSession|]; [|destruct Hin].
    apply (Permutation_in _ (Array_sort_perm _ _)) in Hin.
    unfold joined in Hin. apply in_flat_map in Hin as (r & Hr & Hrow).
    apply filter_In in Hr as [Hr Hs]. apply in_map_iff in Hrow as (member & <- & Hm).
    exists activeSession, r, member. repeat split; auto.
    + now apply String.eqb_eq in Hs.
    + now apply resolve_resolves with member.
Qed.

(** ** Member registration *)

Lemma checkEmailExists_stored (st : Store) (m : Member.t) (e : string) :
  In m (getMembers st) ->
  JsString.toLowerCase (JsString.trim e) = Member.email m ->
  JsString.toLowerCase (Member.email m) = Member.email m ->
  checkEmailExists st e = true.
Proof.
  unfold checkEmailExists, getMembers.
  destruct (connectToDatabase st) as [database|];
    [destruct (usingFallback (fallbackStorage st))|]; intros Hin He Hlow.
  2: {
    unfold Mongo.findOne.
    destruct (find _ (members_coll database)) eqn:Hfind; [reflexivity|].
    pose proof (find_none _ _ Hfind m Hin) as Hq. cbn in Hq.
    rewrite He, String.eqb_refl in Hq. discriminate. }
  all: apply existsb_exists; exists m; split; [exact Hin|];
    rewrite He, Hlow; apply String.eqb_refl.
Qed.

Lemma addMember_stored (st st1 : Store) (memberData m : Member.t) :
  addMember st memberData = (st1, inl m) ->
  m = Member.with_email (JsString.toLowerCase (JsString.trim (Member.email memberData)))
        memberData
  /\ In m (getMembers st1).
Proof.
  unfold addMember.
  destruct (checkEmailExists st _); [discriminate|].
  unfold getMembers.
  split_store st; cbn.
  2: {
    destruct (Mongo.insertOne _ _ _) as [c|] eqn:Hins; [|discriminate].
    apply insertOne_Some in Hins as [-> _].
    intros [= <- <-]. cbn. split; [reflexivity|].
    apply in_or_app. right. now left. }
  all: intros [= <- <-]; cbn; split; [reflexivity | apply In_values_set].
Qed.

Lemma post_api_members_added (st st1 : Store) (uuid : string) (now : Z)
  (name email phone address : string) (status : Z) (m : Member.t) (msg : string) :
  post_api_members st uuid now name email phone address = (st1, json_member status m msg) ->
  JsString.truthy name = true
  /\ JsString.truthy email = true
  /\ JsString.emailRegex_test (JsString.toLowerCase (JsString.trim email)) = true
  /\ status = 201
  /\ exists cleanPhone cleanAddress,
       addMember st
         (Member.mk uuid (JsString.trim name) (JsString.toLowerCase (JsString.trim email))
            cleanPhone cleanAddress now None)
       = (st1, inl m).
Proof.
  unfold post_api_members.
  destruct (JsString.truthy name); [|discriminate].
  destruct (JsString.truthy email); [|discriminate]. cbn [negb orb].
  destruct (JsString.emailRegex_test _); [|discriminate]. cbn [negb].
  destruct (checkEmailExists st _); [discriminate|].
  destruct (addMember st _) as [st' [result|error]] eqn:Hadd.
  - intros [= <- <- <- <-]. repeat split. eauto.
  - destruct (_ || _)%bool; discriminate.
Qed.

(** C4, as the code has it. A confirmed registration stores the member
    under the trimmed, lower-cased form of the address it was given. From
    then on, in any store that still holds a member with that address, a
    registration with a non-empty name and an address that differs from the
    first at most in letter case is refused with the email-exists error
    (status 409, code EMAIL_EXISTS) and leaves the store as it was. *)
Theorem register_then_same_email_exists
  (st st1 : Store) (uuid : string) (now : Z) (name email phone address : string)
  (status : Z) (m : Member.t) (msg : string) :
  post_api_members st uuid now name email phone address = (st1, json_member status m msg) ->
  Member.email m = JsString.toLowerCase (JsString.trim email)
  /\ In m (getMembers st1)
  /\ forall (st2 : Store) (uuid' : string) (now' : Z)
        (name' email' phone' address' : string),
       (exists m2, In m2 (getMembers st2) /\ Member.email m2 = Member.email m) ->
       JsString.truthy name' = true ->
       JsString.toLowerCase email' = JsString.toLowerCase email ->
       fst (post_api_members st2 uuid' now' name' email' phone' address') = st2
       /\ isEmailExists (snd (post_api_members st2 uuid' now' name' email' phone' address')).
Proof.
  intros Hpost.
  apply post_api_members_added in Hpost
    as (Hname & Hemail & Hregex & _ & cleanPhone & cleanAddress & Hadd).
  apply addMember_stored in Hadd as [Hm Hin].
  assert (Hmail : Member.email m = JsString.toLowerCase (JsString.trim email)).
  { rewrite Hm. cbn [Member.email Member.with_email]. now apply normalize_clean. }
  split; [exact Hmail|]. split; [exact Hin|].
  intros st2 uuid' now' name' email' phone' address' (m2 & Hin2 & Hmail2) Hname' Hcase.
  assert (Hclean : JsString.toLowerCase (JsString.trim email')
                   = JsString.toLowerCase (JsString.trim email)).
  { now rewrite <- !trim_toLowerCase, Hcase. }
  assert (Hemail' : JsString.truthy email' = true).
  { rewrite <- truthy_toLowerCase, Hcase, truthy_toLowerCase. exact Hemail. }
  unfold post_api_members.
  rewrite Hname', Hemail', Hclean, Hregex. cbn [negb orb].
  rewrite (checkEmailExists_stored st2 m2).
  - cbn [fst snd]. split; [reflexivity|]. unfold isEmailExists. eauto.
  - exact Hin2.
  - rewrite Hmail2, Hmail. now apply normalize_clean.
  - rewrite Hmail2, Hmail. apply toLowerCase_idempotent.
Qed.

Lemma register_then_same_email_exists_witness :
  getMembers registered_store
  = [Member.mk "m1" "Ada Lovelace" "ada@x.com" EmptyString EmptyString 1 None]
  /\ fst (post_api_members registered_store "m2" 2 "Ada" "ada@x.com" EmptyString EmptyString)
     = registered_store
  /\ isEmailExists
       (snd (post_api_members registered_store "m2" 2 "Ada" "ada@x.com"
               EmptyString EmptyString)).
Proof.
  split; [reflexivity|].
  refine (proj2 (proj2
    (register_then_same_email_exists fallback_store registered_store "m1" 1
       "Ada Lovelace" "ADA@X.COM" EmptyString EmptyString 201
       (Member.mk "m1" "Ada Lovelace" "ada@x.com" EmptyString EmptyString 1 None)
       "Member added successfully" _))
    registered_store "m2"%string 2 "Ada"%string "ada@x.com"%string
    EmptyString EmptyString _ _ _).
  - vm_compute. reflexivity.
  - eexists. split; [left; reflexivity | reflexivity].
  - reflexivity.
  - reflexivity.
Defined.

(** C4, as stated, fails twice. After "ADA@X.COM" has been registered, a
    registration of "ada@x.com" with an empty name is refused with the
    required-fields error, not the email-exists one; and once the member
    has been deleted, a registration of "ada@x.com" is accepted. *)
Lemma register_then_same_email_exists_counterexample :
  JsString.toLowerCase "ada@x.com" = JsString.toLowerCase "ADA@X.COM"
  /\ post_api_members registered_store "m2" 2 EmptyString "ada@x.com" EmptyString EmptyString
     = (registered_store, json_error 400 "Name and email are required" None)
  /\ ~ isEmailExists (json_error 400 "Name and email are required" None)
  /\ snd (post_api_members (fst (delete_api_members registered_store "m1"))
            "m3" 3 "Ada" "ada@x.com" EmptyString EmptyString)
     = json_member 201
         (Member.mk "m3" "Ada" "ada@x.com" EmptyString EmptyString 3 None)
         "Member added successfully".
Proof.
  split; [reflexivity|]. split; [reflexivity|]. split.
  - intros [error H]. discriminate.
  - vm_compute. reflexivity.
Qed.

(** ** The keyed-map invariants hold in every reachable store *)

Lemma Forall_forEachValue_keyed (m : JsMap.t Session.t) :
  Forall (fun kv => fst kv = Session.id (snd kv)) m ->
  Forall (fun kv => fst kv = Session.id (snd kv))
    (JsMap.forEachValue (Session.with_is_active 0) m).
Proof.
  unfold JsMap.forEachValue. induction 1 as [|[k s] r Hk Hr IH]; cbn; constructor; auto.
Qed.

Lemma createSession_keyed (st : Store) (sessionData : Session.t) :
  sessions_keyed st -> sessions_keyed (fst (createSession st sessionData)).
Proof.
  unfold sessions_keyed, createSession.
  split_store st; cbn; intros Hk;
    try (apply Forall_set; [reflexivity | now apply Forall_forEachValue_keyed]).
  destruct (Mongo.insertOne _ _ _); exact Hk.
Qed.

Lemma handle_keyed (st : Store) (req : Request) :
  sessions_keyed st /\ attendance_keyed st ->
  sessions_keyed (fst (handle st req)) /\ attendance_keyed (fst (handle st req)).
Proof.
  intros [Hs Ha]. unfold sessions_keyed, attendance_keyed in *.
  destruct req as [uuid now name email phone address | id
                  | uuid sessionDate baseUrl qr now sessionName
                  | uuid n1 n2 s m | uuid n1 n2 m]; cbn [handle].
  - destruct (post_api_members_frame st uuid now name email phone address)
      as [(_ & _ & Ea) (_ & _ & Es & _)]. now rewrite Ea, Es.
  - destruct (delete_api_members_frame st id) as [(_ & _ & Ea) (_ & _ & Es & _)].
    now rewrite Ea, Es.
  - destruct (post_api_sessions_frame st uuid sessionDate baseUrl qr now sessionName)
      as (_ & _ & Ea). rewrite Ea. split; [|exact Ha].
    unfold post_api_sessions.
    destruct (negb _); [exact Hs|].
    destruct (qr _); [|exact Hs].
    match goal with |- context [createSession st ?sd] =>
      pose proof (createSession_keyed st sd Hs) as H;
      destruct (createSession st sd) as [st' [r|e]]
    end; exact H.
  - destruct (attendance_handlers_append st (MarkAttendance uuid n1 n2 s m) m eq_refl)
      as [[Hsame _]|(uuid0 & n10 & n20 & s0 & manual & msg & Hnone & Hh)];
      cbn [handle] in *.
    + now rewrite Hsame.
    + rewrite Hh. cbn [fst].
      destruct (record_attendance_effect st uuid0 n10 n20 s0 m manual Hnone)
        as (st' & Hrec & _ & _ & _ & _ & _ & _ & _ & Es & Hk).
      rewrite Hrec. cbn [fst]. rewrite Es. split; [exact Hs | now apply Hk].
  - destruct (attendance_handlers_append st (MarkManual uuid n1 n2 m) m eq_refl)
      as [[Hsame _]|(uuid0 & n10 & n20 & s0 & manual & msg & Hnone & Hh)];
      cbn [handle] in *.
    + now rewrite Hsame.
    + rewrite Hh. cbn [fst].
      destruct (record_attendance_effect st uuid0 n10 n20 s0 m manual Hnone)
        as (st' & Hrec & _ & _ & _ & _ & _ & _ & _ & Es & Hk).
      rewrite Hrec. cbn [fst]. rewrite Es. split; [exact Hs | now apply Hk].
Qed.

Lemma run_keyed (reqs : list Request) (st : Store) :
  sessions_keyed st /\ attendance_keyed st ->
  sessions_keyed (run st reqs) /\ attendance_keyed (run st reqs).
Proof.
  revert st. induction reqs as [|req reqs IH]; intros st H; cbn; [exact H|].
  apply IH. now apply handle_keyed.
Qed.

Lemma initial_keyed :
  (sessions_keyed fallback_store /\ attendance_keyed fallback_store)
  /\ (sessions_keyed database_store /\ attendance_keyed database_store).
Proof. repeat split; constructor. Qed.

(** ** Scenarios *)

Example only_evening_service_active :
  option_map Session.session_name (getActiveSession (run fallback_store two_sessions))
  = Some "Evening Service"%string
  /\ option_map Session.session_name (getActiveSession (run database_store two_sessions))
     = Some "Evening Service"%string
  /\ map Session.is_active (stored_sessions (run database_store two_sessions)) = [0; 1].
Proof. repeat split; vm_compute; reflexivity. Qed.

Example statistics_of_three_marks :
  get_api_sessions_stats (run fallback_store three_marks) "s2" = json_stats 3 1 4
  /\ get_api_sessions_stats (run database_store three_marks) "s2" = json_stats 3 1 4
  /\ get_api_sessions_stats (run database_store three_marks) "s1" = json_stats 2 2 4.
Proof. repeat split; vm_compute; reflexivity. Qed.

Example report_after_member_deleted :
  let st := run fallback_store (three_marks ++ [DeleteMember "m2"]) in
  match get_api_attendance_current st with
  | json_attendance rows => map Row.id rows = ["m3"%string; "m1"%string]
  | _ => False
  end.
Proof. vm_compute. reflexivity. Qed.

Example mark_in_missing_session :
  post_api_attendance (run database_store three_marks) "r9" 9 9 "s9" "m4"
  = (run database_store three_marks, SessionNotActive)
  /\ post_api_attendance (run database_store three_marks) "r9" 9 9 "s1" "m4"
     = (run database_store three_marks, SessionNotActive).
Proof. split; vm_compute; reflexivity. Qed.

(** * Further properties *)

(** ** The local address and the base address *)

Lemma scanAliases_find (iface : list Alias.t) :
  scanAliases iface = option_map Alias.address (find external_IPv4 iface).
Proof.
  induction iface as [|alias rest IH]; cbn [scanAliases find]; [reflexivity|].
  unfold external_IPv4 at 1.
  destruct (_ && _ && _)%bool; [reflexivity | exact IH].
Qed.

Lemma find_app_split {A} (q : A -> bool) (l1 l2 : list A) :
  find q (l1 ++ l2) = match find q l1 with Some x => Some x | None => find q l2 end.
Proof.
  induction l1 as [|x r IH]; cbn; [reflexivity|].
  destruct (q x); [reflexivity | exact IH].
Qed.

(** The two nested loops of [getLocalIPAddress] return the address of the
    first entry, in visiting order, that is IPv4, not internal and not
    127.0.0.1, and ['localhost'] when there is none; the result is never
    127.0.0.1. *)
Theorem getLocalIPAddress_first_external (interfaces : list (string * list Alias.t)) :
  getLocalIPAddress interfaces
  = match find external_IPv4 (List.concat (map snd interfaces)) with
    | Some alias => Alias.address alias
    | None => "localhost"%string
    end
  /\ getLocalIPAddress interfaces <> "127.0.0.1"%string.
Proof.
  assert (Hscan : scanInterfaces interfaces
                  = option_map Alias.address
                      (find external_IPv4 (List.concat (map snd interfaces)))).
  { induction interfaces as [|[devName iface] rest IH]; cbn [scanInterfaces map snd List.concat];
      [reflexivity|].
    rewrite find_app_split, scanAliases_find.
    destruct (find external_IPv4 iface); [reflexivity | exact IH]. }
  unfold getLocalIPAddress. rewrite Hscan.
  destruct (find external_IPv4 (List.concat (map snd interfaces))) as [alias|] eqn:Hfind; cbn.
  - split; [reflexivity|].
    apply find_some in Hfind as [_ Hq]. unfold external_IPv4 in Hq.
    apply andb_prop in Hq as [Hq _]. apply andb_prop in Hq as [_ Hq].
    apply negb_true_iff in Hq. now apply String.eqb_neq in Hq.
  - split; [reflexivity | discriminate].
Qed.

(** The base address is the configured external address when that is set
    and not empty, and otherwise [https://] followed by the request's host
    (the text [undefined] when the header is absent): the third
    alternative, built from the local address and the port, is never
    taken. *)
Theorem baseUrl_never_local (RENDER_EXTERNAL_URL host : option string)
  (LOCAL_IP PORT : string) :
  baseUrl RENDER_EXTERNAL_URL host LOCAL_IP PORT
  = match RENDER_EXTERNAL_URL with
    | Some (String c url) => String c url
    | _ => "https://"%string +++ interpolate host
    end
  /\ forall LOCAL_IP' PORT' : string,
       baseUrl RENDER_EXTERNAL_URL host LOCAL_IP PORT
       = baseUrl RENDER_EXTERNAL_URL host LOCAL_IP' PORT'.
Proof.
  split.
  - unfold baseUrl. destruct RENDER_EXTERNAL_URL as [[|c url]|]; reflexivity.
  - intros LOCAL_IP' PORT'. unfold baseUrl.
    destruct RENDER_EXTERNAL_URL as [[|c url]|]; reflexivity.
Qed.

(** ** The shape of an accepted address *)

Section PatternFacts.
Import JsString.

Lemma append_empty_r (s : string) : s +++ EmptyString = s.
Proof. induction s as [|c r IH]; cbn; [reflexivity | now rewrite IH]. Qed.

Lemma plus_shape (k : string -> bool) (K : string -> Prop) :
  (forall r, k r = true <-> K r) ->
  forall s,
    plus notSpaceAt k s = true
    <-> exists a r, s = a +++ r /\ a <> EmptyString /\ allNotSpaceAt a = true /\ K r.
Proof.
  intros Hk s. split.
  - induction s as [|c r0 IH]; cbn [plus]; [discriminate|].
    intros H. apply andb_prop in H as [Hc H].
    apply orb_prop in H as [H|H].
    + exists (String c EmptyString), r0. cbn. rewrite Hc.
      repeat split; [discriminate | now apply Hk].
    + destruct (IH H) as (a & r & -> & Ha & Hall & HK).
      exists (String c a), r. cbn. rewrite Hc, Hall.
      repeat split; [discriminate | exact HK].
  - intros (a & r & -> & Ha & Hall & HK).
    induction a as [|c a IH]; [now elim Ha|].
    cbn in Hall |- *. apply andb_prop in Hall as [Hc Hall]. rewrite Hc. cbn.
    destruct a as [|c' a'].
    + cbn. apply Hk in HK. now rewrite HK.
    + rewrite IH; [apply orb_true_r | discriminate | exact Hall].
Qed.

Lemma lit_shape (ch : ascii) (k : string -> bool) (K : string -> Prop) :
  (forall r, k r = true <-> K r) ->
  forall s, lit ch k s = true <-> exists r, s = String ch r /\ K r.
Proof.
  intros Hk [|c r]; cbn [lit]; split.
  - discriminate.
  - intros (r & H & _). discriminate.
  - intros H. apply andb_prop in H as [Hc H]. apply Ascii.eqb_eq in Hc. subst c.
    exists r. split; [reflexivity | now apply Hk].
  - intros (r' & [= -> ->] & HK). rewrite Ascii.eqb_refl. cbn. now apply Hk.
Qed.

Lemma atEnd_shape (s : string) : atEnd s = true <-> s = EmptyString.
Proof. destruct s; cbn; split; congruence. Qed.

End PatternFacts.

(** The pattern of [POST /api/members] accepts exactly the addresses
    [local@domain.ending] whose three parts are non-empty and contain
    neither white space nor [@]; dots may occur inside the parts. *)
Theorem emailRegex_accepts_shape (s : string) :
  JsString.emailRegex_test s = true <-> email_shape s.
Proof.
  unfold JsString.emailRegex_test, email_shape.
  rewrite (plus_shape _ _
             (lit_shape "@"%char _ _
                (plus_shape _ _
                   (lit_shape "."%char _ _
                      (plus_shape _ _ atEnd_shape))))).
  split.
  - intros (a & r1 & -> & Ha & Halla & r2 & -> & b & r3 & -> & Hb & Hallb
            & r4 & -> & c & r5 & -> & Hc & Hallc & ->).
    exists a, b, c. rewrite append_empty_r. repeat split; assumption.
  - intros (a & b & c & -> & Ha & Hb & Hc & Halla & Hallb & Hallc).
    exists a, (String "@"%char (b +++ String "."%char c)).
    repeat split; try assumption.
    exists (b +++ String "."%char c). split; [reflexivity|].
    exists b, (String "."%char c). repeat split; try assumption.
    exists c. split; [reflexivity|].
    exists c, EmptyString. rewrite append_empty_r. repeat split; assumption.
Qed.

(** ** Shapes of the map and collection updates *)

Section UpdateShapes.
Context {V : Type}.

Lemma set_shape (k : string) (v : V) (m : JsMap.t V) :
  (JsMap.get k m = None /\ JsMap.set k v m = m ++ [(k, v)])
  \/ (exists l1 old l2,
        m = l1 ++ (k, old) :: l2 /\ JsMap.get k l1 = None
        /\ JsMap.set k v m = l1 ++ (k, v) :: l2).
Proof.
  induction m as [|[k' v'] r IH]; cbn [JsMap.get JsMap.set].
  - left. split; reflexivity.
  - destruct (String.eqb k' k) eqn:E.
    + apply String.eqb_eq in E. subst k'. right. exists [], v', r. repeat split.
    + destruct IH as [[Hn Hs]|(l1 & old & l2 & -> & Hn & Hs)].
      * left. split; [exact Hn|]. now rewrite Hs.
      * right. exists ((k', v') :: l1), old, l2. cbn [JsMap.get app]. rewrite E, Hs.
        repeat split. exact Hn.
Qed.

Lemma delete_shape (k : string) (m : JsMap.t V) :
  (JsMap.get k m = None /\ JsMap.delete k m = (m, false))
  \/ (exists l1 old l2,
        m = l1 ++ (k, old) :: l2 /\ JsMap.get k l1 = None
        /\ JsMap.delete k m = (l1 ++ l2, true)).
Proof.
  induction m as [|[k' v'] r IH]; cbn [JsMap.get JsMap.delete].
  - left. split; reflexivity.
  - destruct (String.eqb k' k) eqn:E.
    + apply String.eqb_eq in E. subst k'. right. exists [], v', r. repeat split.
    + destruct IH as [[Hn Hs]|(l1 & old & l2 & -> & Hn & Hs)].
      * left. split; [exact Hn|]. now rewrite Hs.
      * right. exists ((k', v') :: l1), old, l2. cbn [JsMap.get app]. rewrite E, Hs.
        repeat split. exact Hn.
Qed.

Lemma get_app_None (k : string) (l1 l2 : JsMap.t V) :
  JsMap.get k l1 = None -> JsMap.get k (l1 ++ l2) = JsMap.get k l2.
Proof.
  induction l1 as [|[k' v'] r IH]; cbn [JsMap.get app]; [reflexivity|].
  destruct (String.eqb k' k); [discriminate | exact IH].
Qed.


Lemma get_None_keys (k : string) (m : JsMap.t V) :
  JsMap.get k m = None <-> ~ In k (JsMap.keys m).
Proof.
  unfold JsMap.keys. induction m as [|[k' v'] r IH]; cbn [JsMap.get map fst In].
  - tauto.
  - destruct (String.eqb_spec k' k) as [->|Hne].
    + split; [discriminate | intros H; elim H; now left].
    + rewrite IH. tauto.
Qed.

Lemma map_values_mutate {B} (f : V -> B) (g : V -> V) (k : string) (m : JsMap.t V) :
  (forall x, f (g x) = f x) ->
  map f (JsMap.values (JsMap.mutate k g m)) = map f (JsMap.values m).
Proof.
  intros Hfg. unfold JsMap.values.
  induction m as [|[k' v'] r IH]; cbn [JsMap.mutate map snd]; [reflexivity|].
  destruct (String.eqb k' k); cbn [map snd]; [now rewrite Hfg | now rewrite IH].
Qed.

Lemma keys_mutate (g : V -> V) (k : string) (m : JsMap.t V) :
  JsMap.keys (JsMap.mutate k g m) = JsMap.keys m.
Proof.
  unfold JsMap.keys.
  induction m as [|[k' v'] r IH]; cbn [JsMap.mutate map fst]; [reflexivity|].
  destruct (String.eqb k' k); cbn [map fst]; [reflexivity | now rewrite IH].
Qed.

Lemma Forall_mutate (P : string * V -> Prop) (g : V -> V) (k : string) (m : JsMap.t V) :
  (forall k0 x, P (k0, x) -> P (k0, g x)) ->
  Forall P m -> Forall P (JsMap.mutate k g m).
Proof.
  intros Hg H. induction H as [|[k' v'] r Hx Hr IH]; cbn [JsMap.mutate]; [constructor|].
  destruct (String.eqb k' k); constructor; auto.
Qed.

End UpdateShapes.

Section CollectionShapes.
Context {A : Type}.

Lemma deleteOne_shape (q : A -> bool) (c : list A) :
  (find q c = None /\ Mongo.deleteOne q c = (c, 0))
  \/ (exists l1 x l2,
        c = l1 ++ x :: l2 /\ find q l1 = None /\ q x = true
        /\ Mongo.deleteOne q c = (l1 ++ l2, 1)).
Proof.
  induction c as [|d r IH]; cbn [find Mongo.deleteOne].
  - left. split; reflexivity.
  - destruct (q d) eqn:E.
    + right. exists [], d, r. repeat split. exact E.
    + destruct IH as [[Hn Hs]|(l1 & x & l2 & -> & Hn & Hq & Hs)].
      * left. split; [exact Hn|]. now rewrite Hs.
      * right. exists (d :: l1), x, l2. cbn [find app]. rewrite E, Hs. repeat split; assumption.
Qed.

Lemma map_updateOne {B} (f : A -> B) (q : A -> bool) (g : A -> A) (c : list A) :
  (forall x, f (g x) = f x) ->
  map f (Mongo.updateOne q g c) = map f c.
Proof.
  intros Hfg. induction c as [|d r IH]; cbn [Mongo.updateOne map]; [reflexivity|].
  destruct (q d); cbn [map]; [now rewrite Hfg | now rewrite IH].
Qed.

Lemma find_None_forall (q : A -> bool) (c : list A) :
  find q c = None <-> forall x, In x c -> q x = false.
Proof.
  split.
  - intros H x Hin. exact (find_none q c H x Hin).
  - induction c as [|d r IH]; cbn [find]; [reflexivity|].
    intros H. rewrite (H d (or_introl eq_refl)). apply IH. intros x Hx. apply H. now right.
Qed.

Lemma NoDup_map_remove {B} (f : A -> B) (l1 l2 : list A) (x : A) :
  NoDup (map f (l1 ++ x :: l2)) -> NoDup (map f (l1 ++ l2)).
Proof.
  rewrite !map_app. cbn [map]. intros H. now apply NoDup_remove_1 in H.
Qed.

Lemma NoDup_map_replace {B} (f : A -> B) (l1 l2 : list A) (x y : A) :
  NoDup (map f (l1 ++ x :: l2)) ->
  ~ In (f y) (map f (l1 ++ l2)) ->
  NoDup (map f (l1 ++ y :: l2)).
Proof.
  rewrite !map_app. cbn [map]. intros H Hy.
  apply NoDup_remove_1 in H.
  apply (Permutation_NoDup (Permutation_middle _ _ _)).
  constructor; [exact Hy | exact H].
Qed.

Lemma NoDup_map_append {B} (f : A -> B) (l : list A) (y : A) :
  NoDup (map f l) -> ~ In (f y) (map f l) -> NoDup (map f (l ++ [y])).
Proof.
  intros H Hy. rewrite map_app. cbn [map].
  apply (Permutation_NoDup (Permutation_cons_append _ _)).
  now constructor.
Qed.

End CollectionShapes.

(** ** The member helpers, backend by backend *)

Lemma members_persistent (st : Store) :
  persistent st = true ->
  (forall k, getMember st k = find (fun m => String.eqb (Member.id m) k) (getMembers st))
  /\ (forall k, resolve st k = filter (fun m => String.eqb (Member.id m) k) (getMembers st))
  /\ (forall e, checkEmailExists st e
                = match find (fun m => String.eqb (Member.email m)
                                         (JsString.toLowerCase (JsString.trim e)))
                          (getMembers st) with
                  | Some _ => true
                  | None => false
                  end).
Proof.
  split_store st; cbn; intros Hp; try discriminate. repeat split.
Qed.

Lemma members_fallback (st : Store) :
  persistent st = false ->
  getMembers st = JsMap.values (members (fallbackStorage st))
  /\ (forall k, getMember st k = JsMap.get k (members (fallbackStorage st)))
  /\ (forall k, resolve st k
                = match JsMap.get k (members (fallbackStorage st)) with
                  | Some member => [member]
                  | None => []
                  end)
  /\ (forall e, checkEmailExists st e
                = existsb
                    (fun member =>
                       String.eqb (JsString.toLowerCase (Member.email member))
                         (JsString.toLowerCase (JsString.trim e)))
                    (getMembers st)).
Proof.
  split_store st; cbn; intros Hp; try discriminate; repeat split.
Qed.

Lemma addMember_failure (st st' : Store) (memberData : Member.t) (e : Thrown) :
  addMember st memberData = (st', inr e) -> st' = st.
Proof.
  unfold addMember. destruct (checkEmailExists st _); [now intros [= <- _]|].
  split_store st; cbn; try discriminate.
  destruct (Mongo.insertOne _ _ _); [discriminate | now intros [= <- _]].
Qed.

Lemma addMember_success (st st' : Store) (memberData m : Member.t) :
  addMember st memberData = (st', inl m) ->
  m = Member.with_email
        (JsString.toLowerCase (JsString.trim (Member.email memberData))) memberData
  /\ checkEmailExists st (Member.email m) = false
  /\ persistent st' = persistent st
  /\ (persistent st = true ->
      getMembers st' = getMembers st ++ [m]
      /\ existsb (fun d => members_unique d m) (getMembers st) = false
      /\ members (fallbackStorage st') = members (fallbackStorage st))
  /\ (persistent st = false ->
      members (fallbackStorage st')
      = JsMap.set (Member.id m) m (members (fallbackStorage st))).
Proof.
  unfold addMember.
  destruct (checkEmailExists st _) eqn:Hcheck; [discriminate|].
  split_store st; cbn in *.
  2: {
    destruct (Mongo.insertOne _ _ _) as [c|] eqn:Hins; [|discriminate].
    apply insertOne_Some in Hins as [-> Hfresh].
    intros [= <- <-]. cbn. repeat split; try discriminate; auto. }
  all: intros [= <- <-]; cbn; repeat split; try discriminate; auto.
Qed.

Lemma deleteMember_effect (st : Store) (id : string) :
  persistent (fst (deleteMember st id)) = persistent st
  /\ (persistent st = true ->
      getMembers (fst (deleteMember st id))
      = fst (Mongo.deleteOne (fun m => String.eqb (Member.id m) id) (getMembers st))
      /\ snd (deleteMember st id)
         = snd (Mongo.deleteOne (fun m => String.eqb (Member.id m) id) (getMembers st))
      /\ members (fallbackStorage (fst (deleteMember st id)))
         = members (fallbackStorage st))
  /\ (persistent st = false ->
      members (fallbackStorage (fst (deleteMember st id)))
      = fst (JsMap.delete id (members (fallbackStorage st)))
      /\ snd (deleteMember st id)
         = if snd (JsMap.delete id (members (fallbackStorage st))) then 1 else 0).
Proof.
  unfold deleteMember.
  split_store st; cbn.
  2: destruct (Mongo.deleteOne _ _) as [c n].
  1, 3, 4: destruct (JsMap.delete _ _) as [c b].
  all: cbn; repeat split; try discriminate; reflexivity.
Qed.

Lemma updateMemberFirstScan_members (st : Store) (m : string) (n : Z) :
  (persistent st = true ->
   getMembers (updateMemberFirstScan st m n)
   = Mongo.updateOne (fun m0 => String.eqb (Member.id m0) m)
       (Member.with_first_scan_date n) (getMembers st)
   /\ members (fallbackStorage (updateMemberFirstScan st m n))
      = members (fallbackStorage st))
  /\ (persistent st = false ->
      members (fallbackStorage (updateMemberFirstScan st m n))
      = JsMap.mutate m
          (fun member =>
             match Member.first_scan_date member with
             | None => Member.with_first_scan_date n member
             | Some _ => member
             end)
          (members (fallbackStorage st))).
Proof.
  split_store st; cbn; repeat split; try discriminate; reflexivity.
Qed.

Lemma addAttendanceRecord_members (st : Store) (r : Attendance.t) :
  getMembers (fst (addAttendanceRecord st r)) = getMembers st
  /\ members (fallbackStorage (fst (addAttendanceRecord st r)))
     = members (fallbackStorage st)
  /\ persistent (fst (addAttendanceRecord st r)) = persistent st.
Proof.
  unfold addAttendanceRecord.
  split_store st; cbn; try (repeat split; reflexivity).
  destruct (Mongo.insertOne _ _ _); repeat split; reflexivity.
Qed.

Lemma createSession_members (st : Store) (sessionData : Session.t) :
  getMembers (fst (createSession st sessionData)) = getMembers st
  /\ members (fallbackStorage (fst (createSession st sessionData)))
     = members (fallbackStorage st)
  /\ persistent (fst (createSession st sessionData)) = persistent st.
Proof.
  unfold createSession.
  split_store st; cbn; try (repeat split; reflexivity).
  destruct (Mongo.insertOne _ _ _); repeat split; reflexivity.
Qed.

Lemma post_api_sessions_members (st : Store) (uuid sessionDate baseUrl : string)
  (qr : string -> option string) (now : Z) (sessionName : string) :
  let st' := fst (post_api_sessions st uuid sessionDate baseUrl qr now sessionName) in
  getMembers st' = getMembers st
  /\ members (fallbackStorage st') = members (fallbackStorage st)
  /\ persistent st' = persistent st.
Proof.
  unfold post_api_sessions. cbv zeta.
  destruct (negb _); [repeat split|].
  destruct (qr _) as [image|]; [|repeat split].
  pose proof (createSession_members st
                (Session.mk uuid sessionName sessionDate
                   (baseUrl +++ "/scan/"%string +++ uuid) 1 now)) as H.
  destruct (createSession st _) as [st' [r|e]]; exact H.
Qed.

(** How a registration ends: refused with the store as it was, or
    confirmed with the member that [addMember] stored. *)
Lemma post_api_members_cases (st : Store) (uuid : string) (now : Z)
  (name email phone address : string) :
  let clean := JsString.toLowerCase (JsString.trim email) in
  (fst (post_api_members st uuid now name email phone address) = st
   /\ exists status error code,
        snd (post_api_members st uuid now name email phone address)
        = json_error status error code)
  \/ (exists st' m memberData,
        post_api_members st uuid now name email phone address
        = (st', json_member 201 m "Member added successfully")
        /\ addMember st memberData = (st', inl m)
        /\ Member.id memberData = uuid
        /\ Member.email m = clean
        /\ JsString.emailRegex_test clean = true
        /\ JsString.truthy name = true).
Proof.
  intros clean. unfold post_api_members. cbv zeta. fold clean.
  destruct (JsString.truthy name) eqn:Hname; cbn [negb orb]; [|left; split; [reflexivity | do 3 eexists; reflexivity]].
  destruct (JsString.truthy email); cbn [negb orb]; [|left; split; [reflexivity | do 3 eexists; reflexivity]].
  destruct (JsString.emailRegex_test clean) eqn:Hregex; cbn [negb]; [|left; split; [reflexivity | do 3 eexists; reflexivity]].
  destruct (checkEmailExists st clean); [left; split; [reflexivity | do 3 eexists; reflexivity]|].
  match goal with |- context [addMember st ?md] =>
    destruct (addMember st md) as [st' [m|e]] eqn:Hadd
  end.
  - right. exists st', m. eexists. split; [reflexivity|]. split; [exact Hadd|].
    split; [reflexivity|]. split; [|split; reflexivity].
    apply addMember_success in Hadd as [-> _]. cbn [Member.email Member.with_email].
    now apply normalize_clean.
  - apply addMember_failure in Hadd. subst st'. left.
    destruct (_ || _)%bool; (split; [reflexivity | do 3 eexists; reflexivity]).
Qed.

(** What an attendance request does to the store: nothing, or the writes
    of [record_attendance]. *)
Lemma mark_store_cases (st : Store) (req : Request) (m : string) :
  marked_member req = Some m ->
  fst (handle st req) = st
  \/ exists uuid n1 n2 s manual,
       getAttendanceRecord st s m = None
       /\ fst (handle st req)
          = fst (addAttendanceRecord
                   (if countMemberAttendance st m =? 0
                    then updateMemberFirstScan st m n1 else st)
                   (Attendance.mk uuid s m (countMemberAttendance st m =? 0) n2 true manual)).
Proof.
  intros Hm.
  destruct (attendance_handlers_append st req m Hm)
    as [[Hsame _]|(uuid & n1 & n2 & s & manual & msg & Hnone & Hh)].
  - now left.
  - right. exists uuid, n1, n2, s, manual. split; [exact Hnone|]. now rewrite Hh.
Qed.

(** ** What the requests do to the member list *)

Lemma updateMemberFirstScan_map {B} (f : Member.t -> B) (st : Store) (m : string) (n : Z) :
  (forall d x, f (Member.with_first_scan_date d x) = f x) ->
  map f (getMembers (updateMemberFirstScan st m n)) = map f (getMembers st)
  /\ persistent (updateMemberFirstScan st m n) = persistent st.
Proof.
  intros Hf.
  destruct (updateMemberFirstScan_frame st m n) as (Hp & _).
  split; [|exact Hp].
  destruct (updateMemberFirstScan_members st m n) as [Hdb Hfb].
  destruct (persistent st) eqn:Hmode.
  - destruct (Hdb eq_refl) as [-> _]. now apply map_updateOne.
  - rewrite (proj1 (members_fallback _ Hp)), (proj1 (members_fallback _ Hmode)).
    rewrite (Hfb eq_refl). apply map_values_mutate.
    intros x. destruct (Member.first_scan_date x); [reflexivity | apply Hf].
Qed.

Lemma mark_members_map {B} (f : Member.t -> B) (st : Store) (req : Request) (m : string) :
  marked_member req = Some m ->
  (forall d x, f (Member.with_first_scan_date d x) = f x) ->
  map f (getMembers (fst (handle st req))) = map f (getMembers st).
Proof.
  intros Hm Hf.
  destruct (mark_store_cases st req m Hm)
    as [->|(uuid & n1 & n2 & s & manual & _ & ->)]; [reflexivity|].
  rewrite (proj1 (addAttendanceRecord_members _ _)).
  destruct (countMemberAttendance st m =? 0); [|reflexivity].
  now apply updateMemberFirstScan_map.
Qed.

Lemma delete_api_members_store (st : Store) (id : string) :
  fst (delete_api_members st id) = fst (deleteMember st id).
Proof.
  unfold delete_api_members. destruct (deleteMember st id) as [st' n]. cbn.
  now destruct (n =? 0).
Qed.

(** A deletion removes one member from the list, or none. *)
Lemma deleteMember_list (st : Store) (id : string) :
  getMembers (fst (deleteMember st id)) = getMembers st
  \/ exists l1 x l2,
       getMembers st = l1 ++ x :: l2
       /\ getMembers (fst (deleteMember st id)) = l1 ++ l2.
Proof.
  destruct (deleteMember_effect st id) as (Hp & Hdb & Hfb).
  destruct (persistent st) eqn:Hmode.
  - destruct (Hdb eq_refl) as (-> & _ & _).
    destruct (deleteOne_shape (fun m => String.eqb (Member.id m) id) (getMembers st))
      as [[_ ->]|(l1 & x & l2 & Hc & _ & _ & ->)]; [left; reflexivity|].
    right. exists l1, x, l2. split; [exact Hc | reflexivity].
  - rewrite (proj1 (members_fallback _ Hp)), (proj1 (members_fallback _ Hmode)).
    destruct (Hfb eq_refl) as (-> & _).
    destruct (delete_shape id (members (fallbackStorage st)))
      as [[_ ->]|(l1 & old & l2 & -> & _ & ->)]; [left; reflexivity|].
    right. exists (JsMap.values l1), old, (JsMap.values l2).
    unfold JsMap.values. cbn [fst]. rewrite !map_app. split; reflexivity.
Qed.

(** A confirmed registration appends its member to the list, or, on the
    fallback backend when the drawn id is already a key, puts it in the
    place of the member stored under that key. *)
Lemma addMember_list (st st' : Store) (memberData m : Member.t) :
  addMember st memberData = (st', inl m) ->
  getMembers st' = getMembers st ++ [m]
  \/ exists l1 old l2,
       getMembers st = l1 ++ old :: l2
       /\ getMembers st' = l1 ++ m :: l2.
Proof.
  intros Hadd. apply addMember_success in Hadd as (_ & _ & Hp & Hdb & Hfb).
  destruct (persistent st) eqn:Hmode.
  - left. now destruct (Hdb eq_refl).
  - rewrite (proj1 (members_fallback _ Hmode)).
    rewrite (proj1 (members_fallback _ Hp)), (Hfb eq_refl).
    destruct (set_shape (Member.id m) m (members (fallbackStorage st)))
      as [[_ ->]|(l1 & old & l2 & -> & _ & ->)].
    + left. unfold JsMap.values. now rewrite map_app.
    + right. exists (JsMap.values l1), old, (JsMap.values l2).
      unfold JsMap.values. rewrite !map_app. now split.
Qed.

Lemma checkEmailExists_false_fresh (st : Store) (e : string) :
  emails_normal st ->
  JsString.toLowerCase (JsString.trim e) = e ->
  checkEmailExists st e = false ->
  ~ In e (map Member.email (getMembers st)).
Proof.
  intros Hnormal He Hcheck Hin.
  apply in_map_iff in Hin as (x & Hx & Hin).
  destruct (persistent st) eqn:Hmode.
  - destruct (members_persistent st Hmode) as (_ & _ & Hc).
    rewrite Hc, He in Hcheck.
    destruct (find _ (getMembers st)) eqn:Hfind; [discriminate|].
    pose proof (find_none _ _ Hfind x Hin) as Hq. cbn in Hq.
    rewrite Hx, String.eqb_refl in Hq. discriminate.
  - destruct (members_fallback st Hmode) as (_ & _ & _ & Hc).
    rewrite Hc, He in Hcheck.
    assert (Htrue : existsb
                      (fun member =>
                         String.eqb (JsString.toLowerCase (Member.email member)) e)
                      (getMembers st) = true).
    { apply existsb_exists. exists x. split; [exact Hin|].
      unfold emails_normal in Hnormal. rewrite Forall_forall in Hnormal.
      rewrite (Hnormal x Hin), Hx. apply String.eqb_refl. }
    congruence.
Qed.

(** ** Addresses stay in lower case and pairwise distinct *)

Lemma handle_emails (st : Store) (req : Request) :
  emails_normal st /\ emails_unique st ->
  emails_normal (fst (handle st req)) /\ emails_unique (fst (handle st req)).
Proof.
  intros [Hnormal Hunique].
  assert (Hsame : map Member.email (getMembers (fst (handle st req)))
                  = map Member.email (getMembers st) ->
                  emails_normal (fst (handle st req))
                  /\ emails_unique (fst (handle st req))).
  { intros Heq. unfold emails_normal, emails_unique in *. rewrite Heq. split; [|exact Hunique].
    apply Forall_forall. intros x Hx.
    assert (Hin : In (Member.email x) (map Member.email (getMembers st))).
    { rewrite <- Heq. now apply in_map. }
    apply in_map_iff in Hin as (y & Hy & Hin). rewrite <- Hy.
    rewrite Forall_forall in Hnormal. now apply Hnormal. }
  destruct req as [uuid now name email phone address | id
                  | uuid sessionDate baseUrl qr now sessionName
                  | uuid n1 n2 s m | uuid n1 n2 m].
  - cbn [handle] in *.
    destruct (post_api_members_cases st uuid now name email phone address)
      as [[Hst _]|(st' & m & memberData & Hpost & Hadd & _ & Hmail & Hregex & _)].
    + rewrite Hst. now split.
    + rewrite Hpost. cbn [fst].
      assert (Hm : JsString.toLowerCase (Member.email m) = Member.email m).
      { rewrite Hmail. apply toLowerCase_idempotent. }
      assert (Hfresh : ~ In (Member.email m) (map Member.email (getMembers st))).
      { apply checkEmailExists_false_fresh; [exact Hnormal | |].
        - rewrite Hmail. now apply normalize_clean.
        - now apply addMember_success in Hadd. }
      unfold emails_normal, emails_unique in *.
      destruct (addMember_list st st' memberData m Hadd)
        as [->|(l1 & old & l2 & Hst & ->)].
      * split; [apply Forall_app; split; [exact Hnormal | now constructor]|].
        now apply NoDup_map_append.
      * rewrite Hst in *. split.
        -- apply Forall_app in Hnormal as [H1 H2]. inversion H2; subst.
           apply Forall_app. split; [exact H1 | now constructor].
        -- apply NoDup_map_replace with old; [exact Hunique|].
           intros Hin. apply Hfresh. rewrite map_app in *. cbn [map].
           apply in_app_or in Hin as [Hin|Hin]; apply in_or_app; [now left|].
           right. now right.
  - cbn [handle]. rewrite delete_api_members_store.
    unfold emails_normal, emails_unique in *.
    destruct (deleteMember_list st id) as [->|(l1 & x & l2 & Hst & ->)]; [now split|].
    rewrite Hst in *. split.
    + apply Forall_app in Hnormal as [H1 H2]. inversion H2; subst.
      apply Forall_app. now split.
    + now apply NoDup_map_remove with x.
  - apply Hsame. cbn [handle].
    now rewrite (proj1 (post_api_sessions_members st uuid sessionDate baseUrl qr now
                          sessionName)).
  - apply Hsame. now apply mark_members_map with m.
  - apply Hsame. now apply mark_members_map with m.
Qed.

(** Serve any requests from a store whose member addresses are in lower
    case and pairwise distinct (an empty store, say): afterwards they still
    are, so no two stored members have addresses that agree up to letter
    case. *)
Theorem run_emails_unique (reqs : list Request) (st : Store) :
  emails_normal st ->
  emails_unique st ->
  emails_normal (run st reqs)
  /\ emails_unique (run st reqs)
  /\ NoDup (map (fun m => JsString.toLowerCase (Member.email m)) (getMembers (run st reqs))).
Proof.
  intros Hnormal Hunique.
  assert (H : emails_normal (run st reqs) /\ emails_unique (run st reqs)).
  { revert st Hnormal Hunique.
    induction reqs as [|req reqs IH]; intros st Hnormal Hunique; cbn; [now split|].
    destruct (handle_emails st req (conj Hnormal Hunique)) as [H1 H2]. now apply IH. }
  destruct H as [H1 H2]. split; [exact H1|]. split; [exact H2|].
  unfold emails_normal, emails_unique in *.
  rewrite (map_ext_in _ Member.email); [exact H2|].
  intros x Hx. rewrite Forall_forall in H1. now apply H1.
Qed.

Lemma run_emails_unique_witness :
  map Member.email (getMembers (run database_store two_registrations))
  = ["ada@x.com"%string; "bob@x.com"%string]
  /\ emails_unique (run database_store two_registrations).
Proof.
  split; [vm_compute; reflexivity|].
  refine (proj1 (proj2 (run_emails_unique two_registrations database_store _ _))).
  - constructor.
  - constructor.
Defined.

(** ** What a confirmed attendance request wrote *)

Lemma marked_cases (st st' : Store) (req : Request) (m msg : string)
  (ft : bool) (rid : string) :
  marked_member req = Some m ->
  handle st req = (st', json_marked msg ft rid) ->
  exists uuid n1 n2 s manual,
    record_attendance st uuid n1 n2 s m manual
    = (st', inl (Attendance.mk uuid s m ft n2 true manual))
    /\ getAttendanceRecord st s m = None
    /\ (exists member, getMember st m = Some member)
    /\ ((manual = false /\ exists session, getSession st s = Some session)
        \/ (manual = true /\ exists session,
              getActiveSession st = Some session /\ s = Session.id session))
    /\ rid = uuid
    /\ ft = (countMemberAttendance st m =? 0).
Proof.
  destruct req as [| | |uuid n1 n2 s m0|uuid n1 n2 m0]; try discriminate;
    intros [= ->]; cbn [handle]; intros Hh.
  - apply post_api_attendance_marked in Hh
      as (_ & _ & Hsess & Hmem & Hnone & Hft & Hrid & Hrec).
    exists uuid, n1, n2, s, false. repeat split; auto.
  - apply post_api_attendance_manual_marked in Hh
      as (session & _ & Hact & Hmem & Hnone & Hft & Hrid & Hrec).
    exists uuid, n1, n2, (Session.id session), true. repeat split; eauto.
Qed.

(** What any request does to the record list: nothing, or one record
    appended for a pair that had none. *)
Lemma handle_records_cases (st : Store) (req : Request) :
  records (fst (handle st req)) = records st
  \/ exists r,
       records (fst (handle st req)) = records st ++ [r]
       /\ getAttendanceRecord st (Attendance.session_id r) (Attendance.member_id r) = None.
Proof.
  destruct (marked_member req) as [m|] eqn:Hm.
  - destruct (attendance_handlers_append st req m Hm)
      as [[Hsame _]|(uuid & n1 & n2 & s & manual & msg & Hnone & Hh)].
    + left. now rewrite Hsame.
    + right. rewrite Hh. cbn [fst].
      destruct (record_attendance_effect st uuid n1 n2 s m manual Hnone)
        as (st' & Hrec & _ & Hrecords & _).
      rewrite Hrec. cbn [fst]. eexists. split; [exact Hrecords | exact Hnone].
  - left. destruct req; try discriminate; cbn [handle].
    + apply post_api_members_frame.
    + apply delete_api_members_frame.
    + apply post_api_sessions_frame.
Qed.

(** ** One record per pair, in every reachable store *)

Lemma pair_fresh (st : Store) (s m : string) :
  attendance_keyed st ->
  getAttendanceRecord st s m = None ->
  ~ In (s, m) (map pair_of (records st)).
Proof.
  intros Hk Hnone Hin. apply in_map_iff in Hin as (x & Hx & Hin).
  assert (Hf : In x (filter (for_pair s m) (records st))).
  { apply filter_In. split; [exact Hin|].
    unfold pair_of in Hx. injection Hx as Hs Hm. unfold for_pair.
    now rewrite Hs, Hm, !String.eqb_refl. }
  now rewrite (no_record_for_pair st s m Hk Hnone) in Hf.
Qed.

Lemma pairs_unique_count (l : list Attendance.t) (s m : string) :
  NoDup (map pair_of l) -> (List.length (filter (for_pair s m) l) <= 1)%nat.
Proof.
  induction l as [|x l IH]; cbn [map filter]; intros H; [cbn; lia|].
  inversion H as [|? ? Hx Hl]; subst.
  destruct (for_pair s m x) eqn:Hp; [|now apply IH].
  assert (Hnil : filter (for_pair s m) l = []).
  { destruct (filter (for_pair s m) l) as [|y r] eqn:E; [reflexivity|].
    exfalso. apply Hx.
    assert (Hy : In y (filter (for_pair s m) l)) by (rewrite E; now left).
    apply filter_In in Hy as [Hy Hq].
    assert (Hsame : pair_of x = pair_of y).
    { unfold for_pair in Hp, Hq.
      apply andb_prop in Hp as [H1 H2]. apply andb_prop in Hq as [H3 H4].
      apply String.eqb_eq in H1, H2, H3, H4. unfold pair_of. congruence. }
    rewrite Hsame. now apply in_map. }
  rewrite Hnil. cbn. lia.
Qed.

Lemma handle_pairs_unique (st : Store) (req : Request) :
  attendance_keyed st -> pairs_unique st -> pairs_unique (fst (handle st req)).
Proof.
  intros Hk Hu. unfold pairs_unique in *.
  destruct (handle_records_cases st req) as [->|(r & -> & Hnone)]; [exact Hu|].
  apply NoDup_map_append; [exact Hu|].
  now apply pair_fresh.
Qed.

(** Serve any requests from a store that holds at most one attendance
    record for each (session, member) pair and whose fallback maps are
    keyed as the helpers key them (an empty store, say): afterwards no two
    records have the same pair. *)
Theorem run_pairs_unique (reqs : list Request) (st : Store) :
  sessions_keyed st ->
  attendance_keyed st ->
  pairs_unique st ->
  pairs_unique (run st reqs)
  /\ forall s m, (count_records (for_pair s m) (run st reqs) <= 1)%nat.
Proof.
  intros Hs Ha Hu.
  assert (H : pairs_unique (run st reqs)).
  { revert st Hs Ha Hu.
    induction reqs as [|req reqs IH]; intros st Hs Ha Hu; cbn; [exact Hu|].
    destruct (handle_keyed st req (conj Hs Ha)) as [Hs' Ha'].
    apply IH; [exact Hs' | exact Ha' | now apply handle_pairs_unique]. }
  split; [exact H|].
  intros s m. now apply pairs_unique_count.
Qed.

Lemma run_pairs_unique_witness :
  map pair_of (records (run fallback_store marks_in_two_sessions))
  = [("s1"%string, "m1"%string); ("s2"%string, "m1"%string)]
  /\ pairs_unique (run fallback_store marks_in_two_sessions).
Proof.
  split; [vm_compute; reflexivity|].
  refine (proj1 (run_pairs_unique marks_in_two_sessions fallback_store _ _ _));
    constructor.
Defined.

(** No request alters or removes a stored attendance record: after any
    requests the record list is the earlier list, entry for entry, followed
    by the records created since. *)
Theorem run_records_only_grow (reqs : list Request) (st : Store) :
  exists created,
    records (run st reqs) = records st ++ created
    /\ forall s m,
         (count_records (for_pair s m) st <= count_records (for_pair s m) (run st reqs))%nat.
Proof.
  destruct (run_records_append reqs st) as [created H].
  exists created. split; [exact H|].
  intros s m. unfold count_records. rewrite H, filter_app, length_app. lia.
Qed.

(** ** Sessions: what a creation does to the scan links *)

Lemma find_deactivated (q : Session.t -> bool) (l : list Session.t) :
  find (fun s => (q s && (Session.is_active s =? 1))%bool)
    (Mongo.updateMany (fun _ => true) (Session.with_is_active 0) l) = None.
Proof.
  unfold Mongo.updateMany. induction l as [|s l IH]; cbn [map find]; [reflexivity|].
  cbn. rewrite andb_false_r. exact IH.
Qed.

Lemma createSession_getSession (st st' : Store) (sessionData result : Session.t) :
  createSession st sessionData = (st', inl result) ->
  active sessionData = true ->
  forall sid,
    getSession st' sid
    = if String.eqb (Session.id sessionData) sid then Some sessionData else None.
Proof.
  assert (Hfb : forall (ss : JsMap.t Session.t) (sid : string),
             active sessionData = true ->
             match JsMap.get sid
                     (JsMap.set (Session.id sessionData) sessionData
                        (JsMap.forEachValue (Session.with_is_active 0) ss)) with
             | Some session => if Session.is_active session =? 1 then Some session else None
             | None => None
             end
             = if String.eqb (Session.id sessionData) sid then Some sessionData else None).
  { intros ss sid Ha. destruct (String.eqb_spec (Session.id sessionData) sid) as [<-|Hne].
    - rewrite get_set_same. unfold active in Ha. now rewrite Ha.
    - rewrite get_set_other by assumption. rewrite get_forEachValue.
      now destruct (JsMap.get sid ss). }
  unfold createSession.
  split_store st; cbn [connectToDatabase db fallbackStorage usingFallback].
  2: {
    destruct (Mongo.insertOne _ _ _) as [c|] eqn:Hins; [|discriminate].
    apply insertOne_Some in Hins as [-> _].
    intros [= <- _] Ha sid. cbn. unfold Mongo.findOne.
    rewrite (find_app_None _ _ _
               (find_deactivated (fun s => String.eqb (Session.id s) sid) _)).
    unfold active in Ha. rewrite Ha, andb_true_r. reflexivity. }
  all: intros [= <- _] Ha sid; cbn; now apply Hfb.
Qed.

(** Once a session creation is confirmed, [getSession] finds the new
    session under its id and nothing under any other id: the scan page of
    every other id is the not-found page, and a mark that carries a member
    id and any other session id (neither of them empty) is refused with
    [Session is not active] and changes nothing. *)
Theorem createSession_retires_other_sessions
  (st st' : Store) (uuid sessionDate baseUrl : string)
  (qr : string -> option string) (now : Z)
  (sessionName sid sname sdate qd img msg : string) :
  post_api_sessions st uuid sessionDate baseUrl qr now sessionName
  = (st', json_session sid sname sdate qd img msg) ->
  let newSession :=
    Session.mk uuid sessionName sessionDate (baseUrl +++ "/scan/"%string +++ uuid) 1 now in
  getSession st' uuid = Some newSession
  /\ get_scan st' uuid = reply_page 200 (ScanPage newSession)
  /\ forall other : string,
       other <> uuid ->
       getSession st' other = None
       /\ get_scan st' other = reply_page 404 SessionNotFoundPage
       /\ forall (u : string) (n1 n2 : Z) (memberId : string),
            JsString.truthy other = true ->
            JsString.truthy memberId = true ->
            post_api_attendance st' u n1 n2 other memberId = (st', SessionNotActive).
Proof.
  intros Hpost newSession.
  apply post_api_sessions_created in Hpost as [result Hcreate]. fold newSession in Hcreate.
  pose proof (createSession_getSession st st' newSession result Hcreate eq_refl) as Hget.
  cbn [Session.id newSession] in Hget.
  assert (Hnew : getSession st' uuid = Some newSession).
  { now rewrite Hget, String.eqb_refl. }
  split; [exact Hnew|]. split; [unfold get_scan; now rewrite Hnew|].
  intros other Hne.
  assert (Hother : getSession st' other = None).
  { rewrite Hget. destruct (String.eqb_spec uuid other); [now subst | reflexivity]. }
  split; [exact Hother|]. split; [unfold get_scan; now rewrite Hother|].
  intros u n1 n2 memberId Ho Hm. unfold post_api_attendance.
  now rewrite Ho, Hm, Hother.
Qed.

Lemma createSession_retires_other_sessions_witness :
  let st' :=
    fst (post_api_sessions sample_fallback "s2" "2024-01-14" "https://host" sample_qr 5
           "Second Sunday") in
  post_api_attendance st' "r1" 6 6 "s1" "m1" = (st', SessionNotActive).
Proof.
  intros st'.
  refine (proj2 (proj2 (proj2 (proj2
    (createSession_retires_other_sessions sample_fallback st' "s2" "2024-01-14"
       "https://host" sample_qr 5 "Second Sunday" _ _ _ _ _ _ _)) "s1"%string _))
    "r1"%string 6 6 "m1"%string _ _).
  - vm_compute. reflexivity.
  - discriminate.
  - reflexivity.
  - reflexivity.
Defined.

(** ** Sessions are never removed, and records name stored sessions *)

Lemma map_id_deactivated (l : list Session.t) :
  map Session.id (map (Session.with_is_active 0) l) = map Session.id l.
Proof. rewrite map_map. reflexivity. Qed.

Lemma values_forEachValue_ids (ss : JsMap.t Session.t) :
  map Session.id (JsMap.values (JsMap.forEachValue (Session.with_is_active 0) ss))
  = map Session.id (JsMap.values ss).
Proof.
  unfold JsMap.values, JsMap.forEachValue. rewrite !map_map. reflexivity.
Qed.

Lemma createSession_ids (st : Store) (sessionData : Session.t) (x : string) :
  sessions_keyed st ->
  In x (map Session.id (stored_sessions st)) ->
  In x (map Session.id (stored_sessions (fst (createSession st sessionData)))).
Proof.
  assert (Hfb : forall ss : JsMap.t Session.t,
             Forall (fun kv => fst kv = Session.id (snd kv)) ss ->
             In x (map Session.id (JsMap.values ss)) ->
             In x (map Session.id
                     (JsMap.values
                        (JsMap.set (Session.id sessionData) sessionData
                           (JsMap.forEachValue (Session.with_is_active 0) ss))))).
  { intros ss Hk Hin. rewrite <- values_forEachValue_ids in Hin.
    apply Forall_forEachValue_keyed in Hk.
    destruct (set_shape (Session.id sessionData) sessionData
                (JsMap.forEachValue (Session.with_is_active 0) ss))
      as [[_ ->]|(l1 & old & l2 & Heq & _ & ->)].
    - unfold JsMap.values in *. rewrite !map_app. apply in_or_app. now left.
    - rewrite Heq in Hin, Hk. apply Forall_app in Hk as [_ Hk].
      apply Forall_inv in Hk. rename Hk into Hold. cbn in Hold.
      unfold JsMap.values in *. rewrite !map_app in *. cbn [map snd] in *.
      now rewrite <- Hold in Hin. }
  unfold sessions_keyed, createSession.
  split_store st; cbn; intros Hk Hin; try (now apply Hfb).
  destruct (Mongo.insertOne _ _ _) as [c|] eqn:Hins; cbn.
  - apply insertOne_Some in Hins as [-> _]. unfold Mongo.updateMany.
    rewrite map_app, map_id_deactivated. apply in_or_app. now left.
  - unfold Mongo.updateMany. now rewrite map_id_deactivated.
Qed.

Lemma handle_session_ids (st : Store) (req : Request) (x : string) :
  sessions_keyed st ->
  In x (map Session.id (stored_sessions st)) ->
  In x (map Session.id (stored_sessions (fst (handle st req)))).
Proof.
  intros Hk Hin.
  destruct req as [uuid now name email phone address | id
                  | uuid sessionDate baseUrl qr now sessionName
                  | uuid n1 n2 s m | uuid n1 n2 m]; cbn [handle].
  - destruct (post_api_members_frame st uuid now name email phone address)
      as [_ (_ & Hs & _)]. now rewrite Hs.
  - destruct (delete_api_members_frame st id) as [_ (_ & Hs & _)]. now rewrite Hs.
  - unfold post_api_sessions.
    destruct (negb _); [exact Hin|].
    destruct (qr _); [|exact Hin].
    match goal with |- context [createSession st ?sd] =>
      pose proof (createSession_ids st sd x Hk Hin) as H;
      destruct (createSession st sd) as [st' [r|e]]
    end; exact H.
  - destruct (attendance_handlers_append st (MarkAttendance uuid n1 n2 s m) m eq_refl)
      as [[Hsame _]|(uuid0 & n10 & n20 & s0 & manual & msg & Hnone & Hh)];
      cbn [handle] in *.
    + now rewrite Hsame.
    + rewrite Hh. cbn [fst].
      destruct (record_attendance_effect st uuid0 n10 n20 s0 m manual Hnone)
        as (st' & Hrec & _ & _ & _ & Hs & _).
      rewrite Hrec. cbn [fst]. now rewrite Hs.
  - destruct (attendance_handlers_append st (MarkManual uuid n1 n2 m) m eq_refl)
      as [[Hsame _]|(uuid0 & n10 & n20 & s0 & manual & msg & Hnone & Hh)];
      cbn [handle] in *.
    + now rewrite Hsame.
    + rewrite Hh. cbn [fst].
      destruct (record_attendance_effect st uuid0 n10 n20 s0 m manual Hnone)
        as (st' & Hrec & _ & _ & _ & Hs & _).
      rewrite Hrec. cbn [fst]. now rewrite Hs.
Qed.

Lemma getSession_stored (st : Store) (s : string) (session : Session.t) :
  sessions_keyed st ->
  getSession st s = Some session ->
  In s (map Session.id (stored_sessions st)).
Proof.
  assert (Hfb : forall ss : JsMap.t Session.t,
             Forall (fun kv => fst kv = Session.id (snd kv)) ss ->
             match JsMap.get s ss with
             | Some x => if Session.is_active x =? 1 then Some x else None
             | None => None
             end = Some session ->
             In s (map Session.id (JsMap.values ss))).
  { intros ss Hk. destruct (JsMap.get s ss) as [x|] eqn:Hget; [|discriminate].
    intros _. apply get_In in Hget.
    rewrite Forall_forall in Hk. pose proof (Hk _ Hget) as Hid. cbn in Hid.
    rewrite Hid. apply in_map. unfold JsMap.values.
    change x with (snd (s, x)). now apply in_map. }
  unfold sessions_keyed.
  split_store st; cbn; intros Hk Hget; try (now apply Hfb).
  apply find_some in Hget as [Hin Hq]. apply andb_prop in Hq as [Hid _].
  apply String.eqb_eq in Hid. subst s. now apply in_map.
Qed.

Lemma getActiveSession_stored (st : Store) (session : Session.t) :
  getActiveSession st = Some session ->
  In session (stored_sessions st) /\ Session.is_active session = 1.
Proof.
  assert (Hfb : forall (ss : JsMap.t Session.t) (aid : option string),
             match aid with
             | Some sid =>
                 if JsString.truthy sid then
                   match JsMap.get sid ss with
                   | Some x => if Session.is_active x =? 1 then Some x else None
                   | None => None
                   end
                 else None
             | None => None
             end = Some session ->
             In session (JsMap.values ss) /\ Session.is_active session = 1).
  { intros ss [sid|]; [|discriminate].
    destruct (JsString.truthy sid); [|discriminate].
    destruct (JsMap.get sid ss) as [x|] eqn:Hget; [|discriminate].
    destruct (Z.eqb_spec (Session.is_active x) 1) as [Ha|]; [|discriminate].
    intros [= <-]. split; [|exact Ha].
    apply get_In in Hget. unfold JsMap.values.
    change x with (snd (sid, x)). now apply in_map. }
  split_store st; cbn; intros Hget; try (now apply Hfb in Hget).
  apply find_some in Hget as [Hin Hq]. split; [exact Hin | now apply Z.eqb_eq].
Qed.

Lemma handle_records_name_sessions (st : Store) (req : Request) :
  sessions_keyed st ->
  records_name_sessions st ->
  records_name_sessions (fst (handle st req)).
Proof.
  intros Hk Hr. unfold records_name_sessions in *.
  assert (Hold : Forall
                   (fun r => In (Attendance.session_id r)
                               (map Session.id (stored_sessions (fst (handle st req)))))
                   (records st)).
  { eapply Forall_impl; [|exact Hr]. intros r Hin. now apply handle_session_ids. }
  destruct (marked_member req) as [m|] eqn:Hm.
  - destruct (handle st req) as [st' resp] eqn:Hh. cbn [fst] in *.
    destruct (attendance_handlers_append st req m Hm)
      as [[Hsame _]|(uuid & n1 & n2 & s & manual & msg & Hnone & Hh')].
    + rewrite Hh in Hsame. cbn in Hsame. subst st'. exact Hr.
    + rewrite Hh in Hh'. injection Hh' as Hst Hresp.
      destruct (marked_cases st st' req m _ _ _ Hm
                  (eq_trans Hh (f_equal (pair st') Hresp)))
        as (uuid' & n1' & n2' & s' & manual' & Hrec & Hnone' & _ & Hsess & _).
      destruct (record_attendance_effect st uuid' n1' n2' s' m manual' Hnone')
        as (st2 & Hrec2 & _ & Hrecords & _ & Hs & _).
      assert (Est : st2 = st') by congruence. subst st2.
      rewrite Hrecords. apply Forall_app. split; [exact Hold|].
      constructor; [|constructor]. cbn [Attendance.session_id]. rewrite Hs.
      destruct Hsess as [[_ [session Hget]]|[_ (session & Hact & ->)]].
      * now apply getSession_stored with session.
      * apply in_map. now apply getActiveSession_stored.
  - destruct (handle_records_cases st req) as [->|(r & Hrec & _)]; [exact Hold|].
    exfalso. destruct req; try discriminate; cbn [handle] in Hrec.
    + rewrite (proj1 (proj2 (proj1 (post_api_members_frame _ _ _ _ _ _ _)))) in Hrec.
      apply (f_equal (@List.length _)) in Hrec. rewrite length_app in Hrec. cbn in Hrec. lia.
    + rewrite (proj1 (proj2 (proj1 (delete_api_members_frame _ _)))) in Hrec.
      apply (f_equal (@List.length _)) in Hrec. rewrite length_app in Hrec. cbn in Hrec. lia.
    + rewrite (proj1 (proj2 (post_api_sessions_frame _ _ _ _ _ _ _))) in Hrec.
      apply (f_equal (@List.length _)) in Hrec. rewrite length_app in Hrec. cbn in Hrec. lia.
Qed.

(** Serve any requests from a store whose fallback session map is keyed by
    the session ids: every session id stored before is still stored
    afterwards, and if every attendance record named a stored session
    before, every record does afterwards. *)
Theorem run_sessions_kept (reqs : list Request) (st : Store) :
  sessions_keyed st ->
  attendance_keyed st ->
  records_name_sessions st ->
  (forall x, In x (map Session.id (stored_sessions st)) ->
             In x (map Session.id (stored_sessions (run st reqs))))
  /\ records_name_sessions (run st reqs).
Proof.
  revert st. induction reqs as [|req reqs IH]; intros st Hs Ha Hr; cbn; [now split|].
  destruct (handle_keyed st req (conj Hs Ha)) as [Hs' Ha'].
  destruct (IH (fst (handle st req)) Hs' Ha'
              (handle_records_name_sessions st req Hs Hr)) as [Hids Hnames].
  split; [|exact Hnames].
  intros x Hx. apply Hids. now apply handle_session_ids.
Qed.

Lemma run_sessions_kept_witness :
  records_name_sessions (run database_store marks_in_two_sessions).
Proof.
  refine (proj2 (run_sessions_kept marks_in_two_sessions database_store _ _ _)); constructor.
Defined.

(** ** Member ids stay pairwise distinct *)

Lemma keyed_ids (ms : JsMap.t Member.t) :
  Forall (fun kv => fst kv = Member.id (snd kv)) ms ->
  map Member.id (JsMap.values ms) = JsMap.keys ms.
Proof.
  unfold JsMap.values, JsMap.keys.
  induction 1 as [|[k v] r Hk Hr IH]; cbn [map fst snd]; [reflexivity|].
  cbn in Hk. now rewrite IH, Hk.
Qed.

Lemma keyed_get_find (ms : JsMap.t Member.t) (k : string) :
  Forall (fun kv => fst kv = Member.id (snd kv)) ms ->
  JsMap.get k ms = find (fun m => String.eqb (Member.id m) k) (JsMap.values ms).
Proof.
  unfold JsMap.values.
  induction 1 as [|[k' v] r Hk Hr IH]; cbn [JsMap.get map snd find]; [reflexivity|].
  cbn in Hk. rewrite <- Hk. now destruct (String.eqb k' k).
Qed.

Lemma members_unique_fresh (l : list Member.t) (m : Member.t) :
  existsb (fun d => members_unique d m) l = false ->
  ~ In (Member.id m) (map Member.id l).
Proof.
  intros H Hin. apply in_map_iff in Hin as (x & Hx & Hin).
  assert (Ht : existsb (fun d => members_unique d m) l = true).
  { apply existsb_exists. exists x. split; [exact Hin|].
    unfold members_unique. now rewrite Hx, String.eqb_refl. }
  congruence.
Qed.

Lemma mark_members_keyed (st : Store) (req : Request) (m : string) :
  marked_member req = Some m ->
  members_keyed st -> members_keyed (fst (handle st req)).
Proof.
  intros Hm Hk. unfold members_keyed in *.
  destruct (mark_store_cases st req m Hm)
    as [->|(uuid & n1 & n2 & s & manual & _ & ->)]; [exact Hk|].
  rewrite (proj1 (proj2 (addAttendanceRecord_members _ _))).
  destruct (countMemberAttendance st m =? 0); [|exact Hk].
  destruct (updateMemberFirstScan_members st m n1) as [Hdb Hfb].
  destruct (persistent st) eqn:Hmode.
  - now rewrite (proj2 (Hdb eq_refl)).
  - rewrite (Hfb eq_refl). apply Forall_mutate; [|exact Hk].
    intros k0 x Hx. cbn in *. now destruct (Member.first_scan_date x).
Qed.

Lemma handle_member_ids (st : Store) (req : Request) :
  members_keyed st /\ member_ids_unique st ->
  members_keyed (fst (handle st req)) /\ member_ids_unique (fst (handle st req)).
Proof.
  intros [Hk Hu].
  destruct req as [uuid now name email phone address | id
                  | uuid sessionDate baseUrl qr now sessionName
                  | uuid n1 n2 s m | uuid n1 n2 m].
  - cbn [handle].
    destruct (post_api_members_cases st uuid now name email phone address)
      as [[Hst _]|(st' & m & memberData & Hpost & Hadd & _)].
    + rewrite Hst. now split.
    + rewrite Hpost. cbn [fst].
      destruct (addMember_success st st' memberData m Hadd) as (_ & _ & Hp & Hdb & Hfb).
      unfold members_keyed, member_ids_unique in *.
      destruct (persistent st) eqn:Hmode.
      * destruct (Hdb eq_refl) as (Hlist & Hfresh & Hmap).
        rewrite Hmap, Hlist. split; [exact Hk|].
        apply NoDup_map_append; [exact Hu|]. now apply members_unique_fresh.
      * rewrite (Hfb eq_refl).
        split; [apply Forall_set; [reflexivity | exact Hk]|].
        rewrite (proj1 (members_fallback _ Hp)), (Hfb eq_refl).
        rewrite (proj1 (members_fallback _ Hmode)) in Hu.
        destruct (set_shape (Member.id m) m (members (fallbackStorage st)))
          as [[Hnone ->]|(l1 & old & l2 & Heq & _ & ->)].
        -- unfold JsMap.values in *. rewrite map_app. cbn [map snd].
           apply NoDup_map_append; [exact Hu|].
           fold (JsMap.values (members (fallbackStorage st))).
           rewrite (keyed_ids _ Hk). now apply get_None_keys.
        -- rewrite Heq in Hu, Hk. apply Forall_app in Hk as [_ Hk].
           apply Forall_inv in Hk. cbn in Hk.
           unfold JsMap.values in *. rewrite !map_app in *. cbn [map snd] in *.
           now rewrite <- Hk in Hu.
  - cbn [handle]. rewrite delete_api_members_store.
    split.
    + unfold members_keyed in *.
      destruct (deleteMember_effect st id) as (_ & Hdb & Hfb).
      destruct (persistent st) eqn:Hmode.
      * now rewrite (proj2 (proj2 (Hdb eq_refl))).
      * rewrite (proj1 (Hfb eq_refl)).
        destruct (delete_shape id (members (fallbackStorage st)))
          as [[_ ->]|(l1 & old & l2 & Heq & _ & ->)]; [exact Hk|].
        rewrite Heq in Hk. apply Forall_app in Hk as [H1 H2]. inversion H2; subst.
        apply Forall_app. now split.
    + unfold member_ids_unique in *.
      destruct (deleteMember_list st id) as [->|(l1 & x & l2 & Hst & ->)]; [exact Hu|].
      rewrite Hst in Hu. now apply NoDup_map_remove with x.
  - cbn [handle].
    destruct (post_api_sessions_members st uuid sessionDate baseUrl qr now sessionName)
      as (Hl & Hm & _).
    unfold members_keyed, member_ids_unique in *. now rewrite Hl, Hm.
  - split; [now apply mark_members_keyed with m|].
    unfold member_ids_unique.
    now rewrite (mark_members_map Member.id st (MarkAttendance uuid n1 n2 s m) m eq_refl).
  - split; [now apply mark_members_keyed with m|].
    unfold member_ids_unique.
    now rewrite (mark_members_map Member.id st (MarkManual uuid n1 n2 m) m eq_refl).
Qed.

(** Serve any requests from a store whose members have pairwise distinct
    ids and whose fallback member map is keyed by them (an empty store,
    say): afterwards the ids are still pairwise distinct, and looking a
    member up by id is finding it in the member list. *)
Theorem run_member_ids_unique (reqs : list Request) (st : Store) :
  members_keyed st ->
  member_ids_unique st ->
  members_keyed (run st reqs)
  /\ member_ids_unique (run st reqs)
  /\ forall k,
       getMember (run st reqs) k
       = find (fun m => String.eqb (Member.id m) k) (getMembers (run st reqs)).
Proof.
  intros Hk Hu.
  assert (H : members_keyed (run st reqs) /\ member_ids_unique (run st reqs)).
  { revert st Hk Hu.
    induction reqs as [|req reqs IH]; intros st Hk Hu; cbn; [now split|].
    destruct (handle_member_ids st req (conj Hk Hu)) as [H1 H2]. now apply IH. }
  destruct H as [H1 H2]. split; [exact H1|]. split; [exact H2|].
  intros k. destruct (persistent (run st reqs)) eqn:Hmode.
  - apply (members_persistent _ Hmode).
  - destruct (members_fallback _ Hmode) as (Hl & Hg & _).
    rewrite Hg, Hl. now apply keyed_get_find.
Qed.

Lemma run_member_ids_unique_witness :
  member_ids_unique (run fallback_store three_marks).
Proof.
  refine (proj1 (proj2 (run_member_ids_unique three_marks fallback_store _ _))); constructor.
Defined.

(** ** Deleting a member *)

Lemma getMember_find (st : Store) (k : string) :
  members_keyed st ->
  getMember st k = find (fun m => String.eqb (Member.id m) k) (getMembers st).
Proof.
  intros Hk. destruct (persistent st) eqn:Hmode.
  - apply (members_persistent _ Hmode).
  - destruct (members_fallback _ Hmode) as (Hl & Hg & _).
    rewrite Hg, Hl. now apply keyed_get_find.
Qed.

Lemma filter_keep_all {A} (q : A -> bool) (l : list A) :
  (forall y, In y l -> q y = false) -> filter (fun y => negb (q y)) l = l.
Proof.
  induction l as [|x l IH]; cbn [filter]; intros H; [reflexivity|].
  rewrite (H x (or_introl eq_refl)). cbn. rewrite IH; [reflexivity|].
  intros y Hy. apply H. now right.
Qed.

Lemma filter_remove_unique (l1 l2 : list Member.t) (x : Member.t) :
  NoDup (map Member.id (l1 ++ x :: l2)) ->
  filter (fun y => negb (String.eqb (Member.id y) (Member.id x))) (l1 ++ x :: l2)
  = l1 ++ l2.
Proof.
  intros Hu. rewrite map_app in Hu. cbn [map] in Hu.
  pose proof (NoDup_remove_2 _ _ _ Hu) as Hx.
  rewrite filter_app. cbn [filter]. rewrite String.eqb_refl. cbn [negb].
  rewrite !filter_keep_all; [reflexivity| |].
  - intros y Hy. apply String.eqb_neq. intros Heq. apply Hx.
    apply in_or_app. right. rewrite <- Heq. now apply in_map.
  - intros y Hy. apply String.eqb_neq. intros Heq. apply Hx.
    apply in_or_app. left. rewrite <- Heq. now apply in_map.
Qed.

Lemma deleteMember_getMembers (st : Store) (id : string) :
  members_keyed st ->
  member_ids_unique st ->
  getMembers (fst (deleteMember st id))
  = filter (fun m => negb (String.eqb (Member.id m) id)) (getMembers st).
Proof.
  intros Hk Hu. unfold members_keyed, member_ids_unique in *.
  destruct (deleteMember_effect st id) as (Hp & Hdb & Hfb).
  destruct (persistent st) eqn:Hmode.
  - destruct (Hdb eq_refl) as (-> & _ & _).
    destruct (deleteOne_shape (fun m => String.eqb (Member.id m) id) (getMembers st))
      as [[Hnone ->]|(l1 & x & l2 & Hc & _ & Hq & ->)]; cbn [fst].
    + symmetry. apply filter_keep_all. now apply find_None_forall.
    + apply String.eqb_eq in Hq. subst id. rewrite Hc in *.
      symmetry. now apply filter_remove_unique.
  - rewrite (proj1 (members_fallback _ Hp)), (proj1 (members_fallback _ Hmode)) in *.
    rewrite (proj1 (Hfb eq_refl)).
    destruct (delete_shape id (members (fallbackStorage st)))
      as [[Hnone ->]|(l1 & old & l2 & Heq & _ & ->)]; cbn [fst].
    + symmetry. apply filter_keep_all. apply find_None_forall.
      now rewrite <- keyed_get_find.
    + rewrite Heq in *. apply Forall_app in Hk as [_ Hk]. apply Forall_inv in Hk.
      cbn in Hk. subst id.
      unfold JsMap.values in *. rewrite map_app in Hu. rewrite !map_app.
      cbn [map snd] in *.
      symmetry. now apply filter_remove_unique.
Qed.

Lemma deleteMember_count (st : Store) (id : string) :
  snd (deleteMember st id) = match getMember st id with Some _ => 1 | None => 0 end.
Proof.
  destruct (deleteMember_effect st id) as (_ & Hdb & Hfb).
  destruct (persistent st) eqn:Hmode.
  - destruct (Hdb eq_refl) as (_ & -> & _).
    rewrite (proj1 (members_persistent _ Hmode)).
    destruct (deleteOne_shape (fun m => String.eqb (Member.id m) id) (getMembers st))
      as [[-> ->]|(l1 & x & l2 & -> & Hn & Hq & ->)]; [reflexivity|].
    rewrite find_app_split, Hn. cbn [find]. now rewrite Hq.
  - destruct (Hfb eq_refl) as (_ & ->).
    rewrite (proj1 (proj2 (members_fallback _ Hmode))).
    destruct (delete_shape id (members (fallbackStorage st)))
      as [[-> ->]|(l1 & old & l2 & -> & Hn & ->)]; [reflexivity|].
    rewrite (get_app_None _ _ _ Hn). cbn [JsMap.get]. now rewrite String.eqb_refl.
Qed.

Lemma deleteMember_missing (st : Store) (id : string) :
  getMember st id = None -> fst (deleteMember st id) = st.
Proof.
  unfold getMember, deleteMember.
  split_store st; cbn; intros Hnone.
  2: {
    destruct (deleteOne_shape (fun m => String.eqb (Member.id m) id)
                (members_coll database)) as [[_ ->]|(l1 & x & l2 & Hc & Hn & Hq & _)].
    - now destruct database.
    - unfold Mongo.findOne in Hnone. rewrite Hc, find_app_split, Hn in Hnone.
      cbn in Hnone. now rewrite Hq in Hnone. }
  all: destruct (delete_shape id ms) as [[_ ->]|(l1 & old & l2 & -> & Hn & _)];
    [reflexivity|];
    rewrite (get_app_None _ _ _ Hn) in Hnone; cbn in Hnone;
    now rewrite String.eqb_refl in Hnone.
Qed.

Lemma find_filter_other (l : list Member.t) (id k : string) :
  k <> id ->
  find (fun m => String.eqb (Member.id m) k)
    (filter (fun m => negb (String.eqb (Member.id m) id)) l)
  = find (fun m => String.eqb (Member.id m) k) l.
Proof.
  intros Hne. induction l as [|x l IH]; cbn [filter find]; [reflexivity|].
  destruct (String.eqb_spec (Member.id x) id) as [Hid|Hid]; cbn [negb find].
  - rewrite IH. destruct (String.eqb_spec (Member.id x) k); [congruence | reflexivity].
  - now rewrite IH.
Qed.

Lemma find_filter_same (l : list Member.t) (id : string) :
  find (fun m => String.eqb (Member.id m) id)
    (filter (fun m => negb (String.eqb (Member.id m) id)) l) = None.
Proof.
  induction l as [|x l IH]; cbn [filter find]; [reflexivity|].
  destruct (String.eqb (Member.id x) id) eqn:E; cbn [negb find]; [exact IH|].
  now rewrite E.
Qed.

(** In a store whose member ids are pairwise distinct (and whose fallback
    member map is keyed by them), [DELETE /api/members/:id] answers 404 and
    leaves the store as it was when no member has the id, and otherwise
    answers 200 and removes exactly that member: the member list loses it
    and nothing else, a lookup of the id finds nothing, every other lookup
    is as before, and a mark for the id in an active session is refused
    with member-not-found. *)
Theorem delete_api_members_outcome (st : Store) (id : string) :
  members_keyed st ->
  member_ids_unique st ->
  let st' := fst (delete_api_members st id) in
  (getMember st id = None ->
   delete_api_members st id = (st, json_error 404 "Member not found" None))
  /\ (getMember st id <> None ->
      snd (delete_api_members st id) = json_message 200 "Member deleted successfully")
  /\ getMembers st' = filter (fun m => negb (String.eqb (Member.id m) id)) (getMembers st)
  /\ getMember st' id = None
  /\ (forall k, k <> id -> getMember st' k = getMember st k)
  /\ (forall (u : string) (n1 n2 : Z) (s : string),
        JsString.truthy s = true -> JsString.truthy id = true ->
        getSession st' s <> None ->
        post_api_attendance st' u n1 n2 s id = (st', MemberNotFound)).
Proof.
  intros Hk Hu st'.
  assert (Hst' : st' = fst (deleteMember st id)).
  { subst st'. apply delete_api_members_store. }
  assert (Hk' : members_keyed st').
  { subst st'. exact (proj1 (handle_member_ids st (DeleteMember id) (conj Hk Hu))). }
  assert (Hlist : getMembers st'
                  = filter (fun m => negb (String.eqb (Member.id m) id)) (getMembers st)).
  { rewrite Hst'. now apply deleteMember_getMembers. }
  assert (Hgone : getMember st' id = None).
  { rewrite (getMember_find st' id Hk'), Hlist. apply find_filter_same. }
  split; [|split; [|split; [exact Hlist|split; [exact Hgone|split]]]].
  - intros Hnone. unfold delete_api_members.
    pose proof (deleteMember_count st id) as Hc. rewrite Hnone in Hc.
    pose proof (deleteMember_missing st id Hnone) as Hs.
    destruct (deleteMember st id) as [st2 n]. cbn in Hc, Hs. now subst.
  - intros Hsome. unfold delete_api_members.
    pose proof (deleteMember_count st id) as Hc.
    destruct (getMember st id); [|now elim Hsome].
    destruct (deleteMember st id) as [st2 n]. cbn in Hc. now subst.
  - intros k Hne.
    rewrite (getMember_find st' k Hk'), (getMember_find st k Hk), Hlist.
    now apply find_filter_other.
  - intros u n1 n2 s Hs Hid Hsess. unfold post_api_attendance.
    rewrite Hs, Hid. cbn [negb orb].
    destruct (getSession st' s); [|now elim Hsess]. now rewrite Hgone.
Qed.

Lemma delete_api_members_outcome_witness :
  let st := run fallback_store three_marks in
  getMember (fst (delete_api_members st "m2")) "m2" = None.
Proof.
  intros st.
  refine (proj1 (proj2 (proj2 (proj2
    (delete_api_members_outcome st "m2" _ _))))).
  - unfold st, members_keyed. vm_compute. repeat constructor.
  - unfold st, member_ids_unique. vm_compute.
    repeat (constructor; [cbn; intuition discriminate|]). constructor.
Defined.

(** ** The report and the statistics after a write *)

Lemma getActiveSession_view (st : Store) :
  getActiveSession st
  = if persistent st then
      find (fun s => Session.is_active s =? 1) (stored_sessions st)
    else
      match activeSessionId (fallbackStorage st) with
      | Some sid =>
          if JsString.truthy sid then
            match JsMap.get sid (sessions (fallbackStorage st)) with
            | Some session => if Session.is_active session =? 1 then Some session else None
            | None => None
            end
          else None
      | None => None
      end.
Proof. split_store st; reflexivity. Qed.

Lemma getActiveSession_same (st st' : Store) :
  same_sessions st st' -> getActiveSession st' = getActiveSession st.
Proof.
  intros (Hp & Hs & Hm & Ha). rewrite !getActiveSession_view. now rewrite Hp, Hs, Hm, Ha.
Qed.

Lemma filter_drop_all {A} (q : A -> bool) (l : list A) :
  (forall y, In y l -> q y = false) -> filter q l = [].
Proof.
  induction l as [|x l IH]; cbn [filter]; intros H; [reflexivity|].
  rewrite (H x (or_introl eq_refl)). apply IH. intros y Hy. apply H. now right.
Qed.

Lemma filter_find_unique (l : list Member.t) (k : string) :
  NoDup (map Member.id l) ->
  filter (fun m => String.eqb (Member.id m) k) l
  = match find (fun m => String.eqb (Member.id m) k) l with
    | Some m => [m]
    | None => []
    end.
Proof.
  induction l as [|x l IH]; cbn [map filter find]; intros Hu; [reflexivity|].
  inversion Hu as [|? ? Hx Hl]; subst.
  destruct (String.eqb_spec (Member.id x) k) as [Hid|Hid]; [|now apply IH].
  f_equal. apply filter_drop_all.
  intros y Hy. apply String.eqb_neq. intros Heq. apply Hx.
  rewrite Hid, <- Heq. now apply in_map.
Qed.

Lemma resolve_filter (st : Store) (k : string) :
  members_keyed st ->
  member_ids_unique st ->
  resolve st k = filter (fun m => String.eqb (Member.id m) k) (getMembers st).
Proof.
  intros Hk Hu. destruct (persistent st) eqn:Hmode.
  - apply (members_persistent _ Hmode).
  - destruct (members_fallback _ Hmode) as (Hl & _ & Hr & _).
    rewrite Hr, (filter_find_unique _ k Hu), Hl.
    now rewrite (keyed_get_find _ k Hk).
Qed.

Lemma filter_flat_map {A B : Type} (keep : B -> bool) (rows : A -> list B) (l : list A) :
  filter keep (flat_map rows l) = flat_map (fun x => filter keep (rows x)) l.
Proof.
  induction l as [|x l IH]; cbn [flat_map]; [reflexivity|].
  now rewrite filter_app, IH.
Qed.

Lemma filter_map_swap {A B} (p : B -> bool) (f : A -> B) (l : list A) :
  filter p (map f l) = map f (filter (fun x => p (f x)) l).
Proof.
  induction l as [|x l IH]; cbn [map filter]; [reflexivity|].
  destruct (p (f x)); cbn [map]; now rewrite IH.
Qed.

Lemma filter_filter_swap {A} (p q : A -> bool) (l : list A) :
  filter p (filter q l) = filter q (filter p l).
Proof.
  induction l as [|x l IH]; cbn [filter]; [reflexivity|].
  destruct (q x) eqn:Eq, (p x) eqn:Ep; cbn [filter]; rewrite ?Eq, ?Ep, IH; reflexivity.
Qed.

Lemma Array_insert_head (x : Row.t) (l : list Row.t) :
  Forall (fun z => byScanTimeDesc x z <= 0) l ->
  Array_insert byScanTimeDesc x l = x :: l.
Proof.
  intros H. destruct H as [|y r Hy Hr]; cbn [Array_insert]; [reflexivity|].
  destruct (Z.gtb_spec (byScanTimeDesc x y) 0); [lia | reflexivity].
Qed.

Lemma Array_insert_filter (p : Row.t -> bool) (x : Row.t) (l : list Row.t) :
  StronglySorted newer_first l ->
  filter p (Array_insert byScanTimeDesc x l)
  = if p x then Array_insert byScanTimeDesc x (filter p l) else filter p l.
Proof.
  induction 1 as [|y r Hr IH Hy]; cbn [Array_insert filter].
  - now destruct (p x).
  - destruct (Z.gtb_spec (byScanTimeDesc x y) 0) as [Hgt|Hle]; cbn [filter].
    + rewrite IH. destruct (p y) eqn:Ey, (p x) eqn:Ex; cbn [Array_insert]; try reflexivity.
      destruct (Z.gtb_spec (byScanTimeDesc x y) 0); [reflexivity | lia].
    + destruct (p x) eqn:Ex; [|reflexivity].
      symmetry. apply Array_insert_head.
      apply incl_Forall with (y :: r).
      * intros z Hz.
        assert (Hin : In z (filter p (y :: r))) by exact Hz.
        now apply filter_In in Hin.
      * constructor; [exact Hle|].
        eapply Forall_impl; [|exact Hy].
        intros z Hz. unfold newer_first, byScanTimeDesc in *. lia.
Qed.

Lemma Array_sort_filter (p : Row.t -> bool) (l : list Row.t) :
  filter p (Array_sort byScanTimeDesc l) = Array_sort byScanTimeDesc (filter p l).
Proof.
  induction l as [|x l IH]; cbn [Array_sort filter]; [reflexivity|].
  rewrite (Array_insert_filter p x _ (Array_sort_sorted l)), IH.
  now destruct (p x).
Qed.

(** In a store whose member ids are pairwise distinct, deleting a member
    takes that member's rows out of the current-attendance report and
    leaves every other row where it was. *)
Theorem report_after_delete (st : Store) (id : string) :
  members_keyed st ->
  member_ids_unique st ->
  exists rows,
    get_api_attendance_current st = json_attendance rows
    /\ get_api_attendance_current (fst (delete_api_members st id))
       = json_attendance (filter (fun row => negb (String.eqb (Row.id row) id)) rows).
Proof.
  intros Hk Hu.
  destruct (handle_member_ids st (DeleteMember id) (conj Hk Hu)) as [Hk' Hu'].
  cbn [handle] in Hk', Hu'.
  destruct (delete_api_members_frame st id) as [(_ & Hrec & _) Hsess].
  pose proof (getActiveSession_same _ _ Hsess) as Hact.
  rewrite !get_api_attendance_current_joined, Hact.
  eexists. split; [reflexivity|]. f_equal.
  destruct (getActiveSession st) as [activeSession|]; [|reflexivity].
  rewrite Array_sort_filter. f_equal.
  unfold joined. rewrite Hrec, filter_flat_map.
  apply flat_map_ext. intros r.
  rewrite filter_map_swap.
  rewrite (resolve_filter _ _ Hk' Hu'), (resolve_filter _ _ Hk Hu).
  rewrite delete_api_members_store, (deleteMember_getMembers st id Hk Hu).
  now rewrite filter_filter_swap.
Qed.

Lemma report_after_delete_witness :
  let st := run fallback_store three_marks in
  exists rows,
    get_api_attendance_current st = json_attendance rows
    /\ get_api_attendance_current (fst (delete_api_members st "m2"))
       = json_attendance (filter (fun row => negb (String.eqb (Row.id row) "m2")) rows).
Proof.
  intros st. apply report_after_delete.
  - unfold st, members_keyed. vm_compute. repeat constructor.
  - unfold st, member_ids_unique. vm_compute.
    repeat (constructor; [cbn; intuition discriminate|]). constructor.
Defined.

Lemma stats_counts (st : Store) (sid : string) :
  get_api_sessions_stats st sid
  = json_stats
      (Z.of_nat (count_records (for_session sid) st))
      (Z.of_nat (count_records (first_time_in sid) st))
      (Z.of_nat (List.length (getMembers st))).
Proof.
  unfold get_api_sessions_stats, count_records, records, getMembers.
  destruct (connectToDatabase st) as [database|];
    [destruct (usingFallback (fallbackStorage st))|].
  2: {
    fold (for_session sid).
    rewrite <- filter_first_time_in.
    unfold Mongo.countDocuments.
    assert (Hall : filter (fun _ : Member.t => true) (members_coll database)
                   = members_coll database).
    { induction (members_coll database) as [|x l IH]; cbn; [reflexivity | now rewrite IH]. }
    rewrite Hall.
    destruct (filter (for_session sid) (attendance_records database)) as [|r l] eqn:E;
      [reflexivity|].
    rewrite fold_count_all, fold_count_first_time. reflexivity. }
  all: rewrite fold_stats_fallback; unfold JsMap.size, JsMap.values;
    rewrite length_map; reflexivity.
Qed.

(** A confirmed attendance request, scanned or manual, appends one record;
    the statistics of that record's session then count one more present
    and, when the response says first time, one more first-timer, while
    the statistics of every other session and the member total are as
    before. *)
Theorem stats_after_mark
  (st st' : Store) (req : Request) (memberId msg : string) (ft : bool) (rid : string) :
  marked_member req = Some memberId ->
  handle st req = (st', json_marked msg ft rid) ->
  exists r,
    records st' = records st ++ [r]
    /\ Attendance.member_id r = memberId
    /\ forall sid total_present first_time_count total_members,
         get_api_sessions_stats st sid
         = json_stats total_present first_time_count total_members ->
         get_api_sessions_stats st' sid
         = if String.eqb (Attendance.session_id r) sid then
             json_stats (total_present + 1)
               (first_time_count + (if ft then 1 else 0)) total_members
           else json_stats total_present first_time_count total_members.
Proof.
  intros Hm Hh.
  pose proof (mark_members_map (fun _ => tt) st req memberId Hm (fun _ _ => eq_refl)) as Hlen.
  apply (f_equal (@List.length unit)) in Hlen. rewrite !length_map in Hlen.
  rewrite Hh in Hlen. cbn [fst] in Hlen.
  destruct (marked_inversion st st' req memberId msg ft rid Hm Hh)
    as (_ & r & Hrecords & Hmem & Hflag & _).
  exists r. split; [exact Hrecords|]. split; [exact Hmem|].
  intros sid tp fc tm. rewrite !stats_counts. intros [= <- <- <-].
  unfold count_records. rewrite Hrecords, !filter_app, !length_app, Hlen.
  cbn [filter]. unfold first_time_in, for_session. rewrite Hflag.
  destruct (String.eqb (Attendance.session_id r) sid); cbn [andb].
  - destruct ft; cbn [List.length]; f_equal; lia.
  - cbn [List.length]. f_equal; lia.
Qed.

Lemma stats_after_mark_witness :
  get_api_sessions_stats
    (fst (handle sample_fallback (MarkAttendance "r1" 5 6 "s1" "m1"))) "s1"
  = json_stats 1 1 1.
Proof.
  destruct (stats_after_mark sample_fallback
              (fst (handle sample_fallback (MarkAttendance "r1" 5 6 "s1" "m1")))
              (MarkAttendance "r1" 5 6 "s1" "m1") "m1"
              "Welcome Ada Lovelace! First time attendance recorded." true "r1"
              eq_refl eq_refl) as (r & Hrec & _ & Hstats).
  injection Hrec as <-.
  exact (Hstats "s1"%string 0 0 1 eq_refl).
Defined.

Lemma getMember_resolve (st : Store) (k : string) (y : Member.t) :
  getMember st k = Some y -> In y (resolve st k).
Proof.
  destruct (persistent st) eqn:Hmode.
  - destruct (members_persistent _ Hmode) as (Hg & Hr & _).
    rewrite Hg, Hr. intros H. apply find_some in H as [Hin Hq].
    apply filter_In. now split.
  - destruct (members_fallback _ Hmode) as (_ & Hg & Hr & _).
    rewrite Hg, Hr. intros ->. now left.
Qed.

(** After a confirmed attendance request whose record is for the active
    session (a manual mark always is), the current-attendance report has a
    row for the member, carrying the record's scan time and flags. *)
Theorem mark_appears_in_report
  (st st' : Store) (req : Request) (memberId msg : string) (ft : bool) (rid : string)
  (activeSession : Session.t) :
  marked_member req = Some memberId ->
  handle st req = (st', json_marked msg ft rid) ->
  getActiveSession st = Some activeSession ->
  exists r member rows,
    records st' = records st ++ [r]
    /\ Attendance.id r = rid
    /\ getMember st' memberId = Some member
    /\ get_api_attendance_current st' = json_attendance rows
    /\ (Attendance.session_id r = Session.id activeSession ->
        In (project member r) rows).
Proof.
  intros Hm Hh Hact.
  destruct (marked_cases st st' req memberId msg ft rid Hm Hh)
    as (uuid & n1 & n2 & s & manual & Hrec & Hnone & [member Hmem] & _ & Hrid & Hft).
  destruct (record_attendance_effect st uuid n1 n2 s memberId manual Hnone)
    as (st2 & Hrec2 & _ & Hrecords & _ & _ & _ & Hact' & Hgm & _).
  assert (Est : st2 = st') by congruence. subst st2.
  destruct (Hgm memberId member Hmem) as (member' & Hmem' & _).
  rewrite <- Hft in Hrecords.
  eexists. exists member'. eexists.
  split; [exact Hrecords|]. split; [now cbn|]. split; [exact Hmem'|].
  split; [apply get_api_attendance_current_joined|].
  rewrite Hact', Hact. intros Hs.
  apply (Permutation_in _ (Permutation_sym (Array_sort_perm _ _))).
  unfold joined. apply in_flat_map.
  eexists. split.
  - apply filter_In. split.
    + rewrite Hrecords. apply in_or_app. right. now left.
    + unfold for_session. rewrite Hs. apply String.eqb_refl.
  - apply in_map_iff. exists member'. split; [reflexivity|].
    cbn [Attendance.member_id]. now apply getMember_resolve.
Qed.

Lemma mark_appears_in_report_witness :
  exists rows,
    get_api_attendance_current (fst (handle sample_fallback (MarkManual "r1" 5 6 "m1")))
    = json_attendance rows
    /\ In (Row.mk "m1" "Ada Lovelace" "ada@x.com" EmptyString true 6 true true) rows.
Proof.
  destruct (mark_appears_in_report sample_fallback
              (fst (handle sample_fallback (MarkManual "r1" 5 6 "m1")))
              (MarkManual "r1" 5 6 "m1") "m1"
              "Ada Lovelace marked present manually!" true "r1" sample_session
              eq_refl eq_refl eq_refl)
    as (r & member & rows & Hrec & _ & Hmem & Hrep & Hin).
  exists rows. split; [exact Hrep|].
  injection Hrec as <-. injection Hmem as <-.
  exact (Hin eq_refl).
Defined.

(** ** A member with an attendance record is left alone *)

Lemma getMember_same (st st' : Store) (k : string) :
  persistent st' = persistent st ->
  getMembers st' = getMembers st ->
  members (fallbackStorage st') = members (fallbackStorage st) ->
  getMember st' k = getMember st k.
Proof.
  intros Hp Hl Hm. destruct (persistent st) eqn:Hmode.
  - rewrite (proj1 (members_persistent _ Hp)), (proj1 (members_persistent _ Hmode)).
    now rewrite Hl.
  - rewrite (proj1 (proj2 (members_fallback _ Hp))),
      (proj1 (proj2 (members_fallback _ Hmode))).
    now rewrite Hm.
Qed.





(** ** Registration, lookup and the address check *)

Lemma trim_empty_or (s : string) :
  (if JsString.truthy s then JsString.trim s else EmptyString) = JsString.trim s.
Proof. now destruct s. Qed.

Lemma registered_member_lookup
  (st st1 : Store) (uuid : string) (now : Z) (name email phone address : string)
  (status : Z) (m : Member.t) (msg : string) :
  post_api_members st uuid now name email phone address = (st1, json_member status m msg) ->
  status = 201
  /\ m = Member.mk uuid (JsString.trim name) (JsString.toLowerCase (JsString.trim email))
           (JsString.trim phone) (JsString.trim address) now None
  /\ getMember st1 uuid = Some m
  /\ In m (getMembers st1).
Proof.
  intros Hpost.
  destruct (post_api_members_cases st uuid now name email phone address)
    as [[_ (s0 & e0 & c0 & Herr)]|(st' & m' & memberData & Hpost' & Hadd & Hid & Hmail & _)].
  - rewrite Hpost in Herr. discriminate.
  - rewrite Hpost in Hpost'. injection Hpost' as <- -> <- _.
    split; [reflexivity|].
    pose proof Hpost as Hshape.
    apply post_api_members_added in Hshape
      as (_ & _ & Hregex & _ & cleanPhone & cleanAddress & Hadd2).
    assert (Hm : m = Member.mk uuid (JsString.trim name)
                       (JsString.toLowerCase (JsString.trim email))
                       (JsString.trim phone) (JsString.trim address) now None).
    { unfold post_api_members in Hpost.
      destruct (JsString.truthy name); [|discriminate].
      destruct (JsString.truthy email); [|discriminate]. cbn [negb orb] in Hpost.
      rewrite Hregex in Hpost. cbn [negb] in Hpost.
      destruct (checkEmailExists st _); [discriminate|].
      rewrite !trim_empty_or in Hpost.
      destruct (addMember st _) as [st2 [r|e]] eqn:Hadd3.
      - injection Hpost as _ <-.
        apply addMember_success in Hadd3 as [-> _].
        unfold Member.with_email. cbn. f_equal. now apply normalize_clean.
      - destruct (_ || _)%bool; discriminate. }
    split; [exact Hm|].
    destruct (addMember_success st st1 memberData m Hadd) as (Hwith & _ & Hp & Hdb & Hfb).
    assert (Hmid : Member.id m = uuid) by (rewrite Hm; reflexivity).
    split; [|now apply (addMember_stored st st1 memberData m Hadd)].
    destruct (persistent st) eqn:Hmode.
    + rewrite (proj1 (members_persistent _ Hp)).
      destruct (Hdb eq_refl) as (-> & Hfresh & _).
      rewrite find_app_None; [now rewrite Hmid, String.eqb_refl|].
      apply find_None_forall. intros y Hy.
      apply String.eqb_neq. intros Heq.
      apply (members_unique_fresh _ _ Hfresh).
      rewrite Hmid, <- Heq. now apply in_map.
    + rewrite (proj1 (proj2 (members_fallback _ Hp))), (Hfb eq_refl), Hmid.
      apply get_set_same.
Qed.

(** A confirmed registration answers 201 with the member it stored: the
    drawn id, the trimmed name, phone and address, the trimmed lower-cased
    address, the clock as creation date and no first-scan date; a lookup of
    the id returns that member, and the member is in the member list. *)
Theorem register_then_lookup
  (st st1 : Store) (uuid : string) (now : Z) (name email phone address : string)
  (status : Z) (m : Member.t) (msg : string) :
  post_api_members st uuid now name email phone address = (st1, json_member status m msg) ->
  status = 201
  /\ m = Member.mk uuid (JsString.trim name) (JsString.toLowerCase (JsString.trim email))
           (JsString.trim phone) (JsString.trim address) now None
  /\ getMember st1 uuid = Some m
  /\ In m (getMembers st1).
Proof. apply registered_member_lookup. Qed.

Lemma register_then_lookup_witness :
  getMember registered_store "m1"
  = Some (Member.mk "m1" "Ada Lovelace" "ada@x.com" EmptyString EmptyString 1 None).
Proof.
  refine (proj1 (proj2 (proj2
    (register_then_lookup fallback_store registered_store "m1" 1 "Ada Lovelace"
       "ADA@X.COM" EmptyString EmptyString 201
       (Member.mk "m1" "Ada Lovelace" "ada@x.com" EmptyString EmptyString 1 None)
       "Member added successfully" _)))).
  vm_compute. reflexivity.
Defined.

Lemma registered_email_normal
  (st st1 : Store) (uuid : string) (now : Z) (name email phone address : string)
  (status : Z) (m : Member.t) (msg : string) :
  post_api_members st uuid now name email phone address = (st1, json_member status m msg) ->
  Member.email m = JsString.toLowerCase (JsString.trim email)
  /\ In m (getMembers st1).
Proof.
  intros Hpost.
  apply post_api_members_added in Hpost
    as (_ & _ & Hregex & _ & cleanPhone & cleanAddress & Hadd).
  apply addMember_stored in Hadd as [Hm Hin]. split; [|exact Hin].
  rewrite Hm. cbn [Member.email Member.with_email]. now apply normalize_clean.
Qed.

Lemma checkEmailExists_normalized (st : Store) (e1 e2 : string) :
  JsString.toLowerCase (JsString.trim e1) = JsString.toLowerCase (JsString.trim e2) ->
  checkEmailExists st e1 = checkEmailExists st e2.
Proof. intros H. unfold checkEmailExists. now rewrite H. Qed.

(** After a confirmed registration, [POST /api/check-email] reports the
    address as taken for every spelling that trims and lower-cases to the
    stored one, and returns the stored form. *)
Theorem check_email_after_registration
  (st st1 : Store) (uuid : string) (now : Z) (name email phone address : string)
  (status : Z) (m : Member.t) (msg : string) (spelling : string) :
  post_api_members st uuid now name email phone address = (st1, json_member status m msg) ->
  JsString.toLowerCase (JsString.trim spelling)
  = JsString.toLowerCase (JsString.trim email) ->
  post_api_check_email st1 spelling = reply_check true (Member.email m).
Proof.
  intros Hpost Hsame.
  pose proof Hpost as Hshape.
  apply post_api_members_added in Hshape as (_ & _ & Hregex & _).
  destruct (registered_email_normal st st1 uuid now name email phone address
              status m msg Hpost) as (Hmail & Hin).
  unfold post_api_check_email.
  assert (Htruthy : JsString.truthy spelling = true).
  { destruct spelling; [|reflexivity].
    cbn in Hsame. rewrite <- Hsame in Hregex. discriminate. }
  rewrite Htruthy. cbn [negb]. rewrite Hsame, <- Hmail. f_equal.
  apply (checkEmailExists_stored st1 m); [exact Hin | |].
  - now rewrite Hsame.
  - rewrite Hmail. apply toLowerCase_idempotent.
Qed.

Lemma check_email_after_registration_witness :
  post_api_check_email registered_store "  Ada@X.com " = reply_check true "ada@x.com".
Proof.
  refine (check_email_after_registration fallback_store registered_store "m1" 1
            "Ada Lovelace" "ADA@X.COM" EmptyString EmptyString 201
            (Member.mk "m1" "Ada Lovelace" "ada@x.com" EmptyString EmptyString 1 None)
            "Member added successfully" "  Ada@X.com " _ _).
  - vm_compute. reflexivity.
  - reflexivity.
Defined.

(** When [POST /api/check-email] reports an address as free, a
    registration of that address with a non-empty name is confirmed,
    provided the address has the accepted shape and, on the database
    backend, the drawn id is not the id of a stored member. *)
Theorem check_email_free_then_registered
  (st : Store) (uuid : string) (now : Z) (name email phone address clean : string) :
  post_api_check_email st email = reply_check false clean ->
  JsString.truthy name = true ->
  JsString.emailRegex_test clean = true ->
  (persistent st = true -> ~ In uuid (map Member.id (getMembers st))) ->
  exists st1 m,
    post_api_members st uuid now name email phone address
    = (st1, json_member 201 m "Member added successfully")
    /\ Member.email m = clean
    /\ getMember st1 uuid = Some m.
Proof.
  intros Hcheck Hname Hregex Hfresh.
  unfold post_api_check_email in Hcheck.
  destruct (JsString.truthy email) eqn:Hemail; [|discriminate]. cbn [negb] in Hcheck.
  injection Hcheck as Hfree Hclean. subst clean.
  set (clean := JsString.toLowerCase (JsString.trim email)) in *.
  assert (Hnorm : JsString.toLowerCase (JsString.trim clean) = clean)
    by now apply normalize_clean.
  assert (Hfree' : checkEmailExists st clean = false).
  { rewrite (checkEmailExists_normalized st clean email); [exact Hfree | exact Hnorm]. }
  destruct (post_api_members st uuid now name email phone address) as [st1 resp] eqn:Hpost.
  assert (Hok : exists m, resp = json_member 201 m "Member added successfully").
  { unfold post_api_members in Hpost.
    rewrite Hname, Hemail in Hpost. cbn [negb orb] in Hpost. fold clean in Hpost.
    rewrite Hregex, Hfree' in Hpost. cbn [negb] in Hpost.
    unfold addMember in Hpost. cbn [Member.email] in Hpost.
    rewrite Hnorm, Hfree' in Hpost.
    revert Hpost Hfresh. unfold persistent, getMembers.
    split_store st; cbn; intros Hpost Hfresh; try (injection Hpost as _ <-; eauto).
    unfold Mongo.insertOne in Hpost.
    match type of Hpost with context [existsb ?f ?l] =>
      assert (Hdup : existsb f l = false)
    end.
    { apply not_true_is_false. intros Hex.
      apply existsb_exists in Hex as (d & Hd & Hq). unfold members_unique in Hq.
      cbn [Member.id Member.email Member.with_email] in Hq.
      apply orb_prop in Hq as [Hq|Hq]; apply String.eqb_eq in Hq.
      - apply (Hfresh eq_refl). rewrite <- Hq. now apply in_map.
      - revert Hfree'. unfold checkEmailExists. cbn. rewrite Hnorm.
        unfold Mongo.findOne.
        destruct (find _ (members_coll database)) eqn:Hfind; [discriminate|].
        pose proof (find_none _ _ Hfind d Hd) as Hn. cbn in Hn.
        rewrite Hq, String.eqb_refl in Hn. discriminate. }
    rewrite Hdup in Hpost. injection Hpost as _ <-. eauto. }
  destruct Hok as [m ->].
  exists st1, m. split; [reflexivity|].
  destruct (registered_member_lookup st st1 uuid now name email phone address 201 m _ Hpost)
    as (_ & Hm & Hget & _).
  split; [now rewrite Hm | exact Hget].
Qed.

Lemma check_email_free_then_registered_witness :
  exists st1 m,
    post_api_members registered_store "m2" 2 "Bob" " Bob@X.com" EmptyString EmptyString
    = (st1, json_member 201 m "Member added successfully")
    /\ Member.email m = "bob@x.com"%string
    /\ getMember st1 "m2" = Some m.
Proof.
  refine (check_email_free_then_registered registered_store "m2" 2 "Bob" " Bob@X.com"
            EmptyString EmptyString "bob@x.com" _ _ _ _).
  - vm_compute. reflexivity.
  - reflexivity.
  - reflexivity.
  - discriminate.
Defined.

(** ** Manual marks and scans of the same member *)

Lemma getActiveSession_getSession (st : Store) (session : Session.t) :
  sessions_keyed st ->
  getActiveSession st = Some session ->
  exists found, getSession st (Session.id session) = Some found.
Proof.
  assert (Hfb : forall (ss : JsMap.t Session.t) (aid : option string),
             Forall (fun kv => fst kv = Session.id (snd kv)) ss ->
             match aid with
             | Some sid =>
                 if JsString.truthy sid then
                   match JsMap.get sid ss with
                   | Some x => if Session.is_active x =? 1 then Some x else None
                   | None => None
                   end
                 else None
             | None => None
             end = Some session ->
             exists found,
               match JsMap.get (Session.id session) ss with
               | Some x => if Session.is_active x =? 1 then Some x else None
               | None => None
               end = Some found).
  { intros ss [sid|] Hk; [|discriminate].
    destruct (JsString.truthy sid); [|discriminate].
    destruct (JsMap.get sid ss) as [x|] eqn:Hget; [|discriminate].
    destruct (Session.is_active x =? 1) eqn:Ha; [|discriminate].
    intros [= <-].
    pose proof (get_In _ _ _ Hget) as Hin.
    rewrite Forall_forall in Hk. pose proof (Hk _ Hin) as Hid. cbn in Hid.
    rewrite <- Hid, Hget, Ha. eauto. }
  unfold sessions_keyed.
  split_store st; cbn; intros Hk Hact; try (now apply Hfb with aid).
  unfold Mongo.findOne in *.
  destruct (find (fun s => (String.eqb (Session.id s) (Session.id session)
                            && (Session.is_active s =? 1))%bool)
              (attendance_sessions database)) as [found|] eqn:Hfind; [eauto|].
  apply find_some in Hact as [Hin Ha].
  pose proof (find_none _ _ Hfind session Hin) as Hq. cbn in Hq.
  now rewrite String.eqb_refl, Ha in Hq.
Qed.

(** After a confirmed manual mark, the member cannot be marked again for
    the active session: a second manual mark and a scan under the active
    session's id are both refused as already marked and change nothing.
    The fallback session map is keyed by the session ids, and the active
    session's id is not empty. *)
Theorem manual_then_scan_already_marked
  (st st1 : Store) (uuid : string) (n1 n2 : Z) (memberId msg : string)
  (ft : bool) (rid : string) (activeSession : Session.t) :
  sessions_keyed st ->
  getActiveSession st = Some activeSession ->
  JsString.truthy (Session.id activeSession) = true ->
  post_api_attendance_manual st uuid n1 n2 memberId = (st1, json_marked msg ft rid) ->
  forall (uuid' : string) (n1' n2' : Z),
    post_api_attendance_manual st1 uuid' n1' n2' memberId = (st1, AlreadyMarked)
    /\ post_api_attendance st1 uuid' n1' n2' (Session.id activeSession) memberId
       = (st1, AlreadyMarked).
Proof.
  intros Hk Hact Hid Hmark uuid' n1' n2'.
  apply post_api_attendance_manual_marked in Hmark
    as (session & Hm & Hact2 & [member Hmem] & Hnone & Hft & Hrid & Hrec).
  rewrite Hact in Hact2. injection Hact2 as <-.
  destruct (record_attendance_effect st uuid n1 n2 (Session.id activeSession) memberId
              true Hnone)
    as (st' & Hrec' & _ & _ & Hget & _ & Hgs & Hga & Hgm & _).
  cbv zeta in *. rewrite <- Hft in *.
  assert (Est : st' = st1) by congruence. subst st'.
  destruct (Hgm memberId member Hmem) as (member' & Hmem' & _).
  destruct (getActiveSession_getSession st activeSession Hk Hact) as [found Hfound].
  split.
  - unfold post_api_attendance_manual. now rewrite Hm, Hga, Hact, Hmem', Hget.
  - unfold post_api_attendance. now rewrite Hid, Hm, Hgs, Hfound, Hmem', Hget.
Qed.

Lemma manual_then_scan_already_marked_witness :
  let st1 := fst (post_api_attendance_manual sample_fallback "r1" 5 6 "m1") in
  post_api_attendance st1 "r2" 7 8 "s1" "m1" = (st1, AlreadyMarked).
Proof.
  intros st1.
  refine (proj2 (manual_then_scan_already_marked sample_fallback st1 "r1" 5 6 "m1"
                   "Ada Lovelace marked present manually!" true "r1" sample_session
                   _ _ _ _ "r2"%string 7 8)).
  - unfold sessions_keyed. cbn. repeat constructor.
  - reflexivity.
  - reflexivity.
  - vm_compute. reflexivity.
Defined.

(** With an active session, a manual mark is what a scan under that
    session's id does, up to the manual flag of the record and the wording
    of the confirmation: the same refusal with the store unchanged, or a
    confirmation with the same first-time flag and record id, the same
    records but for the flag, and the same members. The member id is not
    empty, nor is the active session's id. *)
Theorem manual_mark_is_scan_of_active_session
  (st : Store) (uuid : string) (n1 n2 : Z) (memberId : string)
  (activeSession : Session.t) :
  sessions_keyed st ->
  getActiveSession st = Some activeSession ->
  JsString.truthy (Session.id activeSession) = true ->
  JsString.truthy memberId = true ->
  match post_api_attendance st uuid n1 n2 (Session.id activeSession) memberId with
  | (st1, json_marked _ ft rid) =>
      exists st2 msg,
        post_api_attendance_manual st uuid n1 n2 memberId = (st2, json_marked msg ft rid)
        /\ map (fun r => (pair_of r, Attendance.id r, Attendance.is_first_time r,
                          Attendance.scan_time r)) (records st2)
           = map (fun r => (pair_of r, Attendance.id r, Attendance.is_first_time r,
                            Attendance.scan_time r)) (records st1)
        /\ getMembers st2 = getMembers st1
  | (st1, refusal) =>
      post_api_attendance_manual st uuid n1 n2 memberId = (st, refusal) /\ st1 = st
  end.
Proof.
  intros Hk Hact Hid Hm.
  destruct (getActiveSession_getSession st activeSession Hk Hact) as [found Hfound].
  unfold post_api_attendance, post_api_attendance_manual.
  rewrite Hid, Hm, Hact, Hfound. cbn [negb orb].
  destruct (getMember st memberId) as [member|]; [|split; reflexivity].
  destruct (getAttendanceRecord st (Session.id activeSession) memberId) eqn:Hnone;
    [split; reflexivity|].
  destruct (record_attendance_effect st uuid n1 n2 (Session.id activeSession) memberId
              false Hnone) as (sta & Hreca & _ & Hrecordsa & _).
  destruct (record_attendance_effect st uuid n1 n2 (Session.id activeSession) memberId
              true Hnone) as (stb & Hrecb & _ & Hrecordsb & _).
  unfold record_attendance in Hreca, Hrecb. cbv zeta in *.
  rewrite Hreca, Hrecb.
  exists stb. eexists. split; [reflexivity|].
  split.
  - rewrite Hrecordsa, Hrecordsb, !map_app. reflexivity.
  - apply (f_equal fst) in Hreca, Hrecb. cbn [fst] in Hreca, Hrecb.
    rewrite <- Hreca, <- Hrecb.
    now rewrite !(proj1 (addAttendanceRecord_members _ _)).
Qed.

Lemma manual_mark_is_scan_of_active_session_witness :
  exists st2 msg,
    post_api_attendance_manual sample_fallback "r1" 5 6 "m1"
    = (st2, json_marked msg true "r1")
    /\ map (fun r => (pair_of r, Attendance.id r, Attendance.is_first_time r,
                      Attendance.scan_time r)) (records st2)
       = [(("s1"%string, "m1"%string), "r1"%string, true, 6)]
    /\ getMembers st2 = [Member.with_first_scan_date 5 sample_member].
Proof.
  refine (manual_mark_is_scan_of_active_session sample_fallback "r1" 5 6 "m1"
            sample_session _ _ _ _).
  - unfold sessions_keyed. cbn. repeat constructor.
  - reflexivity.
  - reflexivity.
  - reflexivity.
Defined.

(** ** The session history and the active-session route *)

Lemma Array_insert_sessions_sorted (x : Session.t) (l : list Session.t) :
  StronglySorted newer_session_first l ->
  StronglySorted newer_session_first (Array_insert byCreatedDesc x l).
Proof.
  induction 1 as [|y r Hr IH Hy]; cbn.
  - constructor; constructor.
  - destruct (Z.gtb_spec (byCreatedDesc x y) 0) as [Hgt|Hle].
    + constructor; [exact IH|].
      apply (Permutation_Forall (Permutation_sym (Array_insert_perm byCreatedDesc x r))).
      constructor; [|exact Hy].
      unfold newer_session_first, byCreatedDesc in *. lia.
    + constructor; [now constructor|].
      constructor.
      * unfold newer_session_first, byCreatedDesc in *. lia.
      * eapply Forall_impl; [|exact Hy].
        intros z Hz. unfold newer_session_first, byCreatedDesc in *. lia.
Qed.

(** [GET /api/sessions] lists every stored session once, active or not,
    the most recently created first, on both backends. *)
Theorem session_history_sorted (st : Store) :
  exists sessions,
    get_api_sessions st = reply_sessions sessions
    /\ Permutation sessions (stored_sessions st)
    /\ StronglySorted newer_session_first sessions.
Proof.
  assert (Hsorted : forall l, StronglySorted newer_session_first (Array_sort byCreatedDesc l)).
  { induction l as [|x r IH]; cbn; [constructor|]. now apply Array_insert_sessions_sorted. }
  unfold get_api_sessions, stored_sessions.
  destruct (connectToDatabase st) as [database|];
    [destruct (usingFallback (fallbackStorage st))|];
    eexists; (split; [reflexivity|]); (split; [apply Array_sort_perm | apply Hsorted]).
Qed.

(** Right after a confirmed session creation, [GET /api/sessions/active],
    asked with the same external address and host, answers with the id,
    name and date of the new session, the scan address that was stored and
    sent at creation, and the image the imaging library draws for that
    address; the local address and the port play no part. *)
Theorem active_route_after_create
  (st st' : Store) (uuid sessionDate : string)
  (RENDER_EXTERNAL_URL host : option string) (LOCAL_IP PORT LOCAL_IP' PORT' : string)
  (qr qr' : string -> option string) (now : Z)
  (sessionName sid sname sdate qd img msg image' : string) :
  JsString.truthy uuid = true ->
  post_api_sessions st uuid sessionDate
    (baseUrl RENDER_EXTERNAL_URL host LOCAL_IP PORT) qr now sessionName
  = (st', json_session sid sname sdate qd img msg) ->
  qr' qd = Some image' ->
  get_api_sessions_active st' RENDER_EXTERNAL_URL host LOCAL_IP' PORT' qr'
  = reply_active uuid sessionName sessionDate image' qd
  /\ option_map Session.qr_data (getActiveSession st') = Some qd.
Proof.
  intros Huuid Hpost Hqr'.
  pose proof Hpost as Hcreated.
  apply post_api_sessions_created in Hcreated as [result Hcreate].
  pose proof (createSession_sessions st
                (Session.mk uuid sessionName sessionDate
                   (baseUrl RENDER_EXTERNAL_URL host LOCAL_IP PORT +++ "/scan/"%string +++ uuid)
                   1 now)) as H.
  rewrite Hcreate in H. destruct H as [_ Hget].
  specialize (Hget Huuid eq_refl).
  unfold post_api_sessions in Hpost.
  destruct (JsString.truthy sessionName); [|discriminate]. cbn [negb] in Hpost.
  destruct (qr _) as [image|] eqn:Hqr; [|discriminate].
  rewrite Hcreate in Hpost. injection Hpost as _ _ _ Hqd _ _.
  unfold get_api_sessions_active. rewrite Hget. cbn [Session.id Session.session_name
    Session.session_date Session.qr_data option_map].
  assert (Hbase : baseUrl RENDER_EXTERNAL_URL host LOCAL_IP' PORT'
                  = baseUrl RENDER_EXTERNAL_URL host LOCAL_IP PORT).
  { unfold baseUrl. destruct RENDER_EXTERNAL_URL as [[|c url]|]; reflexivity. }
  rewrite Hbase.
  match goal with
  | |- context [qr' ?x] => replace x with qd by (symmetry; exact Hqd)
  end.
  rewrite Hqr'. split; [reflexivity | now rewrite <- Hqd].
Qed.

Lemma active_route_after_create_witness :
  get_api_sessions_active
    (fst (post_api_sessions fallback_store "s1" "2024-01-07"
            (baseUrl None (Some "host"%string) "10.0.0.2" "5000") sample_qr 2
            "Sunday Service"))
    None (Some "host"%string) "192.168.1.9" "8080" (fun qrData => Some qrData)
  = reply_active "s1" "Sunday Service" "2024-01-07"
      "https://host/scan/s1" "https://host/scan/s1".
Proof.
  refine (proj1 (active_route_after_create fallback_store _ "s1" "2024-01-07"
                   None (Some "host"%string) "10.0.0.2" "5000" "192.168.1.9" "8080"
                   sample_qr (fun qrData => Some qrData) 2 "Sunday Service"
                   _ _ _ _ _ _ _ _ _ _)).
  - reflexivity.
  - vm_compute. reflexivity.
  - reflexivity.
Defined.

(** ** The first-scan date is written by the first mark *)

(** A confirmed scan of a member who has no first-scan date yet: when the
    response says first time, a lookup of the member afterwards returns
    the member with the clock of the update as first-scan date and nothing
    else changed; when it does not, the lookup returns the member as it
    was. *)
Theorem first_mark_sets_first_scan_date
  (st st' : Store) (uuid : string) (n1 n2 : Z) (sessionId memberId msg : string)
  (ft : bool) (rid : string) (x : Member.t) :
  post_api_attendance st uuid n1 n2 sessionId memberId = (st', json_marked msg ft rid) ->
  getMember st memberId = Some x ->
  Member.first_scan_date x = None ->
  getMember st' memberId
  = Some (if ft then Member.with_first_scan_date n1 x else x).
Proof.
  intros Hmark Hx Hdate.
  apply post_api_attendance_marked in Hmark
    as (_ & _ & _ & _ & Hnone & Hft & _ & Hrec).
  unfold record_attendance in Hrec. cbv zeta in Hrec. rewrite <- Hft in Hrec.
  apply (f_equal fst) in Hrec. cbn [fst] in Hrec. rewrite <- Hrec.
  destruct (addAttendanceRecord_members
              (if ft then updateMemberFirstScan st memberId n1 else st)
              (Attendance.mk uuid sessionId memberId ft n2 true false))
    as (Hl & Hmap & Hp).
  rewrite (getMember_same _ _ memberId Hp Hl Hmap).
  destruct ft; [|exact Hx].
  destruct (persistent st) eqn:Hmode.
  - now apply updateMemberFirstScan_database_sets.
  - destruct (updateMemberFirstScan_frame st memberId n1) as (Hp' & _).
    rewrite Hmode in Hp'.
    destruct (updateMemberFirstScan_members st memberId n1) as [_ Hfb].
    rewrite (proj1 (proj2 (members_fallback _ Hp'))), (Hfb Hmode).
    rewrite (proj1 (proj2 (members_fallback _ Hmode))) in Hx.
    rewrite get_mutate_same, Hx. cbn. now rewrite Hdate.
Qed.

Lemma first_mark_sets_first_scan_date_witness :
  getMember (fst (post_api_attendance sample_fallback "r1" 5 6 "s1" "m1")) "m1"
  = Some (Member.with_first_scan_date 5 sample_member).
Proof.
  refine (first_mark_sets_first_scan_date sample_fallback _ "r1" 5 6 "s1" "m1"
            "Welcome Ada Lovelace! First time attendance recorded." true "r1"
            sample_member _ _ _).
  - vm_compute. reflexivity.
  - reflexivity.
  - reflexivity.
Defined.

(** ** No member is listed twice in the report *)

Lemma map_flat_map {A B C} (f : B -> C) (g : A -> list B) (l : list A) :
  map f (flat_map g l) = flat_map (fun x => map f (g x)) l.
Proof.
  induction l as [|x l IH]; cbn [flat_map]; [reflexivity|].
  now rewrite map_app, IH.
Qed.

Lemma NoDup_flat_map_tags {A B} (f : A -> B) (g : A -> list B) (l : list A) :
  NoDup (map f l) ->
  (forall x, g x = [f x] \/ g x = []) ->
  NoDup (flat_map g l).
Proof.
  intros Hu Hg. induction l as [|x l IH]; cbn [map flat_map] in *; [constructor|].
  inversion Hu as [|? ? Hx Hl]; subst.
  destruct (Hg x) as [-> | ->]; cbn [app]; [|now apply IH].
  constructor; [|now apply IH].
  intros Hin. apply in_flat_map in Hin as (y & Hy & Hin).
  destruct (Hg y) as [Hgy|Hgy]; rewrite Hgy in Hin; [|destruct Hin].
  destruct Hin as [Heq|[]]. apply Hx. rewrite <- Heq. now apply in_map.
Qed.

Lemma NoDup_map_filter {A B : Type} (keep : A -> bool) (tag : A -> B) (l : list A)
  (Hunique : NoDup (map tag l)) : NoDup (map tag (filter keep l)).
Proof.
  revert Hunique.
  induction l as [|x l IH]; cbn [map filter]; intros Hu; [constructor|].
  inversion Hu as [|? ? Hx Hl]; subst.
  destruct (keep x); [|now apply IH].
  cbn [map]. constructor; [|now apply IH].
  intros Hin. apply Hx. apply in_map_iff in Hin as (y & Hy & Hin).
  apply filter_In in Hin as [Hin _]. rewrite <- Hy. now apply in_map.
Qed.

(** In a store with pairwise distinct member ids and at most one record
    for each (session, member) pair, the current-attendance report lists
    no member twice. *)
Theorem report_lists_members_once (st : Store) :
  members_keyed st ->
  member_ids_unique st ->
  pairs_unique st ->
  exists rows,
    get_api_attendance_current st = json_attendance rows
    /\ NoDup (map Row.id rows).
Proof.
  intros Hk Hu Hp.
  rewrite get_api_attendance_current_joined.
  eexists. split; [reflexivity|].
  destruct (getActiveSession st) as [activeSession|]; [|constructor].
  apply (Permutation_NoDup
           (Permutation_map Row.id
              (Permutation_sym (Array_sort_perm byScanTimeDesc _)))).
  unfold joined. rewrite map_flat_map.
  apply NoDup_flat_map_tags with (f := Attendance.member_id).
  - apply NoDup_map_inv with (f := pair (Session.id activeSession)).
    rewrite map_map.
    rewrite (map_ext_in _ pair_of).
    + now apply NoDup_map_filter.
    + intros r Hr. apply filter_In in Hr as [_ Hs].
      apply String.eqb_eq in Hs. unfold pair_of. now rewrite Hs.
  - intros r. rewrite map_map. cbn [project Row.id].
    rewrite (resolve_filter st _ Hk Hu), (filter_find_unique _ _ Hu).
    destruct (find _ (getMembers st)) as [member|] eqn:Hfind; [|now right].
    left. apply find_some in Hfind as [_ Hq]. apply String.eqb_eq in Hq.
    cbn. now rewrite Hq.
Qed.

Lemma report_lists_members_once_witness :
  exists rows,
    get_api_attendance_current (run fallback_store three_marks) = json_attendance rows
    /\ NoDup (map Row.id rows).
Proof.
  apply report_lists_members_once.
  - unfold members_keyed. vm_compute. repeat constructor.
  - unfold member_ids_unique. vm_compute.
    repeat (constructor; [cbn; intuition discriminate|]). constructor.
  - unfold pairs_unique. vm_compute.
    repeat (constructor; [cbn; intuition discriminate|]). constructor.
Defined.

(** ** Every reachable store is well formed *)

Lemma handle_store_ok (st : Store) (req : Request) :
  store_ok st -> store_ok (fst (handle st req)).
Proof.
  intros (Hs & Ha & Hmk & Hmu & Hen & Heu & Hp & Hr & Hc).
  destruct (handle_keyed st req (conj Hs Ha)) as [Hs' Ha'].
  destruct (handle_member_ids st req (conj Hmk Hmu)) as [Hmk' Hmu'].
  destruct (handle_emails st req (conj Hen Heu)) as [Hen' Heu'].
  repeat split; try assumption.
  - now apply handle_pairs_unique.
  - now apply handle_records_name_sessions.
  - now apply handle_active_count.
Qed.

(** Whatever requests are served, one after the other, from an empty
    store, on either backend: sessions, members and records are stored
    under their own keys; member ids are pairwise distinct; member
    addresses are lower-case and pairwise distinct; there is at most one
    record for each (session, member) pair; every record names a stored
    session; and at most one session is active. *)
Theorem reachable_stores_well_formed (reqs : list Request) :
  store_ok (run fallback_store reqs) /\ store_ok (run database_store reqs).
Proof.
  assert (Hrun : forall st, store_ok st -> store_ok (run st reqs)).
  { induction reqs as [|req reqs IH]; intros st H; cbn; [exact H|].
    apply IH. now apply handle_store_ok. }
  split; apply Hrun; repeat split; try constructor; cbn; lia.
Qed.

(** ** Where a registration puts the member *)

(** A confirmed registration whose drawn id is not the id of a stored
    member puts the new member at the end of the list that
    [GET /api/members] returns and leaves the members before it as they
    were. The fallback member map is keyed by the member ids. *)
Theorem register_appends_member
  (st st1 : Store) (uuid : string) (now : Z) (name email phone address : string)
  (status : Z) (m : Member.t) (msg : string) :
  members_keyed st ->
  ~ In uuid (map Member.id (getMembers st)) ->
  post_api_members st uuid now name email phone address = (st1, json_member status m msg) ->
  get_api_members st1 = reply_members (getMembers st ++ [m]).
Proof.
  intros Hk Hfresh Hpost. unfold get_api_members. f_equal.
  destruct (post_api_members_cases st uuid now name email phone address)
    as [[_ (s0 & e0 & c0 & Herr)]|(st' & m' & memberData & Hpost' & Hadd & Hid & _)].
  - rewrite Hpost in Herr. discriminate.
  - rewrite Hpost in Hpost'. injection Hpost' as <- _ <-.
    destruct (addMember_success st st1 memberData m Hadd) as (Hm & _ & Hp & Hdb & Hfb).
    assert (Hmid : Member.id m = uuid) by (rewrite Hm; exact Hid).
    destruct (persistent st) eqn:Hmode.
    + now destruct (Hdb eq_refl).
    + rewrite (proj1 (members_fallback _ Hp)), (Hfb eq_refl), Hmid.
      rewrite (proj1 (members_fallback _ Hmode)) in *.
      rewrite set_fresh; [unfold JsMap.values; now rewrite map_app|].
      apply get_None_keys. unfold members_keyed in Hk.
      now rewrite <- (keyed_ids _ Hk).
Qed.

Lemma register_appends_member_witness :
  get_api_members
    (fst (post_api_members registered_store "m2" 2 "Bob" "bob@x.com"
            EmptyString EmptyString))
  = reply_members
      [Member.mk "m1" "Ada Lovelace" "ada@x.com" EmptyString EmptyString 1 None;
       Member.mk "m2" "Bob" "bob@x.com" EmptyString EmptyString 2 None].
Proof.
  refine (register_appends_member registered_store _ "m2" 2 "Bob" "bob@x.com"
            EmptyString EmptyString 201
            (Member.mk "m2" "Bob" "bob@x.com" EmptyString EmptyString 2 None)
            "Member added successfully" _ _ _).
  - unfold members_keyed. vm_compute. repeat constructor.
  - vm_compute. intuition discriminate.
  - vm_compute. reflexivity.
Defined.

(** The two backends part ways when a registration with a new, well-formed
    address draws the id of a member that is stored: the fallback backend
    confirms it and the new member takes the place of the stored one, the
    member count unchanged; the database backend, whose id index is
    unique, refuses it with the email-exists error and keeps the store as
    it was. *)
Theorem register_with_stored_id
  (st : Store) (uuid : string) (now : Z) (name email phone address : string)
  (old : Member.t) :
  getMember st uuid = Some old ->
  JsString.truthy name = true ->
  JsString.truthy email = true ->
  JsString.emailRegex_test (JsString.toLowerCase (JsString.trim email)) = true ->
  checkEmailExists st email = false ->
  if persistent st then
    fst (post_api_members st uuid now name email phone address) = st
    /\ isEmailExists (snd (post_api_members st uuid now name email phone address))
  else
    exists st1 m,
      post_api_members st uuid now name email phone address
      = (st1, json_member 201 m "Member added successfully")
      /\ getMember st1 uuid = Some m
      /\ Member.email m = JsString.toLowerCase (JsString.trim email)
      /\ List.length (getMembers st1) = List.length (getMembers st).
Proof.
  intros Hold Hname Hemail Hregex Hfree.
  set (clean := JsString.toLowerCase (JsString.trim email)) in *.
  assert (Hnorm : JsString.toLowerCase (JsString.trim clean) = clean)
    by now apply normalize_clean.
  assert (Hfree' : checkEmailExists st clean = false).
  { rewrite (checkEmailExists_normalized st clean email); [exact Hfree | exact Hnorm]. }
  unfold post_api_members. rewrite Hname, Hemail. cbn [negb orb]. fold clean.
  rewrite Hregex, Hfree'. cbn [negb].
  unfold addMember. cbn [Member.email]. rewrite Hnorm, Hfree'.
  revert Hold. unfold persistent, getMember, getMembers.
  split_store st; cbn; intros Hold.
  2: {
    unfold Mongo.insertOne.
    match goal with |- context [existsb ?f ?l] =>
      assert (Hdup : existsb f l = true)
    end.
    { unfold Mongo.findOne in Hold. apply find_some in Hold as [Hin Hq].
      apply existsb_exists. exists old. split; [exact Hin|].
      unfold members_unique. cbn. now rewrite Hq. }
    rewrite Hdup. cbn. split; [reflexivity|]. unfold isEmailExists. eauto. }
  all: eexists; eexists; split; [reflexivity|]; cbn;
    split; [apply get_set_same|]; split; [reflexivity|];
    unfold JsMap.values; rewrite !length_map;
    now apply set_present with old.
Qed.

Lemma register_with_stored_id_witness :
  fst (post_api_members
         (fst (post_api_members database_store "m1" 1 "Ada Lovelace" "ADA@X.COM"
                 EmptyString EmptyString))
         "m1" 2 "Bob" "bob@x.com" EmptyString EmptyString)
  = fst (post_api_members database_store "m1" 1 "Ada Lovelace" "ADA@X.COM"
           EmptyString EmptyString).
Proof.
  refine (proj1 (register_with_stored_id
                   (fst (post_api_members database_store "m1" 1 "Ada Lovelace" "ADA@X.COM"
                           EmptyString EmptyString))
                   "m1" 2 "Bob" "bob@x.com" EmptyString EmptyString
                   (Member.mk "m1" "Ada Lovelace" "ada@x.com" EmptyString EmptyString 1 None)
                   _ _ _ _ _)); reflexivity.
Defined.
